(** * OLOGRAM command ([pygtftk/plugins/ologram.py]): a shallow embedding

    The command function [ologram] is a long sequence of checks, calls to
    collaborators (BED primitives, the GTF engine, the statistics engine
    [compute_overlap_stats]) and a final table dump.  It is embedded here as
    a program in a small trace/abort monad: every call to [message] and every
    call to the statistics engine is recorded in the trace, a [message] of
    type ERROR ends the run.  The collaborators that are not part of the
    plugin are gathered in the record [Collaborators]. *)

From Stdlib Require Import String Ascii List ZArith Bool Lia.
From Stdlib Require Import DecimalString SpecFloat.
Import ListNotations.
Open Scope string_scope.
Open Scope Z_scope.

(** ** Python built-ins used by the plugin *)

Module Py.

  (** [str(n)] for an [int]. *)
Definition str_int (z : Z) : string := NilZero.string_of_int (Z.to_int z).

  (** [sep.join(l)]. *)
Definition join (sep : string) (l : list string) : string := String.concat sep l.

  (** [s.split(c)] for a one-character separator: never returns the empty
      list, ["".split(",")] is [[""]]. *)
Fixpoint split (sep : ascii) (s : string) : list string :=
    match s with
    | EmptyString => [EmptyString]
    | String c r =>
        if Ascii.eqb c sep then EmptyString :: split sep r
        else match split sep r with
             | w :: ws => String c w :: ws
             | [] => [String c EmptyString]
             end
    end.

  (** [c in "0123456789"], [A-Z], [a-z] on character codes. *)
Definition in_range (lo hi : nat) (c : ascii) : bool :=
    let n := nat_of_ascii c in (Nat.leb lo n && Nat.leb n hi)%bool.

Definition is_digit (c : ascii) : bool := in_range 48 57 c.
Definition is_upper (c : ascii) : bool := in_range 65 90 c.
Definition is_lower (c : ascii) : bool := in_range 97 122 c.

  (** The character class [[A-Za-z0-9]]. *)
Definition is_alnum (c : ascii) : bool := (is_upper c || is_lower c || is_digit c)%bool.

  (** The character class [[A-Za-z0-9_]]. *)
Definition is_word (c : ascii) : bool := (is_alnum c || Ascii.eqb c "_")%bool.

Definition newline : ascii := ascii_of_nat 10.

  (** [all(p(c) for c in s)]. *)
Fixpoint forallb_string (p : ascii -> bool) (s : string) : bool :=
    match s with
    | EmptyString => true
    | String c r => (p c && forallb_string p r)%bool
    end.

  (** [k in d] for a list used as a set of strings. *)
Definition mem (k : string) (l : list string) : bool :=
    existsb (String.eqb k) l.

  (** [set(l)] kept in order of first appearance. *)
Fixpoint uniq (l : list string) : list string :=
    match l with
    | [] => []
    | x :: r => x :: filter (fun y => negb (String.eqb x y)) (uniq r)
    end.

  (** Insertion into a list sorted with [String.leb]; [sorted(l)] below. *)
Fixpoint insert_sorted (x : string) (l : list string) : list string :=
    match l with
    | [] => [x]
    | y :: r => if String.leb x y then x :: l else y :: insert_sorted x r
    end.

Definition sorted (l : list string) : list string :=
    fold_right insert_sorted [] l.

  (** *** Ordered dictionaries

      A Python [dict] keeps insertion order; assigning to an existing key
      keeps the key's position. *)
Section Dict.
Context {V : Type}.

Definition dict := list (string * V).

Definition keys (d : dict) : list string := map fst d.
Definition values (d : dict) : list V := map snd d.

Definition has_key (k : string) (d : dict) : bool := mem k (keys d).

Fixpoint get (k : string) (d : dict) : option V :=
      match d with
      | [] => None
      | (k', v) :: r => if String.eqb k k' then Some v else get k r
      end.

Fixpoint set (k : string) (v : V) (d : dict) : dict :=
      match d with
      | [] => [(k, v)]
      | (k', v') :: r =>
          if String.eqb k k' then (k', v) :: r else (k', v') :: set k v r
      end.

Definition del (k : string) (d : dict) : dict :=
      filter (fun kv => negb (String.eqb k (fst kv))) d.
End Dict.
Arguments dict V : clear implicits.

End Py.

(** ** Regular expressions of the plugin

    Each pattern of the plugin is embedded as the string function it
    denotes under Python's [re] semantics: without [re.MULTILINE], [^]
    matches at position 0 only and [$] matches at the end of the string or
    just before a newline that ends the string; [.] does not match a
    newline; [re.sub] replaces the leftmost match first. *)

Module Re.
Import Py.

  (** [$] followed by nothing else in the pattern: what is left of the
      subject is either empty or one final newline. *)
Definition at_dollar (s : string) : bool :=
    match s with
    | EmptyString => true
    | String c EmptyString => Ascii.eqb c newline
    | _ => false
    end.

  (** Tail of [[A-Za-z0-9_]*$]. *)
Fixpoint word_tail (s : string) : bool :=
    match s with
    | EmptyString => true
    | String c r => if is_word c then word_tail r else at_dollar s
    end.

  (** [re.search("^[A-Za-z0-9_]+$", s)] is not [None]. *)
Definition search_label (s : string) : bool :=
    match s with
    | EmptyString => false
    | String c r => (is_word c && word_tail r)%bool
    end.

  (** If [s] starts with [p], what follows [p]. *)
Fixpoint strip_prefix (p s : string) : option string :=
    match p, s with
    | EmptyString, _ => Some s
    | String a p', String b s' => if Ascii.eqb a b then strip_prefix p' s' else None
    | String _ _, EmptyString => None
    end.

  (** One character among the two given ones, as in [[Bb]]. *)
Definition one_of2 (a b : ascii) (s : string) : option string :=
    match s with
    | String c r => if (Ascii.eqb c a || Ascii.eqb c b)%bool then Some r else None
    | EmptyString => None
    end.

Definition is_3456 (c : ascii) : bool := in_range 51 54 c.

  (** [_converted\.[Bb][Ee][Dd][3456]{0,1}$] matched at the start of [s]:
      [Some rest] gives what is left after the match (empty or the final
      newline). *)
Definition match_converted (s : string) : option string :=
    match strip_prefix "_converted." s with
    | None => None
    | Some s1 =>
      match one_of2 "B" "b" s1 with
      | None => None
      | Some s2 =>
        match one_of2 "E" "e" s2 with
        | None => None
        | Some s3 =>
          match one_of2 "D" "d" s3 with
          | None => None
          | Some s4 =>
            match s4 with
            | String c r =>
                if (is_3456 c && at_dollar r)%bool then Some r
                else if at_dollar s4 then Some s4 else None
            | EmptyString => Some EmptyString
            end
          end
        end
      end
    end.

  (** [((?!pygtftk).)*$]: every character up to the end is not a newline
      and does not start an occurrence of [pygtftk]. *)
Fixpoint tempered_tail (s : string) : option string :=
    match s with
    | EmptyString => Some EmptyString
    | String c r =>
        if at_dollar s then Some s
        else if Ascii.eqb c newline then None
        else match strip_prefix "pygtftk" s with
             | Some _ => None
             | None => tempered_tail r
             end
    end.

  (** [_pygtftk_?((?!pygtftk).)*$] matched at the start of [s].  The
      optional underscore may equally be consumed by the tempered dot, so
      it does not change which subjects match. *)
Definition match_pygtftk (s : string) : option string :=
    match strip_prefix "_pygtftk" s with
    | None => None
    | Some r => tempered_tail r
    end.

  (** [re.sub(pattern, "", s)] for a pattern that ends in [$] and cannot
      match the empty string: the leftmost match is removed, what follows
      it (at most the final newline) is kept. *)
Fixpoint sub_anchored (m : string -> option string) (s : string) : string :=
    match m s with
    | Some rest => rest
    | None =>
        match s with
        | EmptyString => EmptyString
        | String c r => String c (sub_anchored m r)
        end
    end.

  (** [re.sub("[^A-Za-z0-9]+", "_", s)]: [in_run] tells that the previous
      character was already replaced. *)
Fixpoint sub_non_alnum_aux (in_run : bool) (s : string) : string :=
    match s with
    | EmptyString => EmptyString
    | String c r =>
        if is_alnum c then String c (sub_non_alnum_aux false r)
        else if in_run then sub_non_alnum_aux true r
        else String "_" (sub_non_alnum_aux true r)
    end.

Definition sub_non_alnum (s : string) : string := sub_non_alnum_aux false s.

End Re.

(** [os.path.basename(p)]: what follows the last ['/']. *)
Fixpoint basename (p : string) : string :=
  match p with
  | EmptyString => EmptyString
  | String c r =>
      if existsb (Ascii.eqb "/") (list_ascii_of_string r) then basename r
      else if Ascii.eqb c "/" then r else p
  end.

(** ** Data of the plugin *)

(** One line of a BED file, half-open and zero-based. *)
Record region := mk_region { chrom : string; start : Z; end_ : Z }.

(** A [BedTool]: the regions of a BED file, in file order. *)
Definition bed := list region.

(** An opened BED file ([FormattedFile]): its [name] and its content. *)
Record bed_file := mk_bed_file { bf_name : string; bf_regions : bed }.

(** The opened chromInfo file. *)
Record chrom_file := mk_chrom_file { cf_name : string; cf_lines : list (string * Z) }.

(** [chrom_len]: chromosome name to length, as a [dict]. *)
Definition chrom_dict := Py.dict Z.

(** A value of a statistics record: Python [int] or [float]. *)
Inductive pyval :=
| PInt (z : Z)
| PFloat (f : spec_float).

(** *** The statistics record

    Modelled from the spec: the record built by [compute_overlap_stats]
    (module [pygtftk.stats.intersect], not among the sources).  The spec
    (section 6) lists its fields; their names are those the plugin reads
    back ([--sort-features] choices, the column names used by the plots) and
    their order is the one of the column numbers of the plugin's tests. *)
Record OverlapStatRecord := mk_record {
  nb_intersections_expectation_shuffled : pyval;
  nb_intersections_variance_shuffled : pyval;
  nb_intersections_negbinom_fit_quality : pyval;
  nb_intersections_log2_fold_change : pyval;
  nb_intersections_true : pyval;
  nb_intersections_pvalue : pyval;
  summed_bp_overlaps_expectation_shuffled : pyval;
  summed_bp_overlaps_variance_shuffled : pyval;
  summed_bp_overlaps_negbinom_fit_quality : pyval;
  summed_bp_overlaps_log2_fold_change : pyval;
  summed_bp_overlaps_true : pyval;
  summed_bp_overlaps_pvalue : pyval
}.

(** The record seen as the ordered [dict] the plugin iterates on. *)
Definition record_items (r : OverlapStatRecord) : Py.dict pyval :=
  [ ("nb_intersections_expectation_shuffled", nb_intersections_expectation_shuffled r);
    ("nb_intersections_variance_shuffled", nb_intersections_variance_shuffled r);
    ("nb_intersections_negbinom_fit_quality", nb_intersections_negbinom_fit_quality r);
    ("nb_intersections_log2_fold_change", nb_intersections_log2_fold_change r);
    ("nb_intersections_true", nb_intersections_true r);
    ("nb_intersections_pvalue", nb_intersections_pvalue r);
    ("summed_bp_overlaps_expectation_shuffled", summed_bp_overlaps_expectation_shuffled r);
    ("summed_bp_overlaps_variance_shuffled", summed_bp_overlaps_variance_shuffled r);
    ("summed_bp_overlaps_negbinom_fit_quality", summed_bp_overlaps_negbinom_fit_quality r);
    ("summed_bp_overlaps_log2_fold_change", summed_bp_overlaps_log2_fold_change r);
    ("summed_bp_overlaps_true", summed_bp_overlaps_true r);
    ("summed_bp_overlaps_pvalue", summed_bp_overlaps_pvalue r) ].

(** *** Combinations of sets

    Modelled from the spec: a combination is a boolean vector, the query
    first and then the reference sets in the order of [--more-bed] (the
    plugin's test notes write the expected combinations of two reference
    sets as [[1,1,0]] and [[1,1,1]]). *)
Definition CombinationKey := list bool.

Definition includes_query (k : CombinationKey) : bool := hd false k.

(** Number of sets taking part in the combination. *)
Definition combi_size (k : CombinationKey) : Z := Z.of_nat (List.length (filter (fun b => b) k)).

Fixpoint combi_eqb (k1 k2 : CombinationKey) : bool :=
  match k1, k2 with
  | [], [] => true
  | b1 :: r1, b2 :: r2 => (Bool.eqb b1 b2 && combi_eqb r1 r2)%bool
  | _, _ => false
  end.

Definition combi_mem (k : CombinationKey) (l : list CombinationKey) : bool :=
  existsb (combi_eqb k) l.

Fixpoint combi_uniq (l : list CombinationKey) : list CombinationKey :=
  match l with
  | [] => []
  | k :: r => k :: filter (fun k' => negb (combi_eqb k k')) (combi_uniq r)
  end.

(** *** Arguments of the command function

    The keyword arguments of [ologram(...)] that take part in the checks
    and in the statistics; the arguments that only drive the PDF output are
    left out.  [GTF] is the type of a loaded GTF. *)
Module Args.
Record t {GTF : Type} := mk {
    inputfile : option GTF;
    peak_file : bed_file;
    chrom_info : option chrom_file;
    more_bed : option (list bed_file);
    more_bed_labels : option string;
    no_gtf : bool;
    upstream : Z;
    more_keys : option string;
    downstream : Z;
    no_basic_feature : bool;
    bed_excl : option bed;
    bed_incl : option bed;
    more_bed_multiple_overlap : bool;
    multiple_overlap_target_combi_size : Z;
    multiple_overlap_max_number_of_combinations : Z;
    multiple_overlap_custom_combis : option (list (list bool));
    use_markov : bool;
    force_chrom_gtf : bool;
    force_chrom_peak : bool;
    force_chrom_more_bed : bool;
    nb_threads : Z;
    seed : Z;
    minibatch_nb : Z;
    minibatch_size : Z
  }.
Arguments t GTF : clear implicits.
End Args.

(** *** One call of the statistics engine

    The keyword arguments of a call [overlap_partial(bedA=..., bedsB=...,
    ft_type=...)], that is of [compute_overlap_stats] with the arguments
    fixed by [functools.partial].  [bedsB] is one BED with its label, or,
    for multiple overlaps, the list of all BEDs with their labels and the
    three multiple-overlap options. *)
Inductive beds_b :=
| SingleB (bedsB : bed) (ft_type : string)
| MultiB (bedsB : list bed) (ft_type : list string)
         (multiple_overlap_target_combi_size : Z)
         (multiple_overlap_max_number_of_combinations : Z)
         (multiple_overlap_custom_combis : option (list (list bool))).

Module Call.
Record t := mk {
    bedA : bed;
    bedsB : beds_b;
    chrom_len : chrom_dict;
    minibatch_size : Z;
    minibatch_nb : Z;
    bed_excl : option bed;
    use_markov_shuffling : bool;
    nb_threads : Z
  }.
End Call.

(** ** Messages, trace and the run monad *)

(** The [type] argument of [message]; the default is INFO. *)
Inductive level := INFO | WARNING | ERROR | DEBUG.

Inductive event :=
| Ev_message (type : level) (msg : string)
| Ev_overlap (call : Call.t).

(** How a run ends: normally, by [sys.exit] after an ERROR message, or by
    an uncaught Python exception. *)
Inductive outcome (A : Type) :=
| Done (a : A)
| Exit
| Crash.
Arguments Done {A} a.
Arguments Exit {A}.
Arguments Crash {A}.

Section Monad.
  (** State of numpy's global random generator. *)
Context {RNG : Type}.

Definition M (A : Type) : Type := RNG -> list event * outcome (A * RNG).

Definition ret {A} (a : A) : M A := fun g => ([], Done (a, g)).

Definition bind {A B} (m : M A) (f : A -> M B) : M B :=
    fun g =>
      match m g with
      | (t, Done (a, g')) => let '(t', r) := f a g' in ((t ++ t')%list, r)
      | (t, Exit) => (t, Exit)
      | (t, Crash) => (t, Crash)
      end.

Definition emit (e : event) : M unit := fun g => ([e], Done (tt, g)).

Definition crash {A} : M A := fun g => ([], Crash).

  (** Modelled from the spec: [pygtftk.utils.message] is not among the
      sources.  A message of type ERROR is fatal (spec, section 7: errors
      are reported and abort the run); the other types only print. *)
Definition message (msg : string) (type : level) : M unit :=
    fun g =>
      match type with
      | ERROR => ([Ev_message ERROR msg], Exit)
      | _ => ([Ev_message type msg], Done (tt, g))
      end.

  (** [if c: body]. *)
Definition when (c : bool) (body : M unit) : M unit :=
    if c then body else ret tt.

  (** [for x in l: body(x)]. *)
Fixpoint for_ {A} (l : list A) (body : A -> M unit) : M unit :=
    match l with
    | [] => ret tt
    | x :: r => bind (body x) (fun _ => for_ r body)
    end.

  (** A loop that updates a local variable. *)
Fixpoint fold_ {A S} (l : list A) (body : S -> A -> M S) (s : S) : M S :=
    match l with
    | [] => ret s
    | x :: r => bind (body s x) (fun s' => fold_ r body s')
    end.
End Monad.
Arguments M RNG A : clear implicits.

Declare Scope run_scope.
Delimit Scope run_scope with run.
Notation "x <- c1 ;; c2" := (bind c1 (fun x => c2))
  (at level 61, c1 at next level, right associativity) : run_scope.
Notation "c1 ;; c2" := (bind c1 (fun _ => c2))
  (at level 61, right associativity) : run_scope.

(** ** Collaborators

    What [ologram] calls and does not define: [multiprocessing.cpu_count],
    numpy's seeding, [pygtftk.utils.chrom_info_as_dict] ([None] stands for a
    raised exception), the [BedTool] primitives, the two exclusion helpers
    of [read_bed], the wall-clock reading printed after the exclusion, the
    methods of the [GTF] class that are used, the statistics engine for one
    reference set, and the three building blocks of the multiple-overlap
    engine (see [compute_overlap_stats_multi]). *)
Record Collaborators {GTF RNG : Type} := mk_collaborators {
  cpu_count : Z;
  np_random_seed : Z -> RNG;
  chrom_info_as_dict : option chrom_file -> option chrom_dict;
  bed_sort : bed -> bed;
  bed_merge : bed -> bed;
  bed_subtract : bed -> bed -> bed;
  bed_slop : bed -> Z -> Z -> string -> bed;
  exclude_chromsizes : bed -> chrom_dict -> chrom_dict;
  exclude_concatenate : bed -> bed -> Z -> bed;
  elapsed : string;
  gtf_get_chroms : GTF -> list string;
  gtf_select_by_key : GTF -> string -> string -> GTF;
  gtf_len : GTF -> nat;
  gtf_get_feature_list : GTF -> list string;
  gtf_to_bed : GTF -> bed;
  gtf_get_intergenic : GTF -> option chrom_file -> list string -> bed;
  gtf_get_introns : GTF -> bed;
  gtf_get_tss : GTF -> bed;
  gtf_get_tts : GTF -> bed;
  gtf_extract_data : GTF -> string -> list string;
  stats_single : RNG -> Call.t -> OverlapStatRecord * RNG;
  multi_intersections : RNG -> Call.t -> list (list (CombinationKey * Z)) * RNG;
  combi_stats : Call.t -> list (list (CombinationKey * Z)) -> CombinationKey -> OverlapStatRecord;
  modl : Z -> list CombinationKey -> list CombinationKey;
  str_float : spec_float -> string
}.
Arguments Collaborators GTF RNG : clear implicits.

(** The double quote, for the messages that contain one. *)
Definition dq : string := String (ascii_of_nat 34) EmptyString.

(** [str(v)] for a value of a record. *)
Definition py_str {GTF RNG} (ext : Collaborators GTF RNG) (v : pyval) : string :=
  match v with
  | PInt z => Py.str_int z
  | PFloat f => str_float ext f
  end.

(** ** The multiple-overlap engine

    Modelled from the spec: [compute_overlap_stats] called with a list of
    reference sets (module [pygtftk.stats.intersect], not among the
    sources).  Spec, sections 4.3 and 4.5: for the true data and for every
    shuffle the engine computes, at each locus, the combination of the sets
    that take part and the overlapping length; only the combinations that
    include the query are retained; the reported combinations are all the
    observed ones, or those of at most [target_combi_size] sets, or those
    kept by the MODL pruning; a custom list of combinations, given on the
    reference sets in the order of [--more-bed], replaces the enumeration.
    The intersection itself ([multi_intersections], true data first), the
    statistics of one combination ([combi_stats]) and the selection of
    words ([modl]) are collaborators. *)
Section MultiEngine.
Context {GTF RNG : Type} (ext : Collaborators GTF RNG).

Definition retained (loci : list (CombinationKey * Z)) : list (CombinationKey * Z) :=
    filter (fun l => includes_query (fst l)) loci.

Definition observed_combinations (data : list (list (CombinationKey * Z))) : list CombinationKey :=
    combi_uniq (map fst (concat data)).

Definition reported_combinations
      (target max : Z) (custom : option (list (list bool)))
      (observed : list CombinationKey) : list CombinationKey :=
    match custom with
    | Some rows => map (cons true) rows
    | None =>
        let capped :=
          if target =? -1 then observed
          else filter (fun k => combi_size k <=? target) observed in
        if max =? -1 then capped
        else filter (fun k => combi_mem k (modl ext max capped)) capped
    end.

Definition compute_overlap_stats_multi (g : RNG) (call : Call.t)
    : list (CombinationKey * OverlapStatRecord) * RNG :=
    match Call.bedsB call with
    | SingleB _ _ => ([], g)
    | MultiB _ _ target max custom =>
        let '(data, g') := multi_intersections ext g call in
        let kept := map retained data in
        let reported := reported_combinations target max custom (observed_combinations kept) in
        (map (fun k => (k, combi_stats ext call kept k)) reported, g')
    end.

  (** Modelled from the spec: the readable form of a combination, the key
      of the engine's result, as the plugin's documentation writes it
      ([[Query + A + B]]). *)
Fixpoint selected_labels (labels : list string) (k : list bool) : list string :=
    match labels, k with
    | l :: ls, b :: bs => if b then l :: selected_labels ls bs else selected_labels ls bs
    | _, _ => []
    end.

Definition combi_human_readable (ft_type : list string) (k : CombinationKey) : string :=
    "[" ++ Py.join " + " (selected_labels ("Query" :: ft_type) k) ++ "]".
End MultiEngine.

(** ** The command function [ologram], section by section *)

Section Ologram.
Context {GTF RNG : Type} (ext : Collaborators GTF RNG).
Local Open Scope run_scope.
Local Abbreviation M := (M RNG).
Local Abbreviation Args := (Args.t GTF).

  (** [x is not None]. *)
Definition is_some {A} (o : option A) : bool :=
    match o with Some _ => true | None => false end.

Definition is_none {A} (o : option A) : bool := negb (is_some o).

  (** Truth value of an optional string ([None] and [""] are false). *)
Definition truthy (o : option string) : bool :=
    match o with
    | Some s => negb (String.eqb s "")
    | None => false
    end.

  (** *** Initial checkups *)

Definition threads_warning (nb_threads available_cores : Z) : string :=
    "Using only " ++ Py.str_int nb_threads ++ " threads, but "
    ++ Py.str_int available_cores
    ++ " cores are available. Consider changing the --nb-threads parameter.".

Definition initial_checkups (a : Args) : M unit :=
    (fun _ => ([], Done (tt, np_random_seed ext (Args.seed a)))) ;;
    when (Args.use_markov a)
      (message "Using Markov order 2 shuffling." INFO ;;
       message ("Markov-based null is still in beta at the moment and tends to biais the "
                ++ dq ++ "null" ++ dq ++ " hypothesis towards association.") WARNING) ;;
    let available_cores := cpu_count ext in
    when (Args.nb_threads a <? available_cores)
      (message (threads_warning (Args.nb_threads a) available_cores) WARNING).

  (** *** Multiple overlaps on --more-bed parameters check *)

Definition msg_mocs_ignored_no_mo : string :=
  "--multiple-overlap-target-combi-size is ignored when not working with multiple overlaps (--more-bed-multiple-overlap).".

Definition msg_monc_ignored_no_mo : string :=
  "--multiple-overlap-max-number-of-combinations is ignored when not working with multiple overlaps (--more-bed-multiple-overlap).".

Definition msg_mocs_ignored_custom : string :=
    "--multiple-overlap-target-combi-size is ignored when custom combinations are enforced (with --multiple-overlap-custom-combis).".

Definition msg_monc_ignored_custom : string :=
    "--multiple-overlap-max-number-of-combinations is ignored when custom combinations are enforced (with --multiple-overlap-custom-combis)".

Definition msg_custom_needs_mo : string :=
    "Cannot use --multiple-overlap-custom-combis without the argument --more-bed-multiple-overlap.".

Definition multiple_overlap_checks (a : Args) : M unit :=
    let mo := Args.more_bed_multiple_overlap a in
    let target := Args.multiple_overlap_target_combi_size a in
    let max := Args.multiple_overlap_max_number_of_combinations a in
    when mo
      (when (is_none (Args.more_bed a))
         (message "Multiple overlaps (--more-bed-multiple-overlap) are only computed with the query and user-defined regions : please provide those with the --more-bed argument." ERROR)) ;;
    (* Useless parameters *)
    when (negb mo)
      (when (negb (target =? -1))
         (message msg_mocs_ignored_no_mo INFO) ;;
       when (negb (max =? -1))
         (message msg_monc_ignored_no_mo INFO)) ;;
    (* Enforcing custom combinations *)
    when (is_some (Args.multiple_overlap_custom_combis a))
      (when (negb (target =? -1)) (message msg_mocs_ignored_custom INFO) ;;
       when (negb (max =? -1)) (message msg_monc_ignored_custom INFO) ;;
       when (negb mo) (message msg_custom_needs_mo ERROR)).

  (** *** No GTF, no basic feature *)

Definition no_gtf_checks (a : Args) : M unit :=
    when (Args.no_gtf a)
      (when (is_some (Args.more_keys a))
         (message "If --more-keys should be used with a GTF." ERROR) ;;
       when (Args.no_basic_feature a)
         (message "If --no-basic-feature should be used with a GTF." ERROR) ;;
       when (is_none (Args.more_bed a))
         (message "If --no-gtf is set to True provide --more-bed." ERROR)).

Definition no_basic_feature_checks (a : Args) : M unit :=
    if Args.no_basic_feature a then
      if is_some (Args.more_keys a) then
        when (is_none (Args.inputfile a))
          (message "If --more-keys is set you should provide a GTF" ERROR)
      else
        when (is_none (Args.more_bed a))
          (message "If --no-genomic-feature is set to True provide --more-keys or --more-bed." ERROR)
    else
      (when (is_none (Args.inputfile a)) (message "Please provide a GTF." ERROR) ;;
       when (is_none (Args.chrom_info a))
         (message "Please provide a chromInfo file (--chrom-info)" ERROR)).

  (** *** Chromosome sizes and peaks

      The chromosomes of a BED are visited in order of first appearance
      (Python iterates on a [set]; the first undefined chromosome met ends
      the run). *)
Definition bed_chroms (b : bed) : list string := Py.uniq (map chrom b).

Definition load_chrom_len (a : Args) : M chrom_dict :=
    match chrom_info_as_dict ext (Args.chrom_info a) with
    | Some d => ret d
    | None => crash
    end.

Definition on_defined_chroms (chrom_len : chrom_dict) (b : bed) : bed :=
    filter (fun i => Py.has_key (chrom i) chrom_len) b.

Definition check_peak_chroms (a : Args) (chrom_len : chrom_dict) : M bed :=
    let peak_file := bf_regions (Args.peak_file a) in
    if negb (Args.force_chrom_peak a) then
      for_ (bed_chroms peak_file)
        (fun i => when (negb (Py.has_key i chrom_len))
           (message ("Chromosome " ++ i ++ " from peak file is undefined in --chrom-info file. "
                     ++ "Please fix or use --force-chrom-peak.") ERROR)) ;;
      ret peak_file
    else
      let peak_file_sub := on_defined_chroms chrom_len peak_file in
      when (Nat.eqb (List.length peak_file_sub) 0)
        (message "The --peak-file file does not contain any genomic feature falling in chromosomes declared in --chrom-info." ERROR) ;;
      ret peak_file_sub.

  (** Sort and merge the peaks. *)
Definition sort_merge (b : bed) : bed := bed_merge ext (bed_sort ext b).

  (** *** Region exclusion *)

  (** A fake bed for the entire genome, using the chromsizes. *)
Definition full_genome_bed (chrom_len : chrom_dict) : bed :=
    map (fun kv => mk_region (fst kv) 0 (snd kv))
        (filter (fun kv => negb (String.eqb (fst kv) "all_chrom")) chrom_len).

  (** The inclusion file turned into an exclusion one. *)
Definition inclusion_to_exclusion (a : Args) (chrom_len : chrom_dict) : M (option bed) :=
    match Args.bed_incl a with
    | Some bed_incl =>
        when (is_some (Args.bed_excl a))
          (message "Cannot specify both --bed_incl and --bed_excl" ERROR) ;;
        ret (Some (bed_subtract ext (full_genome_bed chrom_len) bed_incl))
    | None => ret (Args.bed_excl a)
    end.

  (** The state of the local variables [chrom_len], [peak_file] and
      [bed_excl] once the exclusion is done. *)
Record genome := mk_genome {
    g_chrom_len : chrom_dict;
    g_peak_file : bed;
    g_bed_excl : option bed
  }.

Definition apply_exclusion (a : Args) (chrom_len : chrom_dict) (peak_file : bed)
      (bed_excl : option bed) : M genome :=
    match bed_excl with
    | Some bed_excl =>
        let bed_excl := sort_merge bed_excl in
        message "Exclusion BED found, proceeding on the BED peaks file. This may take a moment." INFO ;;
        let chrom_len := exclude_chromsizes ext bed_excl chrom_len in
        let peak_file := exclude_concatenate ext peak_file bed_excl (Args.nb_threads a) in
        message ("Exclusion completed for the BED PEAKS file in " ++ elapsed ext ++ " s") DEBUG ;;
        ret (mk_genome chrom_len peak_file (Some bed_excl))
    | None => ret (mk_genome chrom_len peak_file None)
    end.

Definition region_exclusion (a : Args) (chrom_len : chrom_dict) (peak_file : bed) : M genome :=
    bed_excl <- inclusion_to_exclusion a chrom_len ;;
    apply_exclusion a chrom_len peak_file bed_excl.

(** *** Reading the GTF *)

Definition read_gtf (a : Args) (chrom_len : chrom_dict) : M (option GTF) :=
  if (negb (Args.no_gtf a)
      && (negb (Args.no_basic_feature a) || truthy (Args.more_keys a)))%bool
  then
    match Args.inputfile a with
    | None => crash
    | Some gtf =>
        let gtf_chrom_list := gtf_get_chroms ext gtf in
        when (negb (Args.force_chrom_gtf a))
          (for_ gtf_chrom_list
             (fun i => when (negb (Py.has_key i chrom_len))
                (message ("Chromosome " ++ i ++ " from GTF is undefined in --chrom-info file. "
                          ++ "Please check your --chrom-info file or use --force-chrom-gtf") ERROR))) ;;
        let gtf := gtf_select_by_key ext gtf "seqid" (Py.join "," (Py.keys chrom_len)) in
        when (Nat.eqb (gtf_len ext gtf) 0)
          (message "The GTF file does not contain any genomic feature falling in chromosomes declared in --chrom-info." ERROR) ;;
        ret (Some gtf)
    end
  else ret None.

(** *** Check user provided annotations *)

(** The three substitutions that turn a file name into a label. *)
Definition cleaned_name (name : string) : string :=
  let cleaned_name := basename name in
  let cleaned_name := Re.sub_anchored Re.match_converted cleaned_name in
  let cleaned_name := Re.sub_anchored Re.match_pygtftk cleaned_name in
  Re.sub_non_alnum cleaned_name.

Definition check_label (elmt : string) : M unit :=
  when (negb (Re.search_label elmt))
    (message ("Problem with:" ++ elmt) WARNING ;;
     message "Only alphanumeric characters and '_' allowed for --more-bed-labels" ERROR).

Definition msg_labels_number : string :=
  "--more-bed-labels: the number of labels should be the same as the number of bed files (see --more-bed-labels).".

Definition msg_labels_default : string :=
  "--more-bed-labels was not set, automatically defaulting to --more-bed file names.".

(** Returns the value of [more_bed_labels] after the check. *)
Definition check_more_bed_labels (more_bed : option (list bed_file))
    (more_bed_labels : option string) : M (option (list string)) :=
  match more_bed with
  | Some more_bed =>
      match more_bed_labels with
      | Some more_bed_labels =>
          let more_bed_labels := Py.split "," more_bed_labels in
          for_ more_bed_labels check_label ;;
          when (negb (Nat.eqb (List.length more_bed_labels) (List.length more_bed)))
            (message msg_labels_number ERROR) ;;
          when (negb (Nat.eqb (List.length more_bed_labels)
                              (List.length (Py.uniq more_bed_labels))))
            (message "Redundant labels not allowed." ERROR) ;;
          ret (Some more_bed_labels)
      | None =>
          message msg_labels_default WARNING ;;
          let more_bed_labels := map (fun elmt => cleaned_name (bf_name elmt)) more_bed in
          message ("--more-bed-label will be set to: " ++ Py.join "," more_bed_labels) DEBUG ;;
          ret (Some more_bed_labels)
      end
  | None =>
      (* [more_bed_labels] keeps the string given on the command line; it
         is not read again. *)
      ret None
  end.

(** *** Calls of the statistics engine *)

(** [functools.partial(compute_overlap_stats, chrom_len=..., ...)]. *)
Definition overlap_partial_call (a : Args) (gn : genome) (bedsB : beds_b) : Call.t :=
  Call.mk (g_peak_file gn) bedsB (g_chrom_len gn)
          (Args.minibatch_size a) (Args.minibatch_nb a)
          (g_bed_excl gn) (Args.use_markov a) (Args.nb_threads a).

Definition overlap_partial (a : Args) (gn : genome) (bedsB : bed) (ft_type : string)
  : M OverlapStatRecord :=
  let call := overlap_partial_call a gn (SingleB bedsB ft_type) in
  emit (Ev_overlap call) ;;
  (fun g => ([], Done (stats_single ext g call))).

Definition overlap_partial_multi (a : Args) (gn : genome) (bedsB : list bed)
    (ft_type : list string) : M (list (CombinationKey * OverlapStatRecord)) :=
  let call := overlap_partial_call a gn
                (MultiB bedsB ft_type
                   (Args.multiple_overlap_target_combi_size a)
                   (Args.multiple_overlap_max_number_of_combinations a)
                   (Args.multiple_overlap_custom_combis a)) in
  emit (Ev_overlap call) ;;
  (fun g => ([], Done (compute_overlap_stats_multi ext g call))).

(** The result dictionary. *)
Definition hits_t := Py.dict OverlapStatRecord.

(** [hits[ft_type] = overlap_partial(bedA=peak_file, bedsB=..., ft_type=...)]. *)
Definition add_hit (a : Args) (gn : genome) (hits : hits_t) (bedsB : bed) (ft_type : string)
  : M hits_t :=
  r <- overlap_partial a gn bedsB ft_type ;;
  ret (Py.set ft_type r hits).

(** *** Basic features of the GTF *)

Definition feature_bed (gtf : GTF) (key value : string) : bed :=
  sort_merge (gtf_to_bed ext (gtf_select_by_key ext gtf key value)).

Definition basic_features (a : Args) (gn : genome) (gtf : GTF) (hits : hits_t) : M hits_t :=
  hits <- fold_ (gtf_get_feature_list ext gtf)
            (fun hits feat_type =>
               message ("Processing " ++ feat_type) INFO ;;
               add_hit a gn hits (feature_bed gtf "feature" feat_type) feat_type)
            hits ;;
  let nb_gene_line := gtf_len ext (gtf_select_by_key ext gtf "feature" "gene") in
  let nb_tx_line := gtf_len ext (gtf_select_by_key ext gtf "feature" "transcript") in
  if (negb (Nat.eqb nb_gene_line 0) && negb (Nat.eqb nb_tx_line 0))%bool then
    message "Processing intergenic regions" INFO ;;
    hits <- add_hit a gn hits
              (bed_merge ext (gtf_get_intergenic ext gtf (Args.chrom_info a)
                                (Py.keys (g_chrom_len gn))))
              "Intergenic" ;;
    message "Processing : Introns" INFO ;;
    hits <- add_hit a gn hits (gtf_get_introns ext gtf) "Introns" ;;
    match Args.chrom_info a with
    | None => crash
    | Some chrom_info =>
        message "Processing promoters" INFO ;;
        hits <- add_hit a gn hits
                  (sort_merge (bed_slop ext (gtf_get_tss ext gtf) (Args.upstream a)
                                  (Args.downstream a) (cf_name chrom_info)))
                  "Promoters" ;;
        message "Processing terminator" INFO ;;
        add_hit a gn hits
          (sort_merge (bed_slop ext (gtf_get_tts ext gtf) (Args.upstream a)
                          (Args.downstream a) (cf_name chrom_info)))
          "Terminator"
    end
  else ret hits.

(** *** --more-keys *)

Definition more_keys_features (a : Args) (gn : genome) (gtf : GTF) (more_keys : string)
    (hits : hits_t) : M hits_t :=
  fold_ (Py.split "," more_keys)
    (fun hits user_key =>
       let user_key_values := Py.sorted (Py.uniq (gtf_extract_data ext gtf user_key)) in
       fold_ user_key_values
         (fun hits val =>
            let gtf_sub := gtf_select_by_key ext gtf user_key val in
            if negb (Nat.eqb (gtf_len ext gtf_sub) 0) then
              let ft_type := Py.join ":" [user_key; val] in
              hits <- add_hit a gn hits (sort_merge (gtf_to_bed ext gtf_sub)) ft_type ;;
              message ("Processing " ++ ft_type) INFO ;;
              ret hits
            else ret hits)
         hits)
    hits.

Definition gtf_features (a : Args) (gn : genome) (gtf : option GTF) (hits : hits_t) : M hits_t :=
  if negb (Args.no_gtf a) then
    hits <- (if negb (Args.no_basic_feature a) then
               match gtf with
               | Some gtf => basic_features a gn gtf hits
               | None => crash
               end
             else ret hits) ;;
    match Args.more_keys a with
    | Some more_keys =>
        match gtf with
        | Some gtf => more_keys_features a gn gtf more_keys hits
        | None => crash
        end
    | None => ret hits
    end
  else ret hits.

(** *** User defined annotations *)

(** Local variables of the loop on [zip(more_bed, more_bed_labels)]. *)
Record annotations := mk_annotations {
  an_hits : hits_t;
  all_more_beds : list bed;
  all_bed_labels : list string
}.

Definition check_more_bed_chroms (a : Args) (gn : genome) (bed_anno : bed) (bed_lab : string)
  : M bed :=
  if negb (Args.force_chrom_more_bed a) then
    for_ (bed_chroms bed_anno)
      (fun i => when (negb (Py.has_key i (g_chrom_len gn)))
         (message ("Chromosome " ++ i ++ " is undefined in --more-bed with label " ++ bed_lab
                   ++ ". Maybe use --force-chrom-more-bed.") ERROR)) ;;
    ret bed_anno
  else
    let bed_anno_sub := on_defined_chroms (g_chrom_len gn) bed_anno in
    when (Nat.eqb (List.length bed_anno_sub) 0)
      (message "The --more-bed file does not contain any genomic features falling in chromosomes declared in --chrom-info." ERROR) ;;
    ret bed_anno_sub.

Definition one_annotation (a : Args) (gn : genome) (st : annotations)
    (file_lab : bed_file * string) : M annotations :=
  let '(bed_anno, bed_lab) := file_lab in
  message ("Processing " ++ bed_lab) INFO ;;
  bed_anno <- check_more_bed_chroms a gn (bf_regions bed_anno) bed_lab ;;
  let all_more_beds := (all_more_beds st ++ [bed_anno])%list in
  let all_bed_labels := (all_bed_labels st ++ [bed_lab])%list in
  if negb (Args.more_bed_multiple_overlap a) then
    message "Processing multiple overlaps for user-defined regions (bed format)." INFO ;;
    hits <- add_hit a gn (an_hits st) bed_anno bed_lab ;;
    ret (mk_annotations hits all_more_beds all_bed_labels)
  else ret (mk_annotations (an_hits st) all_more_beds all_bed_labels).

Definition user_annotations (a : Args) (gn : genome) (more_bed_labels : option (list string))
    (hits : hits_t) : M annotations :=
  match Args.more_bed a with
  | Some more_bed =>
      message "Processing user-defined regions (bed format)." INFO ;;
      match more_bed_labels with
      | Some more_bed_labels =>
          fold_ (combine more_bed more_bed_labels) (one_annotation a gn)
                (mk_annotations hits [] [])
      | None => crash
      end
  | None => ret (mk_annotations hits [] [])
  end.

(** *** Multiple overlaps

    [hits['multiple_beds']] receives the dictionary of the engine, is
    copied, deleted, and each of its entries is added to [hits] under the
    readable form of its combination. *)
Definition unwrap_multiple_beds (ft_type : list string)
    (results_to_add : list (CombinationKey * OverlapStatRecord)) (hits : hits_t) : hits_t :=
  fold_left (fun hits kr => Py.set (combi_human_readable ft_type (fst kr)) (snd kr) hits)
            results_to_add (Py.del "multiple_beds" hits).

Definition multiple_overlaps (a : Args) (gn : genome) (st : annotations) : M hits_t :=
  if Args.more_bed_multiple_overlap a then
    results <- overlap_partial_multi a gn (all_more_beds st) (all_bed_labels st) ;;
    ret (unwrap_multiple_beds (all_bed_labels st) results (an_hits st))
  else ret (an_hits st).

(** *** Printing the [hits] dictionary into a tabulated file *)

(** The cells of the table: a header made from the keys of the first
    record, then one row for each entry of [hits]. *)
Definition table_row (feature_type : string) (current_dict : OverlapStatRecord) : list string :=
  feature_type :: map (fun kv => py_str ext (snd kv)) (record_items current_dict).

Definition table_header (first : OverlapStatRecord) : list string :=
  "feature_type" :: Py.keys (record_items first).

Definition table_rows (hits : hits_t) : list (list string) :=
  map (fun fr => table_row (fst fr) (snd fr)) hits.

Definition table_cells (hits : hits_t) : list (list string) :=
  match hits with
  | [] => []
  | (_, first) :: _ => table_header first :: table_rows hits
  end.

(** [data_file.write("\t".join(cells) + "\n")] for each line. *)
Definition tab : string := String (ascii_of_nat 9) EmptyString.
Definition nl : string := String Py.newline EmptyString.

Definition data_file_lines (hits : hits_t) : list string :=
  map (fun cells => Py.join tab cells ++ nl) (table_cells hits).

(** What the command leaves behind: the result dictionary and the lines
    of [00_ologram_stats.tsv]. *)
Record output := mk_output {
  hits : hits_t;
  data_file : list string
}.

(** *** The command function *)

(** Everything that comes before the region exclusion: the checks on
    the arguments, the chromosome sizes, the peaks filtered, sorted and
    merged. *)
Definition before_exclusion (a : Args) : M (chrom_dict * bed) :=
  initial_checkups a ;;
  multiple_overlap_checks a ;;
  no_gtf_checks a ;;
  no_basic_feature_checks a ;;
  chrom_len <- load_chrom_len a ;;
  peak_file <- check_peak_chroms a chrom_len ;;
  ret (chrom_len, sort_merge peak_file).

(** Everything that comes after it: GTF, labels, statistics, table. *)
Definition after_exclusion (a : Args) (gn : genome) : M output :=
  gtf <- read_gtf a (g_chrom_len gn) ;;
  more_bed_labels <- check_more_bed_labels (Args.more_bed a) (Args.more_bed_labels a) ;;
  hits <- gtf_features a gn gtf [] ;;
  st <- user_annotations a gn more_bed_labels hits ;;
  hits <- multiple_overlaps a gn st ;;
  when (Nat.eqb (List.length hits) 0) (message "No feature found." ERROR) ;;
  ret (mk_output hits (data_file_lines hits)).

Definition ologram (a : Args) : M output :=
  cp <- before_exclusion a ;;
  gn <- region_exclusion a (fst cp) (snd cp) ;;
  after_exclusion a gn.

End Ologram.

(** ** Plotting helpers that read the p-values

    [plot_results] receives the table read back by pandas; a p-value is a
    [float64].  Only the data processing of [format_pvalue] (bar plots) and
    of [plot_volcano] is embedded; the number formatting ['{0:.2g}'] and
    [numpy.log10] are parameters. *)

Module Plot.
Section Plot.
Variable format_2g : spec_float -> string.
Variable log10 : spec_float -> spec_float.

(** The literals [0.0], [-1] and [1e-320] as binary64 numbers
    ([1e-320] is the subnormal [2024 * 2^-1074]). *)
Definition zero : spec_float := S754_zero false.
Definition minus_one : spec_float := S754_finite true 4503599627370496 (-52).
Definition floor_1e_320 : spec_float := S754_finite false 2024 (-1074).

(** Python's [x == y] on floats. *)
Definition feq (x y : spec_float) : bool := SFeqb x y.

Definition format_pvalue (x : spec_float) : string :=
  if feq x zero then "p<1e-320"
  else if feq x minus_one then "p=NA"
  else "p=" ++ format_2g x.

(** [text = dm[statname + '_pvalue'].append(na_series)] followed by
    [text.apply(format_pvalue)]: the labels of the bars, first the shuffled
    ones, then the true ones (which carry no p-value). *)
Definition bar_labels (pvalues : list spec_float) : list string :=
  map format_pvalue (pvalues ++ repeat S754_nan (List.length pvalues))%list.

(** One line of [d[['feature_type', <stat>_log2_fold_change, <stat>_pvalue]]]. *)
Record stat_row := mk_stat_row {
  feature_type : string;
  log2_fold_change : spec_float;
  pvalue : spec_float
}.

(** One line of the frame given to the volcano plot. *)
Record volcano_row := mk_volcano_row {
  Feature : string;
  log2_FC : spec_float;
  v_pvalue : spec_float;
  minus_log10_pvalue : spec_float;
  Statistic : string
}.

(** Uncomputed p-values are discarded. *)
Definition drop_uncomputed (mat : list stat_row) : list stat_row :=
  filter (fun r => negb (feq (pvalue r) minus_one)) mat.

(** P-values set to 0 are changed to 1e-320. *)
Definition floor_zero (r : stat_row) : stat_row :=
  if feq (pvalue r) zero
  then mk_stat_row (feature_type r) (log2_fold_change r) floor_1e_320
  else r.

Definition volcano_rows (statistic : string) (mat : list stat_row) : list volcano_row :=
  map (fun r => mk_volcano_row (feature_type r) (log2_fold_change r) (pvalue r)
                  (SFopp (log10 (pvalue r))) statistic)
      (map floor_zero (drop_uncomputed mat)).

(** [df_volc = mat_n.append(mat_s)]. *)
Definition plot_volcano (mat_n mat_s : list stat_row) : list volcano_row :=
  (volcano_rows "N" mat_n ++ volcano_rows "S" mat_s)%list.

End Plot.
End Plot.

(** ** The argument parser *)

Module Parser.

(** The numeric options of [make_parser] and their defaults. *)
Record numeric := mk_numeric {
  upstream : Z;
  downstream : Z;
  multiple_overlap_target_combi_size : Z;
  multiple_overlap_max_number_of_combinations : Z;
  nb_threads : Z;
  seed : Z;
  minibatch_nb : Z;
  minibatch_size : Z
}.

Definition defaults : numeric := mk_numeric 1000 1000 (-1) (-1) 1 42 10 20.

(** One option given on the command line, by its short or long flag. *)
Definition set_option (o : numeric) (flag_value : string * Z) : numeric :=
  let '(flag, v) := flag_value in
  let '(mk_numeric u d mocs monc k s mn ms) := o in
  if (String.eqb flag "-u" || String.eqb flag "--upstream")%bool then mk_numeric v d mocs monc k s mn ms
  else if (String.eqb flag "-d" || String.eqb flag "--downstream")%bool then mk_numeric u v mocs monc k s mn ms
  else if (String.eqb flag "-mocs" || String.eqb flag "--multiple-overlap-target-combi-size")%bool
       then mk_numeric u d v monc k s mn ms
  else if (String.eqb flag "-monc" || String.eqb flag "--multiple-overlap-max-number-of-combinations")%bool
       then mk_numeric u d mocs v k s mn ms
  else if (String.eqb flag "-k" || String.eqb flag "--nb-threads")%bool then mk_numeric u d mocs monc v s mn ms
  else if (String.eqb flag "-s" || String.eqb flag "--seed")%bool then mk_numeric u d mocs monc k v mn ms
  else if (String.eqb flag "-mn" || String.eqb flag "--minibatch-nb")%bool then mk_numeric u d mocs monc k s v ms
  else if (String.eqb flag "-ms" || String.eqb flag "--minibatch-size")%bool then mk_numeric u d mocs monc k s mn v
  else o.

Definition parse_numeric (argv : list (string * Z)) : numeric :=
  fold_left set_option argv defaults.

(** The numeric options of the command line of the test [ologram_1]:
    [gtftk ologram -i simple_02.gtf -p simple_02_peaks.bed
     -c simple_02.chromInfo -u 2 -d 2 -K ologram_output --no-date -k 8]. *)
Definition bats_ologram_1 : list (string * Z) := [("-u", 2); ("-d", 2); ("-k", 8)].

(** Modelled from the spec: [arg_formatter.ranged_num] is not among the
    sources.  Spec, section 6: the worker count is an integer [>= 0]; a
    bound that is [None] is absent. *)
Definition ranged_num (lowest highest : option Z) (v : Z) : bool :=
  (match lowest with Some l => l <=? v | None => true end
   && match highest with Some h => v <=? h | None => true end)%bool.

(** [type=arg_formatter.ranged_num(0, None)] of [--nb-threads]. *)
Definition nb_threads_accepted (v : Z) : bool := ranged_num (Some 0) None v.

(** Modelled from the spec: the size of the worker pool, which is created
    by [compute_overlap_stats] (not among the sources).  Spec, section 4.2:
    0 = use all available. *)
Definition worker_count (available_cores nb_threads : Z) : Z :=
  if nb_threads =? 0 then available_cores else nb_threads.

End Parser.

(** ** Reference collaborators

    Executable stand-ins for the collaborators, used to run the command on
    concrete inputs.  The BED primitives follow bedtools on three-column
    files. *)

Module Reference.

Definition region_leb (a b : region) : bool :=
  match String.compare (chrom a) (chrom b) with
  | Lt => true
  | Gt => false
  | Eq => start a <=? start b
  end.

Fixpoint insert_region (x : region) (l : bed) : bed :=
  match l with
  | [] => [x]
  | y :: r => if region_leb x y then x :: l else y :: insert_region x r
  end.

Definition sort (b : bed) : bed := fold_right insert_region [] b.

(** [merge] of a sorted BED: overlapping and book-ended regions are joined. *)
Fixpoint merge_from (cur : region) (rest : bed) : bed :=
  match rest with
  | [] => [cur]
  | r :: rest' =>
      if (String.eqb (chrom r) (chrom cur) && (start r <=? end_ cur))%bool
      then merge_from (mk_region (chrom cur) (start cur) (Z.max (end_ cur) (end_ r))) rest'
      else cur :: merge_from r rest'
  end.

Definition merge (b : bed) : bed :=
  match b with
  | [] => []
  | r :: rest => merge_from r rest
  end.

(** What is left of [a] once [b] is removed. *)
Definition subtract_one (a b : region) : bed :=
  if (String.eqb (chrom a) (chrom b) && (start b <? end_ a) && (start a <? end_ b))%bool
  then ((if start a <? start b then [mk_region (chrom a) (start a) (start b)] else [])
        ++ (if end_ b <? end_ a then [mk_region (chrom a) (end_ b) (end_ a)] else []))%list
  else [a].

Definition subtract (a b : bed) : bed :=
  fold_left (fun pieces r => flat_map (fun p => subtract_one p r) pieces) b a.

Definition slop (b : bed) (l r : Z) (g : string) : bed :=
  map (fun x => mk_region (chrom x) (Z.max 0 (start x - l)) (end_ x + r)) b.

(** Length of the part of [[0, x)] of chromosome [c] covered by a sorted
    and merged mask. *)
Definition masked_before (mask : bed) (c : string) (x : Z) : Z :=
  fold_right
    (fun m acc =>
       if String.eqb (chrom m) c
       then acc + Z.max 0 (Z.min x (end_ m) - start m)
       else acc)
    0 mask.

(** Modelled from the spec: [read_bed.exclude_chromsizes] is not among the
    sources.  Spec, section 3: effective chromosome lengths = original
    lengths minus excluded length on that chromosome. *)
Definition exclude_chromsizes (exclusion : bed) (chromsizes : chrom_dict) : chrom_dict :=
  map (fun kv => (fst kv, snd kv - masked_before exclusion (fst kv) (snd kv))) chromsizes.

(** Modelled from the spec: [read_bed.exclude_concatenate] is not among
    the sources.  Spec, sections 2 and 3: the mask is subtracted from the
    interval set and what remains of the genome is concatenated, so a
    coordinate moves left by the masked length that precedes it; a region
    that lies inside the mask disappears. *)
Definition exclude_concatenate (b exclusion : bed) (nb_threads : Z) : bed :=
  filter (fun r => start r <? end_ r)
    (map (fun r => mk_region (chrom r)
                     (start r - masked_before exclusion (chrom r) (start r))
                     (end_ r - masked_before exclusion (chrom r) (end_ r)))
         b).

Definition null_record : OverlapStatRecord :=
  mk_record (PInt 0) (PInt 0) (PInt 0) (PInt 0) (PInt 0) (PInt (-1))
            (PInt 0) (PInt 0) (PInt 0) (PInt 0) (PInt 0) (PInt (-1)).

(** A rough engine: the true number of intersecting pairs and the
    overlapping length of [bedA] with one BED; nothing is shuffled. *)
Definition overlap_bp (a b : region) : Z :=
  if String.eqb (chrom a) (chrom b)
  then Z.max 0 (Z.min (end_ a) (end_ b) - Z.max (start a) (start b))
  else 0.

Definition pairs (a b : bed) : list Z :=
  filter (fun n => 0 <? n) (flat_map (fun x => map (overlap_bp x) b) a).

Definition stats_single (g : nat) (call : Call.t) : OverlapStatRecord * nat :=
  match Call.bedsB call with
  | SingleB b _ =>
      let ps := pairs (Call.bedA call) b in
      (mk_record (PInt 0) (PInt 0) (PInt 0) (PInt 0) (PInt (Z.of_nat (List.length ps))) (PInt (-1))
                 (PInt 0) (PInt 0) (PInt 0) (PInt 0) (PInt (fold_right Z.add 0 ps)) (PInt (-1)),
       S g)
  | MultiB _ _ _ _ _ => (null_record, S g)
  end.

(** One locus for each region of each set, flagged with the sets that
    overlap it. *)
Definition flags_at (sets : list bed) (r : region) : CombinationKey :=
  map (fun s => existsb (fun x => 0 <? overlap_bp r x) s) sets.

Definition multi_intersections (g : nat) (call : Call.t)
  : list (list (CombinationKey * Z)) * nat :=
  match Call.bedsB call with
  | MultiB bs _ _ _ _ =>
      let sets := Call.bedA call :: bs in
      ([map (fun r => (flags_at sets r, end_ r - start r)) (concat sets)], S g)
  | SingleB _ _ => ([], S g)
  end.

Definition combi_stats (call : Call.t) (data : list (list (CombinationKey * Z)))
    (k : CombinationKey) : OverlapStatRecord :=
  let mine := filter (fun l => combi_eqb (fst l) k) (concat data) in
  mk_record (PInt 0) (PInt 0) (PInt 0) (PInt 0) (PInt (Z.of_nat (List.length mine))) (PInt (-1))
            (PInt 0) (PInt 0) (PInt 0) (PInt 0) (PInt (fold_right Z.add 0 (map snd mine))) (PInt (-1)).

(** The GTF is not modelled ([unit]); the generator state counts the
    calls of the engine. *)
Definition collaborators (cores : Z) : Collaborators unit nat :=
  mk_collaborators unit nat
    cores                          (* cpu_count *)
    (fun s => 0%nat)               (* np_random_seed *)
    (option_map cf_lines)          (* chrom_info_as_dict *)
    sort merge subtract slop
    exclude_chromsizes exclude_concatenate
    "0.0"                          (* elapsed *)
    (fun _ => [])                  (* gtf_get_chroms *)
    (fun g _ _ => g)               (* gtf_select_by_key *)
    (fun _ => 0%nat)               (* gtf_len *)
    (fun _ => [])                  (* gtf_get_feature_list *)
    (fun _ => [])                  (* gtf_to_bed *)
    (fun _ _ _ => [])              (* gtf_get_intergenic *)
    (fun _ => [])                  (* gtf_get_introns *)
    (fun _ => [])                  (* gtf_get_tss *)
    (fun _ => [])                  (* gtf_get_tts *)
    (fun _ _ => [])                (* gtf_extract_data *)
    stats_single multi_intersections combi_stats
    (fun n l => firstn (Z.to_nat n) l)   (* modl *)
    (fun _ => "nan").              (* str_float *)

(** A small data set: two peaks and two reference sets on one chromosome. *)
Definition chr1 (s e : Z) : region := mk_region "chr1" s e.

Definition peaks : bed_file := mk_bed_file "peaks.bed" [chr1 50 60; chr1 10 20].
Definition set_A : bed_file := mk_bed_file "/data/A.bed" [chr1 15 25; chr1 55 70].
Definition set_B : bed_file := mk_bed_file "/data/B_converted.bed" [chr1 18 30; chr1 80 90].
Definition chrom_sizes : chrom_file := mk_chrom_file "chromInfo.txt" [("chr1", 100)].

(** [ologram -z -p peaks.bed -c chromInfo.txt --more-bed A.bed B.bed]
    with the parser's defaults ([inputfile] is then the standard input,
    which is not read). *)
Definition base_args : Args.t unit :=
  Args.mk unit (Some tt) peaks (Some chrom_sizes) (Some [set_A; set_B]) None
          true 1000 None 1000 false None None
          false (-1) (-1) None
          false false false false 1 42 10 20.

End Reference.

(** ** Variants of a set of arguments *)

(** The same arguments with other values of [--bed-excl] and [--bed-incl]. *)
Definition set_masks {GTF} (a : Args.t GTF) (bed_excl bed_incl : option bed) : Args.t GTF :=
  Args.mk GTF (Args.inputfile a) (Args.peak_file a) (Args.chrom_info a) (Args.more_bed a)
    (Args.more_bed_labels a) (Args.no_gtf a) (Args.upstream a) (Args.more_keys a)
    (Args.downstream a) (Args.no_basic_feature a) bed_excl bed_incl
    (Args.more_bed_multiple_overlap a) (Args.multiple_overlap_target_combi_size a)
    (Args.multiple_overlap_max_number_of_combinations a)
    (Args.multiple_overlap_custom_combis a) (Args.use_markov a) (Args.force_chrom_gtf a)
    (Args.force_chrom_peak a) (Args.force_chrom_more_bed a) (Args.nb_threads a)
    (Args.seed a) (Args.minibatch_nb a) (Args.minibatch_size a).

(** The same arguments with other multiple-overlap options. *)
Definition set_multiple_overlap {GTF} (a : Args.t GTF) (mo : bool) (target max : Z)
    (custom : option (list (list bool))) : Args.t GTF :=
  Args.mk GTF (Args.inputfile a) (Args.peak_file a) (Args.chrom_info a) (Args.more_bed a)
    (Args.more_bed_labels a) (Args.no_gtf a) (Args.upstream a) (Args.more_keys a)
    (Args.downstream a) (Args.no_basic_feature a) (Args.bed_excl a) (Args.bed_incl a)
    mo target max custom (Args.use_markov a) (Args.force_chrom_gtf a)
    (Args.force_chrom_peak a) (Args.force_chrom_more_bed a) (Args.nb_threads a)
    (Args.seed a) (Args.minibatch_nb a) (Args.minibatch_size a).

(** The same arguments with another value of [--more-bed-labels]. *)
Definition set_labels {GTF} (a : Args.t GTF) (labels : option string) : Args.t GTF :=
  Args.mk GTF (Args.inputfile a) (Args.peak_file a) (Args.chrom_info a) (Args.more_bed a)
    labels (Args.no_gtf a) (Args.upstream a) (Args.more_keys a)
    (Args.downstream a) (Args.no_basic_feature a) (Args.bed_excl a) (Args.bed_incl a)
    (Args.more_bed_multiple_overlap a) (Args.multiple_overlap_target_combi_size a)
    (Args.multiple_overlap_max_number_of_combinations a)
    (Args.multiple_overlap_custom_combis a) (Args.use_markov a) (Args.force_chrom_gtf a)
    (Args.force_chrom_peak a) (Args.force_chrom_more_bed a) (Args.nb_threads a)
    (Args.seed a) (Args.minibatch_nb a) (Args.minibatch_size a).

(** ** Reading a trace *)

(** The calls of the statistics engine, in order. *)
Fixpoint calls (t : list event) : list Call.t :=
  match t with
  | [] => []
  | Ev_overlap c :: r => c :: calls r
  | Ev_message _ _ :: r => calls r
  end.

(** The messages of a given type, in order. *)
Fixpoint messages (type : level) (t : list event) : list string :=
  match t with
  | [] => []
  | Ev_message ty m :: r =>
      match ty, type with
      | INFO, INFO | WARNING, WARNING | ERROR, ERROR | DEBUG, DEBUG => m :: messages type r
      | _, _ => messages type r
      end
  | Ev_overlap _ :: r => messages type r
  end.

(** The run ended normally. *)
Definition completed {A} (r : outcome A) : bool :=
  match r with Done _ => true | _ => false end.

(** The value of [bed_excl] after the inclusion file, if any, was turned
    into an exclusion file. *)
Definition effective_exclusion {GTF RNG} (ext : Collaborators GTF RNG) (a : Args.t GTF)
    (chrom_len : chrom_dict) : option bed :=
  match Args.bed_incl a with
  | Some bed_incl => Some (bed_subtract ext (full_genome_bed chrom_len) bed_incl)
  | None => Args.bed_excl a
  end.

(** The peaks once sorted and merged. *)
Definition merged_peaks {GTF RNG} (ext : Collaborators GTF RNG) (a : Args.t GTF)
    (chrom_len : chrom_dict) : bed :=
  sort_merge ext
    (if Args.force_chrom_peak a
     then on_defined_chroms chrom_len (bf_regions (Args.peak_file a))
     else bf_regions (Args.peak_file a)).

(** The query set the statistics are computed on. *)
Definition query_set {GTF RNG} (ext : Collaborators GTF RNG) (a : Args.t GTF)
    (chrom_len : chrom_dict) : bed :=
  match effective_exclusion ext a chrom_len with
  | Some bed_excl =>
      exclude_concatenate ext (merged_peaks ext a chrom_len) (sort_merge ext bed_excl)
        (Args.nb_threads a)
  | None => merged_peaks ext a chrom_len
  end.

(** The exclusion file equivalent to an inclusion file. *)
Definition complement_of_inclusion {GTF RNG} (ext : Collaborators GTF RNG) (a : Args.t GTF)
    (bed_incl : bed) : bed :=
  match chrom_info_as_dict ext (Args.chrom_info a) with
  | Some chrom_len => bed_subtract ext (full_genome_bed chrom_len) bed_incl
  | None => []
  end.

(** The three conditions on explicit labels. *)
Definition labels_accepted (more_bed : list bed_file) (more_bed_labels : string) : bool :=
  let labels := Py.split "," more_bed_labels in
  (forallb Re.search_label labels
   && Nat.eqb (List.length labels) (List.length more_bed)
   && Nat.eqb (List.length labels) (List.length (Py.uniq labels)))%bool.

(** Names and values of the twelve statistics of a record, in the order
    of the columns. *)
Definition stat_fields : list string :=
  [ "nb_intersections_expectation_shuffled"; "nb_intersections_variance_shuffled";
    "nb_intersections_negbinom_fit_quality"; "nb_intersections_log2_fold_change";
    "nb_intersections_true"; "nb_intersections_pvalue";
    "summed_bp_overlaps_expectation_shuffled"; "summed_bp_overlaps_variance_shuffled";
    "summed_bp_overlaps_negbinom_fit_quality"; "summed_bp_overlaps_log2_fold_change";
    "summed_bp_overlaps_true"; "summed_bp_overlaps_pvalue" ].

Definition stat_values (r : OverlapStatRecord) : list pyval :=
  [ nb_intersections_expectation_shuffled r; nb_intersections_variance_shuffled r;
    nb_intersections_negbinom_fit_quality r; nb_intersections_log2_fold_change r;
    nb_intersections_true r; nb_intersections_pvalue r;
    summed_bp_overlaps_expectation_shuffled r; summed_bp_overlaps_variance_shuffled r;
    summed_bp_overlaps_negbinom_fit_quality r; summed_bp_overlaps_log2_fold_change r;
    summed_bp_overlaps_true r; summed_bp_overlaps_pvalue r ].

(** The six statistics the output exposes for [statname]
    ([nb_intersections] or [summed_bp_overlaps]). *)
Definition six_fields (statname : string) : list string :=
  [ statname ++ "_true"; statname ++ "_expectation_shuffled"; statname ++ "_variance_shuffled";
    statname ++ "_negbinom_fit_quality"; statname ++ "_pvalue"; statname ++ "_log2_fold_change" ].

(** ** Concrete runs *)

Module Runs.
Import Reference.

(** Multiple overlaps with a custom list of combinations and a target
    combination size. *)
Definition custom_and_size : Args.t unit :=
  set_multiple_overlap (set_labels base_args (Some "A,B")) true 3 (-1)
    (Some [[true; false]; [true; true]]).

(** An exclusion file that covers the first peak. *)
Definition with_exclusion : Args.t unit :=
  set_masks (set_labels base_args (Some "A,B")) (Some [chr1 0 30]) None.

(** Both an inclusion and an exclusion file. *)
Definition both_masks : Args.t unit :=
  set_masks base_args (Some [chr1 0 30]) (Some [chr1 40 100]).

(** Two labels given for two files, the second one not allowed. *)
Definition bad_labels : Args.t unit := set_labels base_args (Some "A,B-2").

End Runs.


(** A computation that never calls the statistics engine. *)
Definition quiet {RNG A} (m : M RNG A) : Prop := forall g, calls (fst (m g)) = [].

(** A computation whose calls of the engine all satisfy [Q]. *)
Definition all_calls {RNG A} (Q : Call.t -> Prop) (m : M RNG A) : Prop :=
  forall g, Forall Q (calls (fst (m g))).

(** The local variables [chrom_len], [peak_file] and [bed_excl] after the
    region exclusion, from their values before it. *)
Definition genome_after {GTF RNG} (ext : Collaborators GTF RNG) (a : Args.t GTF)
    (chrom_len : chrom_dict) (peak_file : bed) : genome :=
  match effective_exclusion ext a chrom_len with
  | Some bed_excl =>
      let bed_excl := sort_merge ext bed_excl in
      mk_genome (exclude_chromsizes ext bed_excl chrom_len)
                (exclude_concatenate ext peak_file bed_excl (Args.nb_threads a))
                (Some bed_excl)
  | None => mk_genome chrom_len peak_file None
  end.

(** A call made through [overlap_partial] with the given local variables. *)
Definition issued_by {GTF} (a : Args.t GTF) (gn : genome) (c : Call.t) : Prop :=
  exists bedsB, c = overlap_partial_call a gn bedsB.


(** The letters and digits of a string, in order. *)
Fixpoint alnum_only (s : string) : string :=
  match s with
  | EmptyString => EmptyString
  | String c r => if Py.is_alnum c then String c (alnum_only r) else alnum_only r
  end.

(** The base name of a file without the two suffixes the plugin removes. *)
Definition stripped_name (name : string) : string :=
  Re.sub_anchored Re.match_pygtftk (Re.sub_anchored Re.match_converted (basename name)).


(** ** How a run ends

    A run that ends by [sys.exit] has printed one ERROR message, the last
    thing it did; any other run has printed none. *)
Definition ends_well {A} (r : list event * outcome A) : Prop :=
  match snd r with
  | Exit => exists t msg, fst r = (t ++ [Ev_message ERROR msg])%list /\ messages ERROR t = []
  | _ => messages ERROR (fst r) = []
  end.

Definition disciplined {RNG A} (m : M RNG A) : Prop := forall g, ends_well (m g).

(** The BED of a [--more-bed] file once its chromosomes are checked. *)
Definition checked_more_bed {GTF} (a : Args.t GTF) (gn : genome) (bed_anno : bed_file) : bed :=
  if Args.force_chrom_more_bed a
  then on_defined_chroms (g_chrom_len gn) (bf_regions bed_anno)
  else bf_regions bed_anno.


(** More concrete runs. *)
Module Cases.
Import Reference.

(** A peak on a chromosome the chromInfo file does not define, without and
    with [--force-chrom-peak]. *)
Definition stray_peak (force_chrom_peak : bool) : Args.t unit :=
  Args.mk unit (Some tt)
    (mk_bed_file "peaks.bed" [chr1 10 20; mk_region "chrUn" 5 9])
    (Some chrom_sizes) (Some [set_A]) None
    true 1000 None 1000 false None None false (-1) (-1) None
    false false force_chrom_peak false 1 42 10 20.

(** Multiple overlaps without any [--more-bed] file. *)
Definition multiple_without_beds : Args.t unit :=
  Args.mk unit (Some tt) peaks (Some chrom_sizes) None None
    false 1000 None 1000 false None None true (-1) (-1) None
    false false false false 1 42 10 20.

(** A [--more-bed] file with a region on an undefined chromosome. *)
Definition set_stray : bed_file := mk_bed_file "stray.bed" [chr1 12 14; mk_region "chrUn" 1 2].

Definition stray_more_bed (force_chrom_more_bed : bool) : Args.t unit :=
  Args.mk unit (Some tt) peaks (Some chrom_sizes) (Some [set_A; set_stray]) (Some "A,S")
    true 1000 None 1000 false None None false (-1) (-1) None
    false false false force_chrom_more_bed 1 42 10 20.

(** Two files with the same base name and no labels. *)
Definition same_names : Args.t unit :=
  Args.mk unit (Some tt) peaks (Some chrom_sizes)
    (Some [mk_bed_file "/x/A.bed" [chr1 15 25]; mk_bed_file "/y/A.bed" [chr1 55 70]]) None
    true 1000 None 1000 false None None false (-1) (-1) None
    false false false false 1 42 10 20.

End Cases.


(** The labels of the [--more-bed] files once checked: those given, or
    the cleaned file names. *)
Definition resolved_labels (more_bed : list bed_file) (more_bed_labels : option string)
  : list string :=
  match more_bed_labels with
  | Some s => Py.split "," s
  | None => map (fun elmt => cleaned_name (bf_name elmt)) more_bed
  end.

(** The keys of a dictionary after assignments to the keys [ls] in turn. *)
Definition keys_after (ks ls : list string) : list string :=
  fold_left (fun ks l => if Py.mem l ks then ks else (ks ++ [l])%list) ls ks.

(** The call made for one [--more-bed] file when the overlaps are not
    multiple. *)
Definition annotation_call {GTF} (a : Args.t GTF) (gn : genome) (fl : bed_file * string)
  : Call.t :=
  overlap_partial_call a gn (SingleB (checked_more_bed a gn (fst fl)) (snd fl)).

(** The only call made for the [--more-bed] files when the overlaps are
    multiple. *)
Definition multiple_call {GTF} (a : Args.t GTF) (gn : genome) (beds : list bed_file)
    (labels : list string) : Call.t :=
  overlap_partial_call a gn
    (MultiB (map (checked_more_bed a gn) beds) labels
       (Args.multiple_overlap_target_combi_size a)
       (Args.multiple_overlap_max_number_of_combinations a)
       (Args.multiple_overlap_custom_combis a)).


(** Reference collaborators with a GTF: a GTF is the list of its lines,
    reduced to the chromosome, the feature and the coordinates. *)
Module ReferenceGtf.

Record gtf_line := mk_line { seqid : string; feature : string; g_start : Z; g_end : Z }.

Definition select_by_key (gtf : list gtf_line) (key value : string) : list gtf_line :=
  if String.eqb key "seqid"
  then filter (fun l => Py.mem (seqid l) (Py.split "," value)) gtf
  else if String.eqb key "feature"
  then filter (fun l => String.eqb (feature l) value) gtf
  else [].

Definition to_bed (gtf : list gtf_line) : bed :=
  map (fun l => mk_region (seqid l) (g_start l - 1) (g_end l)) gtf.

Definition collaborators (cores : Z) : Collaborators (list gtf_line) nat :=
  mk_collaborators (list gtf_line) nat
    cores
    (fun s => 0%nat)
    (option_map cf_lines)
    Reference.sort Reference.merge Reference.subtract Reference.slop
    Reference.exclude_chromsizes Reference.exclude_concatenate
    "0.0"
    (fun gtf => Py.uniq (map seqid gtf))          (* get_chroms(nr=True) *)
    select_by_key
    (fun gtf => List.length gtf)
    (fun gtf => Py.uniq (map feature gtf))        (* get_feature_list(nr=True) *)
    to_bed
    (fun _ _ _ => [])
    (fun _ => [])
    (fun gtf => to_bed (select_by_key gtf "feature" "transcript"))
    (fun gtf => to_bed (select_by_key gtf "feature" "transcript"))
    (fun _ _ => [])
    Reference.stats_single Reference.multi_intersections Reference.combi_stats
    (fun n l => firstn (Z.to_nat n) l)
    (fun _ => "nan").

Definition genes : list gtf_line :=
  [mk_line "chr1" "gene" 11 40; mk_line "chr1" "exon" 11 20; mk_line "chr1" "exon" 31 40].

(** [ologram -i genes.gtf -p peaks.bed -c chromInfo.txt]. *)
Definition gtf_args : Args.t (list gtf_line) :=
  Args.mk (list gtf_line) (Some genes) Reference.peaks (Some Reference.chrom_sizes) None None
          false 1000 None 1000 false None None
          false (-1) (-1) None
          false false false false 1 42 10 20.

End ReferenceGtf.


(** ** Colours of the p-value labels ([plot_this])

    The data processing that [plot_this] does on the frame [dm] before
    drawing: the fold change of each feature, the p-value column followed
    by as many NaN (the true values have no p-value), and the colour of the
    box of each label.  Arithmetic is binary64.  [dm] is the frame read
    back with [pd.read_csv]: its index, and that of [fc], is
    [0 .. len(dm) - 1]. *)
Module Bars.

Definition prec : Z := 53.
Definition emax : Z := 1024.

(** The literals [1], [0.05] and [1E-10]. *)
Definition one : spec_float := S754_finite false 4503599627370496 (-52).
Definition f_0_05 : spec_float := S754_finite false 7205759403792794 (-57).
Definition f_1e_10 : spec_float := S754_finite false 7737125245533627 (-86).

(** Python's [x < y] on floats. *)
Definition flt (x y : spec_float) : bool := SFltb x y.

(** One line of [dm], for the statistic being plotted. *)
Record bar_row := mk_bar_row {
  b_feature_type : string;
  b_expectation_shuffled : spec_float;
  b_true : spec_float;
  b_pvalue : spec_float
}.

(** [fc = data_ni['True'] / (data_ni['Shuffled'] + 1)]. *)
Definition fold_change (r : bar_row) : spec_float :=
  SFdiv prec emax (b_true r) (SFadd prec emax (b_expectation_shuffled r) one).

(** [text = dm[statname + '_pvalue'].append(na_series)]. *)
Definition text (dm : list bar_row) : list spec_float :=
  (map b_pvalue dm ++ repeat S754_nan (List.length dm))%list.

(** One turn of the loop on [range(len(text))]: [fc i] is [fc[i]], [None]
    when [i] is not in the index of [fc] (a [KeyError]); the result is
    [None] when the turn raises. *)
Definition signif_color_at (text_i : spec_float) (fc_i : option spec_float) : option string :=
  let c0 := "#b3b3b3" in
  match
    (if flt text_i f_0_05 then
       match fc_i with
       | None => None
       | Some fc =>
           let c := if flt fc one then "#ffa64d" else c0 in
           Some (if flt one fc then "#6cc67b" else c)
       end
     else Some c0)
  with
  | None => None
  | Some c1 =>
      if flt text_i f_1e_10 then
        match fc_i with
        | None => None
        | Some fc =>
            let c := if flt fc one then "#cc6600" else c1 in
            Some (if flt one fc then "#3c9040" else c)
        end
      else Some c1
  end.

(** The whole loop: [None] as soon as one turn raises. *)
Fixpoint signif_color_from (i : nat) (text : list spec_float) (fc : list spec_float)
  : option (list string) :=
  match text with
  | [] => Some []
  | p :: rest =>
      match signif_color_at p (nth_error fc i) with
      | None => None
      | Some c =>
          match signif_color_from (S i) rest fc with
          | None => None
          | Some cs => Some (c :: cs)
          end
      end
  end.

Definition signif_color (dm : list bar_row) : option (list string) :=
  signif_color_from 0 (text dm) (map fold_change dm).

End Bars.


(** ** The heatmap of the combinations ([plot_multi_features])

    The data processing that [plot_multi_features] does before drawing:
    from the labels of the combinations (like ["[A + B + ... ]"]) to the
    melted frame with one line per tile and the name of its colour. *)
Module Tiles.

(** [s.translate({ord(i): None for i in drop})]. *)
Fixpoint translate (drop : list ascii) (s : string) : string :=
  match s with
  | EmptyString => EmptyString
  | String c r =>
      if existsb (Ascii.eqb c) drop then translate drop r
      else String c (translate drop r)
  end.

Definition dropped : list ascii := ["["; "]"; " "]%char.

Definition combi_clean (combi : string) : list string :=
  Py.split "+" (translate dropped combi).

(** [sorted(list(set(itertools.chain( *combin))))]. *)
Definition get_unique_elements (combin : list (list string)) : list string :=
  Py.sorted (Py.uniq (concat combin)).

(** A value of the frame: the text of a combination, a presence flag, or
    the NaN that pandas puts where a line has no value for a column. *)
Inductive cell :=
| CStr (s : string)
| CBool (b : bool)
| CNaN.

(** The dictionary built for one combination. *)
Definition dict_current (all_elements : list string) (combi : list string) : Py.dict cell :=
  fold_left (fun d e => Py.set e (CBool (Py.mem e combi)) d) all_elements
    [("combi", CStr (Py.join "+" combi))].

(** The columns of [pd.DataFrame(df_raw)]: the keys of the dictionaries in
    order of first appearance. *)
Definition columns (df_raw : list (Py.dict cell)) : list string :=
  Py.uniq (concat (map Py.keys df_raw)).

Definition at_ (column : string) (row : Py.dict cell) : cell :=
  match Py.get column row with
  | Some v => v
  | None => CNaN
  end.

(** [pd.melt(df, id_vars = [id_var])]: [None] for the [KeyError] raised
    when the frame has no such column; otherwise a line
    [(id, variable, value)] for each other column and each line of [df],
    column by column. *)
Definition melt (id_var : string) (df_raw : list (Py.dict cell))
  : option (list (cell * string * cell)) :=
  let cols := columns df_raw in
  if Py.mem id_var cols then
    Some (flat_map
            (fun variable => map (fun row => (at_ id_var row, variable, at_ variable row)) df_raw)
            (filter (fun c => negb (String.eqb c id_var)) cols))
  else None.

(** One line of [df_melt] once [colors_for_plot] is added. *)
Record tile := mk_tile {
  t_combi : cell;
  t_variable : string;
  t_value : cell;
  t_colors_for_plot : string
}.

(** [vrow["value"] == False]. *)
Definition is_False (v : cell) : bool :=
  match v with
  | CBool false => true
  | _ => false
  end.

Definition current_color (variable : string) (value : cell) : string :=
  if is_False value then "Null" else variable.

Definition plot_multi_features (list_of_combis : list string) : option (list tile) :=
  let combin := map combi_clean list_of_combis in
  let all_elements := get_unique_elements combin in
  let df_raw := map (dict_current all_elements) combin in
  match melt "combi" df_raw with
  | None => None
  | Some df_melt =>
      Some (map (fun vrow =>
                   let '(c, variable, value) := vrow in
                   mk_tile c variable value (current_color variable value))
                df_melt)
  end.

(** The tile drawn for the set [e] in the column of the combination
    [label]. *)
Definition tile_of (e label : string) : tile :=
  let present := Py.mem e (combi_clean label) in
  mk_tile (CStr (translate dropped label)) e (CBool present)
          (if present then e else "Null").

End Tiles.


(** ** The features taken from the GTF *)

(** The [ft_type] argument of the calls that test one set of regions. *)
Definition tested (t : list event) : list string :=
  flat_map (fun c => match Call.bedsB c with
                     | SingleB _ ft_type => [ft_type]
                     | MultiB _ _ _ _ _ => []
                     end)
           (calls t).

(** The four sets of regions the plugin derives from the genes and
    transcripts. *)
Definition derived_features : list string :=
  ["Intergenic"; "Introns"; "Promoters"; "Terminator"].

Definition has_lines {GTF RNG} (ext : Collaborators GTF RNG) (gtf : GTF) (key value : string)
  : bool :=
  negb (Nat.eqb (gtf_len ext (gtf_select_by_key ext gtf key value)) 0).

(** The names under which the regions of a GTF are tested: the feature
    types, the derived regions, and the values of the keys of
    [--more-keys]. *)
Definition gtf_feature_names {GTF RNG} (ext : Collaborators GTF RNG) (a : Args.t GTF)
    (gtf : GTF) : list string :=
  ((if Args.no_basic_feature a then []
    else gtf_get_feature_list ext gtf
         ++ (if has_lines ext gtf "feature" "gene" && has_lines ext gtf "feature" "transcript"
             then derived_features else []))
   ++ match Args.more_keys a with
      | None => []
      | Some more_keys =>
          flat_map (fun user_key =>
                      map (fun val => Py.join ":" [user_key; val])
                          (filter (has_lines ext gtf user_key)
                                  (Py.sorted (Py.uniq (gtf_extract_data ext gtf user_key)))))
                   (Py.split "," more_keys)
      end)%list.

(** [m], started with the results [h], completes whatever the state of the
    generator, tests the features [L] in turn and stores a result for
    each, without an ERROR message. *)
Definition tests {RNG} (m : M RNG hits_t) (h : hits_t) (L : list string) : Prop :=
  forall g, exists t h' g',
    m g = (t, Done (h', g'))
    /\ tested t = L
    /\ Py.keys h' = keys_after (Py.keys h) L
    /\ messages ERROR t = [].


(** ** The GTF interface ([pygtftk/gtf_interface.py])

    The Python side of two methods the plugin calls.  The selection itself
    is done by the C library: the model stops at the arguments it is
    called with. *)
Module GtfInterface.

Inductive exn :=
| IndexError
| GTFtkError (msg : string).

Inductive result (A : Type) :=
| Returned (a : A)
| Raised (e : exn).
Arguments Returned {A} a.
Arguments Raised {A} e.

(** [l[k]], with Python's negative indices. *)
Definition index {A} (l : list A) (k : Z) : option A :=
  let n := Z.of_nat (List.length l) in
  if (0 <=? k)%Z then nth_error l (Z.to_nat k)
  else if (- n <=? k)%Z then nth_error l (Z.to_nat (n + k))
  else None.

(** *** [get_feature_list]

    [tab] is the table returned by [extract_data(keys="feature")], one row
    per line of the GTF. *)

(** The loop of the case [nr]: [adict] records the features already seen
    ([i[0] not in adict] does not add the key to a [defaultdict]). *)
Fixpoint feature_loop_nr (tab : list (list string)) (alist : list string) (adict : Py.dict Z)
  : result (list string) :=
  match tab with
  | [] => Returned alist
  | i :: rest =>
      match index i 0 with
      | None => Raised IndexError
      | Some i0 =>
          if negb (Py.has_key i0 adict)
          then feature_loop_nr rest (alist ++ [i0]) (Py.set i0 1%Z adict)
          else feature_loop_nr rest alist adict
      end
  end.

Fixpoint feature_loop (tab : list (list string)) (alist : list string) : result (list string) :=
  match tab with
  | [] => Returned alist
  | i :: rest =>
      match index i 0 with
      | None => Raised IndexError
      | Some i0 => feature_loop rest (alist ++ [i0])
      end
  end.

Definition get_feature_list (tab : list (list string)) (nr : bool) : result (list string) :=
  if nr then feature_loop_nr tab [] [] else feature_loop tab [].

(** *** [select_by_key] *)

Section SelectByKey.

(** [pygtftk.utils.chomp] (not among the sources) and [str.strip]: the
    properties proved hold whatever they return. *)
Variable chomp : string -> string.
Variable strip : string -> string.

Definition tabulation : ascii := ascii_of_nat 9.

(** The loop on the lines of [file_with_values].  The [GTFtkError] of the
    [else] branch is built but not raised. *)
Fixpoint value_list_from (file_with_values : list string) (col : Z) (value_list : list string)
  : result (list string) :=
  match file_with_values with
  | [] => Returned value_list
  | line :: rest =>
      let line := chomp line in
      let tokens := Py.split tabulation line in
      if (col - 1 <=? Z.of_nat (List.length tokens))%Z then
        match index tokens (col - 1) with
        | None => Raised IndexError
        | Some token => value_list_from rest col (value_list ++ [strip token])
        end
      else value_list_from rest col value_list
  end.

(** [s[0:n]]. *)
Definition prefix (n : nat) (s : string) : string := String.substring 0 n s.

(** The call of the C function. *)
Record dll_select_by_key := mk_dll_select_by_key {
  dll_key : string;
  dll_value : string;
  dll_im : Z
}.

(** [str(key)]. *)
Definition str_key (key : option string) : string :=
  match key with
  | Some k => k
  | None => "None"
  end.

(** [",".join(list(set(l)))]; a set has no defined order, the model keeps
    the order of first appearance. *)
Definition join_set (l : list string) : string := Py.join "," (Py.uniq l).

(** The DEBUG messages and the result.  [key] and [value] are [None] or
    strings. *)
Definition select_by_key (key value : option string) (invert_match : bool)
    (file_with_values : option (list string)) (no_na : bool) (col : Z)
  : list string * result dll_select_by_key :=
  let im := if invert_match then (if no_na then 2 else 1)%Z else 0%Z in
  let value :=
    if invert_match
    then option_map (fun v => join_set (Py.split "," v)) value
    else value in
  let key := str_key key in
  let value :=
    match value with
    | Some v => Returned (Some v)
    | None =>
        match file_with_values with
        | Some lines =>
            match value_list_from lines col [] with
            | Returned value_list => Returned (Some (join_set value_list))
            | Raised e => Raised e
            end
        | None => Returned None
        end
    end in
  match value with
  | Raised e => ([], Raised e)
  | Returned None => ([], Raised (GTFtkError "Need a key and value."))
  | Returned (Some value) =>
      let key := if Py.mem key ["chrom"; "chr"] then "seqid" else key in
      let val_msg :=
        if Nat.ltb 20 (String.length value) then prefix 19 value ++ "..." else value in
      let msg := "Calling select_by_key (key=" ++ key ++ ", value=" ++ val_msg ++ ")" in
      ([msg], Returned (mk_dll_select_by_key key value im))
  end.

(** A line of the file whose column [col] cannot be read: [col - 1] is the
    number of its fields, or is below the least negative index. *)
Definition unreadable (col : Z) (line : string) : Prop :=
  let n := Z.of_nat (List.length (Py.split tabulation (chomp line))) in
  (col - 1 = n \/ col - 1 < - n)%Z.

End SelectByKey.

End GtfInterface.

(** * Properties *)

(** ** Facts on the run monad *)

Section MonadFacts.
Context {RNG : Type}.
Local Abbreviation M := (M RNG).
Local Open Scope run_scope.

Lemma bind_run {A B} (m : M A) (f : A -> M B) (g : RNG) :
  bind m f g =
  match m g with
  | (t, Done (a, g')) => ((t ++ fst (f a g'))%list, snd (f a g'))
  | (t, Exit) => (t, Exit)
  | (t, Crash) => (t, Crash)
  end.
Proof.
  unfold bind. destruct (m g) as [t [[a g']| |]]; try reflexivity.
  destruct (f a g'); reflexivity.
Qed.

Lemma bind_done_inv {A B} (m : M A) (f : A -> M B) g t x :
  bind m f g = (t, Done x) ->
  exists t1 a g1 t2,
    m g = (t1, Done (a, g1)) /\ f a g1 = (t2, Done x) /\ t = (t1 ++ t2)%list.
Proof.
  rewrite bind_run. destruct (m g) as [t1 [[a g1]| |]]; try discriminate.
  destruct (f a g1) as [t2 r] eqn:E. simpl. intros H. inversion H; subst.
  exists t1, a, g1, t2. auto.
Qed.

Lemma bind_stops {A B} (m : M A) (f : A -> M B) g :
  completed (snd (m g)) = false ->
  fst (bind m f g) = fst (m g) /\ completed (snd (bind m f g)) = false.
Proof.
  rewrite bind_run. destruct (m g) as [t [[a g1]| |]]; simpl; try discriminate; auto.
Qed.

Lemma bind_not_completed {A B} (m : M A) (f : A -> M B) g :
  (forall a g1 t, m g = (t, Done (a, g1)) -> completed (snd (f a g1)) = false) ->
  completed (snd (bind m f g)) = false.
Proof.
  intros H. rewrite bind_run. destruct (m g) as [t [[a g1]| |]] eqn:E; simpl; auto.
  eapply H; reflexivity.
Qed.

Lemma calls_app t1 t2 : calls (t1 ++ t2) = (calls t1 ++ calls t2)%list.
Proof.
  induction t1 as [|[ty m|c] t1 IH]; simpl; auto. now rewrite IH.
Qed.

Lemma messages_app ty t1 t2 : messages ty (t1 ++ t2) = (messages ty t1 ++ messages ty t2)%list.
Proof.
  induction t1 as [|[ty' m|c] t1 IH]; simpl; auto.
  destruct ty', ty; simpl; now rewrite IH.
Qed.

Lemma quiet_all_calls {A} Q (m : M A) : quiet m -> all_calls Q m.
Proof. intros H g. rewrite H. constructor. Qed.

Lemma quiet_ret {A} (a : A) : quiet (@ret RNG A a).
Proof. intros g. reflexivity. Qed.

Lemma quiet_crash {A} : quiet (@crash RNG A).
Proof. intros g. reflexivity. Qed.

Lemma quiet_message msg ty : quiet (@message RNG msg ty).
Proof. intros g. destruct ty; reflexivity. Qed.

Lemma quiet_bind {A B} (m : M A) (f : A -> M B) :
  quiet m -> (forall a, quiet (f a)) -> quiet (bind m f).
Proof.
  intros Hm Hf g. rewrite bind_run. specialize (Hm g).
  destruct (m g) as [t [[a g1]| |]]; simpl in *; auto.
  rewrite calls_app, Hm, Hf. reflexivity.
Qed.

Lemma quiet_when c (m : M unit) : quiet m -> quiet (when c m).
Proof. destruct c; simpl; auto using quiet_ret. Qed.

Lemma quiet_for {A} (l : list A) (body : A -> M unit) :
  (forall x, quiet (body x)) -> quiet (for_ l body).
Proof.
  intros H. induction l; simpl; auto using quiet_ret, quiet_bind.
Qed.

Lemma all_calls_bind {A B} Q (m : M A) (f : A -> M B) :
  all_calls Q m -> (forall a, all_calls Q (f a)) -> all_calls Q (bind m f).
Proof.
  intros Hm Hf g. rewrite bind_run. specialize (Hm g).
  destruct (m g) as [t [[a g1]| |]]; simpl in *; auto.
  rewrite calls_app. apply Forall_app. split; auto. apply Hf.
Qed.

Lemma all_calls_fold {A S} Q (l : list A) (body : S -> A -> M S) s :
  (forall s x, all_calls Q (body s x)) -> all_calls Q (fold_ l body s).
Proof.
  intros H. revert s. induction l; intros s; simpl.
  - apply quiet_all_calls, quiet_ret.
  - apply all_calls_bind; auto.
Qed.

Lemma all_calls_if {A} Q (c : bool) (m1 m2 : M A) :
  all_calls Q m1 -> all_calls Q m2 -> all_calls Q (if c then m1 else m2).
Proof. destruct c; auto. Qed.

End MonadFacts.

(** Splits an equation [bind m f g = (t, Done x)] into its two runs. *)
Ltac bind_inv H H1 H2 :=
  let t1 := fresh "t" in
  let x := fresh "x" in
  let g1 := fresh "g" in
  let t2 := fresh "t" in
  let Ht := fresh "Ht" in
  apply bind_done_inv in H; destruct H as (t1 & x & g1 & t2 & H1 & H2 & Ht).

Create HintDb quiet.
Create HintDb calls.

#[local] Hint Resolve quiet_ret quiet_crash quiet_message quiet_bind quiet_when quiet_for : quiet.
#[local] Hint Resolve quiet_all_calls all_calls_bind all_calls_fold all_calls_if : calls.

(** ** Facts on the sections of the command *)

Section OlogramFacts.
Context {GTF RNG : Type} (ext : Collaborators GTF RNG).
Local Open Scope run_scope.
Implicit Types (a : Args.t GTF) (g : RNG) (gn : genome).

Ltac quiet_tac :=
  repeat first
    [ apply quiet_ret | apply quiet_crash | apply quiet_message
    | apply quiet_when | apply quiet_for; intro | apply quiet_bind; [|intro]
    | match goal with
      | |- quiet (if ?c then _ else _) => destruct c
      | |- quiet (match ?o with Some _ => _ | None => _ end) => destruct o
      end ].

Lemma quiet_initial_checkups a : quiet (initial_checkups ext a).
Proof.
  unfold initial_checkups. apply quiet_bind; [intros g; reflexivity|intro]. quiet_tac.
Qed.

Lemma quiet_multiple_overlap_checks a : quiet (multiple_overlap_checks (RNG:=RNG) a).
Proof. unfold multiple_overlap_checks. quiet_tac. Qed.

Lemma quiet_no_gtf_checks a : quiet (no_gtf_checks (RNG:=RNG) a).
Proof. unfold no_gtf_checks. quiet_tac. Qed.

Lemma quiet_no_basic_feature_checks a : quiet (no_basic_feature_checks (RNG:=RNG) a).
Proof. unfold no_basic_feature_checks. quiet_tac. Qed.

Lemma quiet_load_chrom_len a : quiet (load_chrom_len ext a).
Proof. unfold load_chrom_len. quiet_tac. Qed.

Lemma quiet_check_peak_chroms a cl : quiet (check_peak_chroms (RNG:=RNG) a cl).
Proof. unfold check_peak_chroms. quiet_tac. Qed.

Lemma quiet_before_exclusion a : quiet (before_exclusion ext a).
Proof.
  unfold before_exclusion.
  apply quiet_bind; [apply quiet_initial_checkups|intro].
  apply quiet_bind; [apply quiet_multiple_overlap_checks|intro].
  apply quiet_bind; [apply quiet_no_gtf_checks|intro].
  apply quiet_bind; [apply quiet_no_basic_feature_checks|intro].
  apply quiet_bind; [apply quiet_load_chrom_len|intro].
  apply quiet_bind; [apply quiet_check_peak_chroms|intro].
  apply quiet_ret.
Qed.

Lemma quiet_region_exclusion a cl pk : quiet (region_exclusion ext a cl pk).
Proof. unfold region_exclusion, inclusion_to_exclusion, apply_exclusion. quiet_tac. Qed.

Lemma quiet_read_gtf a cl : quiet (read_gtf ext a cl).
Proof. unfold read_gtf. quiet_tac. Qed.

Lemma quiet_check_more_bed_labels mb ls : quiet (check_more_bed_labels (RNG:=RNG) mb ls).
Proof. unfold check_more_bed_labels, check_label. quiet_tac. Qed.

(** Every call made after the exclusion goes through [overlap_partial]. *)
Lemma calls_overlap_partial a gn b ft :
  all_calls (issued_by a gn) (overlap_partial ext a gn b ft).
Proof.
  intros g. unfold overlap_partial. rewrite bind_run. simpl.
  constructor; [eexists; reflexivity | constructor].
Qed.

Lemma calls_overlap_partial_multi a gn bs fts :
  all_calls (issued_by a gn) (overlap_partial_multi ext a gn bs fts).
Proof.
  intros g. unfold overlap_partial_multi. rewrite bind_run. simpl.
  constructor; [eexists; reflexivity | constructor].
Qed.

Lemma calls_add_hit a gn h b ft : all_calls (issued_by a gn) (add_hit ext a gn h b ft).
Proof.
  unfold add_hit. apply all_calls_bind; [apply calls_overlap_partial|].
  intro. apply quiet_all_calls, quiet_ret.
Qed.

Ltac calls_tac :=
  repeat first
    [ apply calls_add_hit | apply calls_overlap_partial_multi
    | apply quiet_all_calls; solve [quiet_tac]
    | apply all_calls_bind; [|intro]
    | apply all_calls_fold; intros
    | match goal with
      | |- all_calls _ (if ?c then _ else _) => destruct c
      | |- all_calls _ (match ?o with Some _ => _ | None => _ end) => destruct o
      | |- all_calls _ (let '(_, _) := ?p in _) => destruct p
      end ].

Lemma calls_gtf_features a gn gtf h : all_calls (issued_by a gn) (gtf_features ext a gn gtf h).
Proof.
  unfold gtf_features, basic_features, more_keys_features. calls_tac.
Qed.

Lemma calls_user_annotations a gn ls h :
  all_calls (issued_by a gn) (user_annotations ext a gn ls h).
Proof.
  unfold user_annotations, one_annotation, check_more_bed_chroms. calls_tac.
Qed.

Lemma calls_multiple_overlaps a gn st :
  all_calls (issued_by a gn) (multiple_overlaps ext a gn st).
Proof. unfold multiple_overlaps. calls_tac. Qed.

Lemma calls_after_exclusion a gn : all_calls (issued_by a gn) (after_exclusion ext a gn).
Proof.
  unfold after_exclusion.
  apply all_calls_bind; [apply quiet_all_calls, quiet_read_gtf|intro].
  apply all_calls_bind; [apply quiet_all_calls, quiet_check_more_bed_labels|intro].
  apply all_calls_bind; [apply calls_gtf_features|intro].
  apply all_calls_bind; [apply calls_user_annotations|intro].
  apply all_calls_bind; [apply calls_multiple_overlaps|intro].
  calls_tac.
Qed.

End OlogramFacts.

Section RunFacts.
Context {GTF RNG : Type} (ext : Collaborators GTF RNG).
Local Open Scope run_scope.
Implicit Types (a : Args.t GTF) (g : RNG) (gn : genome).

Lemma ret_done_inv {A} (x y : A) g t g1 :
  ret x g = (t, Done (y, g1)) -> y = x /\ g1 = g /\ t = [].
Proof. unfold ret. intros H. inversion H. auto. Qed.

Lemma check_peak_chroms_done a cl g t pk g1 :
  check_peak_chroms a cl g = (t, Done (pk, g1)) ->
  pk = if Args.force_chrom_peak a
       then on_defined_chroms cl (bf_regions (Args.peak_file a))
       else bf_regions (Args.peak_file a).
Proof.
  unfold check_peak_chroms. destruct (Args.force_chrom_peak a); simpl; intros H;
    bind_inv H H1 H2; apply ret_done_inv in H2; tauto.
Qed.

Lemma load_chrom_len_done a g t cl g1 :
  load_chrom_len ext a g = (t, Done (cl, g1)) ->
  chrom_info_as_dict ext (Args.chrom_info a) = Some cl.
Proof.
  unfold load_chrom_len. destruct (chrom_info_as_dict ext (Args.chrom_info a)).
  - intros H. apply ret_done_inv in H. destruct H as [-> _]. reflexivity.
  - discriminate.
Qed.

(** When the first part of the command completes, [chrom_len] is the
    dictionary of the chromInfo file and [peak_file] holds the peaks,
    filtered if asked, sorted and merged. *)
Lemma before_exclusion_done a g t cl pk g1 :
  before_exclusion ext a g = (t, Done ((cl, pk), g1)) ->
  chrom_info_as_dict ext (Args.chrom_info a) = Some cl /\ pk = merged_peaks ext a cl.
Proof.
  unfold before_exclusion. intros H.
  bind_inv H K1 H. bind_inv H K2 H. bind_inv H K3 H. bind_inv H K4 H.
  bind_inv H K5 H. bind_inv H K6 H.
  apply ret_done_inv in H. destruct H as (E & _ & _). inversion E; subst.
  apply load_chrom_len_done in K5. apply check_peak_chroms_done in K6.
  split; auto. unfold merged_peaks. congruence.
Qed.

Lemma inclusion_to_exclusion_done a cl g t x g1 :
  inclusion_to_exclusion ext a cl g = (t, Done (x, g1)) ->
  x = effective_exclusion ext a cl /\ g1 = g.
Proof.
  unfold inclusion_to_exclusion, effective_exclusion. destruct (Args.bed_incl a).
  - intros H. bind_inv H H1 H2. apply ret_done_inv in H2.
    unfold when in H1. destruct (is_some (Args.bed_excl a)).
    + discriminate.
    + apply ret_done_inv in H1. destruct H1 as (_ & -> & _). tauto.
  - intros H. apply ret_done_inv in H. tauto.
Qed.

Lemma apply_exclusion_done a cl pk x g t gn g1 :
  apply_exclusion ext a cl pk x g = (t, Done (gn, g1)) ->
  gn = match x with
       | Some bed_excl =>
           mk_genome (exclude_chromsizes ext (sort_merge ext bed_excl) cl)
                     (exclude_concatenate ext pk (sort_merge ext bed_excl) (Args.nb_threads a))
                     (Some (sort_merge ext bed_excl))
       | None => mk_genome cl pk None
       end.
Proof.
  unfold apply_exclusion. destruct x.
  - intros H. bind_inv H H1 H. bind_inv H H2 H. apply ret_done_inv in H. tauto.
  - intros H. apply ret_done_inv in H. tauto.
Qed.

Lemma region_exclusion_done a cl pk g t gn g1 :
  region_exclusion ext a cl pk g = (t, Done (gn, g1)) -> gn = genome_after ext a cl pk.
Proof.
  unfold region_exclusion, genome_after. intros H. bind_inv H H1 H2.
  apply inclusion_to_exclusion_done in H1. destruct H1 as [-> _].
  apply apply_exclusion_done in H2. exact H2.
Qed.

(** Every call of the statistics engine made by the command is made
    through [overlap_partial], with the local variables left by the region
    exclusion. *)
Lemma ologram_calls a g cl :
  chrom_info_as_dict ext (Args.chrom_info a) = Some cl ->
  Forall (issued_by a (genome_after ext a cl (merged_peaks ext a cl)))
         (calls (fst (ologram ext a g))).
Proof.
  intros Hcl. unfold ologram. rewrite bind_run.
  pose proof (quiet_before_exclusion ext a g) as Q0.
  destruct (before_exclusion ext a g) as [t0 [[[cl' pk] g1]| |]] eqn:E0; simpl in *;
    try (rewrite Q0; constructor).
  apply before_exclusion_done in E0. destruct E0 as [E0 ->].
  assert (cl' = cl) as -> by congruence.
  rewrite calls_app, Q0. simpl. rewrite bind_run.
  pose proof (quiet_region_exclusion ext a cl (merged_peaks ext a cl) g1) as Q1.
  destruct (region_exclusion ext a cl (merged_peaks ext a cl) g1) as [t1 [[gn g2]| |]] eqn:E1;
    simpl in *; try (rewrite Q1; constructor).
  apply region_exclusion_done in E1. subst gn.
  rewrite calls_app, Q1. simpl. apply calls_after_exclusion.
Qed.

(** Without a chromosome dictionary the engine is never called. *)
Lemma ologram_calls_none a g :
  chrom_info_as_dict ext (Args.chrom_info a) = None -> calls (fst (ologram ext a g)) = [].
Proof.
  intros Hcl. unfold ologram. rewrite bind_run.
  pose proof (quiet_before_exclusion ext a g) as Q0.
  destruct (before_exclusion ext a g) as [t0 [[[cl' pk] g1]| |]] eqn:E0; simpl in *; auto.
  apply before_exclusion_done in E0. destruct E0 as [E0 _]. congruence.
Qed.

End RunFacts.

(** ** The masks *)

Section Masks.
Context {GTF RNG : Type} (ext : Collaborators GTF RNG).
Local Open Scope run_scope.
Implicit Types (a : Args.t GTF) (g : RNG).

Lemma before_exclusion_set_masks a e i :
  before_exclusion ext (set_masks a e i) = before_exclusion ext a.
Proof. destruct a. reflexivity. Qed.

Lemma after_exclusion_set_masks a e i gn :
  after_exclusion ext (set_masks a e i) gn = after_exclusion ext a gn.
Proof. destruct a. reflexivity. Qed.

Lemma apply_exclusion_set_masks a e i cl pk x :
  apply_exclusion ext (set_masks a e i) cl pk x = apply_exclusion ext a cl pk x.
Proof. destruct a. reflexivity. Qed.

Lemma inclusion_to_exclusion_inclusion a incl cl g :
  inclusion_to_exclusion ext (set_masks a None (Some incl)) cl g
  = ([], Done (Some (bed_subtract ext (full_genome_bed cl) incl), g)).
Proof. destruct a. reflexivity. Qed.

Lemma inclusion_to_exclusion_exclusion a excl cl g :
  inclusion_to_exclusion ext (set_masks a (Some excl) None) cl g = ([], Done (Some excl, g)).
Proof. destruct a. reflexivity. Qed.

Lemma region_exclusion_inclusion a incl cl pk g :
  region_exclusion ext (set_masks a None (Some incl)) cl pk g
  = apply_exclusion ext a cl pk (Some (bed_subtract ext (full_genome_bed cl) incl)) g.
Proof.
  unfold region_exclusion. rewrite bind_run, inclusion_to_exclusion_inclusion.
  rewrite apply_exclusion_set_masks. destruct (apply_exclusion ext a cl pk _ g). reflexivity.
Qed.

Lemma region_exclusion_exclusion a excl cl pk g :
  region_exclusion ext (set_masks a (Some excl) None) cl pk g
  = apply_exclusion ext a cl pk (Some excl) g.
Proof.
  unfold region_exclusion. rewrite bind_run, inclusion_to_exclusion_exclusion.
  rewrite apply_exclusion_set_masks. destruct (apply_exclusion ext a cl pk _ g). reflexivity.
Qed.


(** C4. With both an inclusion and an exclusion file the command never
    completes and never calls the statistics engine; when the checks that
    come first pass, it stops on the ERROR message that names the two
    options. *)
Theorem both_masks_abort a g (incl excl : bed) :
  Args.bed_incl a = Some incl ->
  Args.bed_excl a = Some excl ->
  calls (fst (ologram ext a g)) = []
  /\ completed (snd (ologram ext a g)) = false
  /\ (forall t0 cp g1,
        before_exclusion ext a g = (t0, Done (cp, g1)) ->
        ologram ext a g
        = ((t0 ++ [Ev_message ERROR "Cannot specify both --bed_incl and --bed_excl"])%list, Exit)).
Proof.
  intros Hi He.
  assert (R : forall cl pk g1,
             region_exclusion ext a cl pk g1
             = ([Ev_message ERROR "Cannot specify both --bed_incl and --bed_excl"], Exit)).
  { intros. unfold region_exclusion, inclusion_to_exclusion. rewrite Hi, He. reflexivity. }
  unfold ologram. rewrite bind_run.
  pose proof (quiet_before_exclusion ext a g) as Q0.
  destruct (before_exclusion ext a g) as [t0 [[[cl pk] g1]| |]] eqn:E0; simpl in *.
  - rewrite bind_run, R. simpl. rewrite calls_app, Q0. repeat split.
    intros t0' cp g1' H. inversion H; subst. reflexivity.
  - repeat split; auto. discriminate.
  - repeat split; auto. discriminate.
Qed.

End Masks.

Lemma both_masks_abort_witness :
  calls (fst (ologram (Reference.collaborators 1) Runs.both_masks 0%nat)) = []
  /\ completed (snd (ologram (Reference.collaborators 1) Runs.both_masks 0%nat)) = false
  /\ ologram (Reference.collaborators 1) Runs.both_masks 0%nat
     = ([Ev_message ERROR "Cannot specify both --bed_incl and --bed_excl"], Exit).
Proof.
  destruct (both_masks_abort (Reference.collaborators 1) Runs.both_masks 0%nat
              [Reference.chr1 40 100] [Reference.chr1 0 30] eq_refl eq_refl)
    as (H1 & H2 & H3).
  split; [exact H1|]. split; [exact H2|].
  eapply (H3 []). vm_compute. reflexivity.
Defined.

(** ** The query set and the chromosome sizes *)

(** C7, as amended.  The peaks are sorted and merged once, before any call
    of the statistics engine; after that the query set changes only through
    the region exclusion, applied once when an exclusion or inclusion file
    is given, and the keys of the chromosome sizes never change: every call
    of the engine receives the same query set [query_set] (with no mask, the
    sorted and merged peaks themselves) and chromosome sizes that have the
    keys of the loaded ones.  That [exclude_chromsizes] keeps the keys is
    what the source's comment relies on. *)
Theorem query_set_fixed_once_excluded {GTF RNG} (ext : Collaborators GTF RNG)
    (a : Args.t GTF) (g : RNG) (cl : chrom_dict) :
  (forall mask d, Py.keys (exclude_chromsizes ext mask d) = Py.keys d) ->
  chrom_info_as_dict ext (Args.chrom_info a) = Some cl ->
  Forall (fun c => Call.bedA c = query_set ext a cl
                   /\ Py.keys (Call.chrom_len c) = Py.keys cl)
         (calls (fst (ologram ext a g)))
  /\ (Args.bed_excl a = None -> Args.bed_incl a = None ->
      query_set ext a cl = bed_merge ext (bed_sort ext
        (if Args.force_chrom_peak a
         then on_defined_chroms cl (bf_regions (Args.peak_file a))
         else bf_regions (Args.peak_file a)))).
Proof.
  intros Hkeys Hcl. split.
  - eapply Forall_impl; [|apply (ologram_calls ext a g cl Hcl)].
    intros c [b ->]. unfold overlap_partial_call, genome_after, query_set. simpl.
    destruct (effective_exclusion ext a cl); simpl; auto.
  - intros He Hi. unfold query_set, effective_exclusion. rewrite Hi, He. reflexivity.
Qed.

Lemma reference_exclude_chromsizes_keys (mask : bed) (d : chrom_dict) :
  Py.keys (Reference.exclude_chromsizes mask d) = Py.keys d.
Proof.
  unfold Reference.exclude_chromsizes, Py.keys. rewrite map_map. reflexivity.
Qed.

Lemma query_set_fixed_once_excluded_witness :
  Forall (fun c => Call.bedA c
                   = query_set (Reference.collaborators 1) Runs.with_exclusion [("chr1", 100)]
                   /\ Py.keys (Call.chrom_len c) = Py.keys [("chr1", 100)])
         (calls (fst (ologram (Reference.collaborators 1) Runs.with_exclusion 0%nat)))
  /\ query_set (Reference.collaborators 1) Reference.base_args [("chr1", 100)]
     = [Reference.chr1 10 20; Reference.chr1 50 60].
Proof.
  split.
  - exact (proj1 (query_set_fixed_once_excluded (Reference.collaborators 1) Runs.with_exclusion
                    0%nat [("chr1", 100)] reference_exclude_chromsizes_keys eq_refl)).
  - rewrite (proj2 (query_set_fixed_once_excluded (Reference.collaborators 1)
                      Reference.base_args 0%nat [("chr1", 100)]
                      reference_exclude_chromsizes_keys eq_refl) eq_refl eq_refl).
    reflexivity.
Defined.

(** C7, as stated, fails: with an exclusion file that covers the first
    peak, the peaks sorted and merged are [chr1:10-20, chr1:50-60] but the
    run completes and both calls of the engine receive [chr1:20-30], the
    remaining peak in the coordinates of the shortened chromosome. *)
Lemma query_set_modified_by_exclusion :
  sort_merge (Reference.collaborators 1) (bf_regions (Args.peak_file Runs.with_exclusion))
  = [Reference.chr1 10 20; Reference.chr1 50 60]
  /\ completed (snd (ologram (Reference.collaborators 1) Runs.with_exclusion 0%nat)) = true
  /\ map Call.bedA (calls (fst (ologram (Reference.collaborators 1) Runs.with_exclusion 0%nat)))
     = [[Reference.chr1 20 30]; [Reference.chr1 20 30]].
Proof. vm_compute. repeat split. Qed.

(** ** Options of the multiple overlaps *)

(** C3, as amended.  A sizing or pruning option given together with custom
    combinations is not an error: for each such option one INFO message
    says that it is ignored, and in multiple-overlap mode the check
    completes; the check ends the run only when custom combinations are
    given without [--more-bed-multiple-overlap], after the same INFO
    messages. *)
Theorem sizing_options_ignored_with_custom_combis {GTF RNG} (a : Args.t GTF) (g : RNG)
    (custom : list (list bool)) :
  Args.multiple_overlap_custom_combis a = Some custom ->
  let target_set := negb (Args.multiple_overlap_target_combi_size a =? -1) in
  let max_set := negb (Args.multiple_overlap_max_number_of_combinations a =? -1) in
  let ignored :=
    ((if target_set then [Ev_message INFO msg_mocs_ignored_custom] else [])
     ++ (if max_set then [Ev_message INFO msg_monc_ignored_custom] else []))%list in
  let useless :=
    ((if target_set then [Ev_message INFO msg_mocs_ignored_no_mo] else [])
     ++ (if max_set then [Ev_message INFO msg_monc_ignored_no_mo] else []))%list in
  (Args.more_bed_multiple_overlap a = true -> Args.more_bed a <> None ->
   multiple_overlap_checks a g = (ignored, Done (tt, g)))
  /\ (Args.more_bed_multiple_overlap a = false ->
      multiple_overlap_checks a g
      = ((useless ++ ignored ++ [Ev_message ERROR msg_custom_needs_mo])%list, Exit)).
Proof.
  intros Hc. unfold multiple_overlap_checks. rewrite Hc. cbv zeta.
  split.
  - intros -> Hb. destruct (Args.more_bed a) as [mb|]; [clear Hb|congruence]. simpl.
    destruct (Args.multiple_overlap_target_combi_size a =? -1);
      destruct (Args.multiple_overlap_max_number_of_combinations a =? -1); reflexivity.
  - intros ->. simpl.
    destruct (Args.multiple_overlap_target_combi_size a =? -1);
      destruct (Args.multiple_overlap_max_number_of_combinations a =? -1); reflexivity.
Qed.

Lemma sizing_options_ignored_with_custom_combis_witness :
  multiple_overlap_checks Runs.custom_and_size 0%nat
  = ([Ev_message INFO msg_mocs_ignored_custom], Done (tt, 0%nat)).
Proof.
  apply (proj1 (sizing_options_ignored_with_custom_combis Runs.custom_and_size 0%nat
                  [[true; false]; [true; true]] eq_refl)).
  - reflexivity.
  - discriminate.
Defined.

(** C3, as stated, fails: with a target combination size of 3 and custom
    combinations, the run prints that the size is ignored, raises no ERROR,
    calls the statistics engine and completes with the two custom
    combinations in its table. *)
Lemma sizing_with_custom_combis_completes :
  Args.multiple_overlap_target_combi_size Runs.custom_and_size = 3
  /\ is_some (Args.multiple_overlap_custom_combis Runs.custom_and_size) = true
  /\ completed (snd (ologram (Reference.collaborators 1) Runs.custom_and_size 0%nat)) = true
  /\ messages ERROR (fst (ologram (Reference.collaborators 1) Runs.custom_and_size 0%nat)) = []
  /\ hd "" (messages INFO (fst (ologram (Reference.collaborators 1) Runs.custom_and_size 0%nat)))
     = msg_mocs_ignored_custom
  /\ List.length (calls (fst (ologram (Reference.collaborators 1) Runs.custom_and_size 0%nat)))
     = 1%nat.
Proof. vm_compute. repeat split. Qed.

(** ** Worker count *)

Lemma bind_trace_In {RNG A B} (m : M RNG A) (f : A -> M RNG B) g e :
  In e (fst (m g)) -> In e (fst (bind m f g)).
Proof.
  rewrite bind_run. destruct (m g) as [t [[x g1]| |]]; simpl; auto.
  intros H. apply in_or_app. auto.
Qed.

Lemma initial_checkups_trace {GTF RNG} (ext : Collaborators GTF RNG) (a : Args.t GTF) g :
  exists markov,
    fst (initial_checkups ext a g)
    = (markov ++ if Args.nb_threads a <? cpu_count ext
                 then [Ev_message WARNING (threads_warning (Args.nb_threads a) (cpu_count ext))]
                 else [])%list
    /\ forall e, In e markov -> exists m, e = Ev_message INFO "Using Markov order 2 shuffling."
                                      \/ e = Ev_message WARNING (String "M" m).
Proof.
  unfold initial_checkups. rewrite !bind_run. simpl.
  destruct (Args.use_markov a); simpl.
  - eexists [_; _]. split.
    + destruct (Args.nb_threads a <? cpu_count ext); reflexivity.
    + intros e [<-|[<-|[]]]; [exists ""; left|eexists; right]; reflexivity.
  - exists []. split.
    + destruct (Args.nb_threads a <? cpu_count ext); reflexivity.
    + intros e [].
Qed.

Lemma threads_warning_emitted {GTF RNG} (ext : Collaborators GTF RNG) (a : Args.t GTF) g :
  Args.nb_threads a < cpu_count ext ->
  In (Ev_message WARNING (threads_warning (Args.nb_threads a) (cpu_count ext)))
     (fst (ologram ext a g)).
Proof.
  intros Hlt. destruct (initial_checkups_trace ext a g) as (markov & Ht & _).
  unfold ologram, before_exclusion. do 2 apply bind_trace_In.
  rewrite Ht. apply Z.ltb_lt in Hlt. rewrite Hlt. apply in_or_app. right. left. reflexivity.
Qed.



(** With no worker at all the same warning is printed: the plugin itself
    does not treat 0 apart. *)
Lemma zero_threads_warned {GTF RNG} (ext : Collaborators GTF RNG) (a : Args.t GTF) (g : RNG) :
  Args.nb_threads a = 0 -> 0 < cpu_count ext ->
  In (Ev_message WARNING (threads_warning 0 (cpu_count ext))) (fst (ologram ext a g)).
Proof.
  intros H0 Hc. rewrite <- H0. apply threads_warning_emitted. rewrite H0. exact Hc.
Qed.

(** ** Labels of the user-defined regions *)

Section Labels.
Import Py.

Lemma mem_In (k : string) (l : list string) : mem k l = true <-> In k l.
Proof.
  unfold mem. rewrite existsb_exists. split.
  - intros (x & Hx & E). apply String.eqb_eq in E. now subst.
  - intros H. exists k. split; auto. apply String.eqb_refl.
Qed.

Lemma uniq_In (x : string) (l : list string) : In x (uniq l) <-> In x l.
Proof.
  induction l as [|y l IH]; simpl; [tauto|].
  rewrite filter_In, IH. destruct (String.eqb_spec y x) as [->|N]; simpl.
  - split; auto.
  - split; [tauto|]. intros [E|H]; [contradiction|]. right. auto.
Qed.

Lemma uniq_NoDup (l : list string) : NoDup (uniq l).
Proof.
  induction l as [|y l IH]; simpl; constructor.
  - rewrite filter_In. intros [_ H]. rewrite String.eqb_refl in H. discriminate.
  - apply NoDup_filter. exact IH.
Qed.

Lemma uniq_length_le (l : list string) : (List.length (uniq l) <= List.length l)%nat.
Proof.
  induction l as [|y l IH]; simpl; auto.
  pose proof (filter_length_le (fun z => negb (String.eqb y z)) (uniq l)). lia.
Qed.

Lemma filter_all_length {A} (p : A -> bool) (l : list A) :
  List.length (filter p l) = List.length l -> forall x, In x l -> p x = true.
Proof.
  induction l as [|y l IH]; simpl; [tauto|].
  pose proof (filter_length_le p l) as Hle.
  destruct (p y) eqn:E; simpl; intros H x [<-|Hx]; auto; try lia.
Qed.

(** [len(l) == len(set(l))] tells that the elements of [l] are pairwise
    distinct. *)
Lemma uniq_length_NoDup (l : list string) :
  Nat.eqb (List.length l) (List.length (uniq l)) = true <-> NoDup l.
Proof.
  rewrite Nat.eqb_eq. induction l as [|y l IH]; simpl.
  - split; auto. constructor.
  - pose proof (uniq_length_le l) as Hle.
    pose proof (filter_length_le (fun z => negb (String.eqb y z)) (uniq l)) as Hf.
    split.
    + intros H. assert (Hl : List.length l = List.length (uniq l)) by lia.
      constructor; [|apply IH; exact Hl].
      intros Hin. apply (proj2 (uniq_In _ _)) in Hin.
      assert (Hall := filter_all_length (fun z => negb (String.eqb y z)) (uniq l)).
      rewrite <- Hl in Hall. specialize (Hall ltac:(lia) y Hin).
      rewrite String.eqb_refl in Hall. discriminate.
    + intros H. inversion H as [|? ? Hnin Hnd]; subst. apply IH in Hnd.
      f_equal. rewrite forallb_filter_id; [exact Hnd|].
      apply forallb_forall. intros z Hz. apply (proj1 (uniq_In _ _)) in Hz.
      destruct (String.eqb_spec y z) as [E|]; auto. subst. contradiction.
Qed.

(** The result of the last substitution holds letters, digits and
    underscores only. *)
Lemma sub_non_alnum_aux_word (b : bool) (s : string) :
  forallb_string is_word (Re.sub_non_alnum_aux b s) = true.
Proof.
  revert b. induction s as [|c s IH]; intros b; simpl; auto.
  destruct (is_alnum c) eqn:E; simpl.
  - unfold is_word. rewrite E. simpl. apply IH.
  - destruct b; simpl; auto.
Qed.

Lemma cleaned_name_word (name : string) : forallb_string is_word (cleaned_name name) = true.
Proof. apply sub_non_alnum_aux_word. Qed.

End Labels.

Section LabelCheck.
Context {GTF RNG : Type} (ext : Collaborators GTF RNG).
Local Open Scope run_scope.
Implicit Types (a : Args.t GTF) (g : RNG).

Lemma for_check_label_ok (ls : list string) g :
  forallb Re.search_label ls = true -> for_ ls check_label g = ([], Done (tt, g)).
Proof.
  induction ls as [|l ls IH]; simpl; auto.
  intros H. apply andb_prop in H. destruct H as [Hl Hls].
  rewrite bind_run. unfold check_label at 1. rewrite Hl. simpl. rewrite (IH Hls). reflexivity.
Qed.

Lemma for_check_label_bad (ls : list string) g :
  forallb Re.search_label ls = false ->
  exists bad,
    In bad ls /\ Re.search_label bad = false
    /\ for_ ls check_label g
       = ([Ev_message WARNING ("Problem with:" ++ bad);
           Ev_message ERROR "Only alphanumeric characters and '_' allowed for --more-bed-labels"],
          Exit).
Proof.
  induction ls as [|l ls IH]; simpl; [discriminate|].
  destruct (Re.search_label l) eqn:Hl; simpl.
  - intros H. destruct (IH H) as (bad & Hin & Hbad & E). exists bad.
    repeat split; auto. rewrite bind_run. unfold check_label at 1. rewrite Hl. simpl.
    rewrite E. reflexivity.
  - intros _. exists l. repeat split; auto.
    rewrite bind_run. unfold check_label. rewrite Hl. reflexivity.
Qed.

Lemma labels_accepted_spec (beds : list bed_file) (s : string) :
  labels_accepted beds s = true
  <-> Forall (fun l => Re.search_label l = true) (Py.split "," s)
      /\ List.length (Py.split "," s) = List.length beds
      /\ NoDup (Py.split "," s).
Proof.
  unfold labels_accepted. rewrite !andb_true_iff, Nat.eqb_eq, uniq_length_NoDup.
  rewrite forallb_forall, Forall_forall. tauto.
Qed.

Lemma check_more_bed_labels_accepted (beds : list bed_file) (s : string) g :
  labels_accepted beds s = true ->
  check_more_bed_labels (Some beds) (Some s) g = ([], Done (Some (Py.split "," s), g)).
Proof.
  unfold labels_accepted. intros H.
  apply andb_prop in H. destruct H as [H H3]. apply andb_prop in H. destruct H as [H1 H2].
  unfold check_more_bed_labels. rewrite bind_run, (for_check_label_ok _ g H1).
  simpl. rewrite H2, H3. reflexivity.
Qed.

Lemma check_more_bed_labels_rejected (beds : list bed_file) (s : string) g :
  labels_accepted beds s = false ->
  exists t msg,
    check_more_bed_labels (Some beds) (Some s) g = ((t ++ [Ev_message ERROR msg])%list, Exit).
Proof.
  unfold labels_accepted, check_more_bed_labels. intros H. rewrite bind_run.
  destruct (forallb Re.search_label (Py.split "," s)) eqn:H1.
  - rewrite (for_check_label_ok _ g H1). simpl in *.
    destruct (Nat.eqb (List.length (Py.split "," s)) (List.length beds)) eqn:H2; simpl in *.
    + rewrite H. simpl. exists [], "Redundant labels not allowed.". reflexivity.
    + exists [], msg_labels_number. reflexivity.
  - destruct (for_check_label_bad _ g H1) as (bad & _ & _ & E). rewrite E.
    exists [Ev_message WARNING ("Problem with:" ++ bad)]. eexists. reflexivity.
Qed.

Lemma check_more_bed_labels_default (beds : list bed_file) g :
  check_more_bed_labels (Some beds) None g
  = ([Ev_message WARNING msg_labels_default;
      Ev_message DEBUG ("--more-bed-label will be set to: "
                        ++ Py.join "," (map (fun f => cleaned_name (bf_name f)) beds))],
     Done (Some (map (fun f => cleaned_name (bf_name f)) beds), g)).
Proof. reflexivity. Qed.

Lemma alnum_only_sub_non_alnum (b : bool) (s : string) :
  alnum_only (Re.sub_non_alnum_aux b s) = alnum_only s.
Proof.
  revert b. induction s as [|c s IH]; intros b; simpl; auto.
  destruct (Py.is_alnum c) eqn:E; simpl.
  - rewrite E, IH. reflexivity.
  - destruct b; simpl; auto.
Qed.

(** When the label check ends the run, the command does not complete. *)
Lemma ologram_stops_on_labels a g :
  (forall g', completed (snd (check_more_bed_labels (Args.more_bed a) (Args.more_bed_labels a) g'))
              = false) ->
  completed (snd (ologram ext a g)) = false.
Proof.
  intros H. unfold ologram.
  apply bind_not_completed. intros cp g1 t0 _.
  apply bind_not_completed. intros gn g2 t1 _.
  unfold after_exclusion.
  apply bind_not_completed. intros gtf g3 t2 _.
  apply bind_stops. apply H.
Qed.

(** C10.  With reference BED files and explicit labels, the run goes on
    past the label check only if every label matches [^[A-Za-z0-9_]+$],
    there are as many labels as files and no label is given twice;
    otherwise the check ends on an ERROR message and the command does not
    complete.  Without labels, a WARNING is printed, nothing is fatal, and
    each label is the cleaned base name of its file: only letters, digits
    and underscores, the letters and digits being those of the base name
    (once the suffixes [_converted.bed] and [_pygtftk...] are removed). *)
Theorem more_bed_labels_checked a g (beds : list bed_file) :
  Args.more_bed a = Some beds ->
  (forall s, Args.more_bed_labels a = Some s ->
     let labels := Py.split "," s in
     let ok := Forall (fun l => Re.search_label l = true) labels
               /\ List.length labels = List.length beds
               /\ NoDup labels in
     (~ ok ->
      completed (snd (ologram ext a g)) = false
      /\ exists t msg,
           check_more_bed_labels (Some beds) (Some s) g
           = ((t ++ [Ev_message ERROR msg])%list, Exit))
     /\ (ok -> check_more_bed_labels (Some beds) (Some s) g = ([], Done (Some labels, g))))
  /\ (Args.more_bed_labels a = None ->
      let labels := map (fun f => cleaned_name (bf_name f)) beds in
      check_more_bed_labels (Some beds) None g
      = ([Ev_message WARNING msg_labels_default;
          Ev_message DEBUG ("--more-bed-label will be set to: " ++ Py.join "," labels)],
         Done (Some labels, g))
      /\ Forall (fun f =>
                   Py.forallb_string Py.is_word (cleaned_name (bf_name f)) = true
                   /\ alnum_only (cleaned_name (bf_name f))
                      = alnum_only (stripped_name (bf_name f)))
                beds).
Proof.
  intros Hb. split.
  - intros s Hs labels ok. subst labels ok. split.
    + intros Hko.
      assert (Hrej : labels_accepted beds s = false).
      { destruct (labels_accepted beds s) eqn:E; auto.
        exfalso. apply Hko. apply labels_accepted_spec. exact E. }
      split.
      * apply ologram_stops_on_labels. intros g'. rewrite Hb, Hs.
        destruct (check_more_bed_labels_rejected beds s g' Hrej) as (t & msg & E).
        rewrite E. reflexivity.
      * apply check_more_bed_labels_rejected. exact Hrej.
    + intros Hok. apply check_more_bed_labels_accepted. apply labels_accepted_spec. exact Hok.
  - intros _ labels. subst labels. split.
    + apply check_more_bed_labels_default.
    + apply Forall_forall. intros f _. split.
      * apply cleaned_name_word.
      * unfold cleaned_name, stripped_name, Re.sub_non_alnum. apply alnum_only_sub_non_alnum.
Qed.

End LabelCheck.

(** ** The output table *)

Section Table.
Context {GTF RNG : Type} (ext : Collaborators GTF RNG).
Local Open Scope run_scope.
Implicit Types (a : Args.t GTF) (g : RNG).

Lemma table_cells_layout (h : hits_t) :
  h <> [] ->
  table_cells ext h
  = ("feature_type" :: stat_fields)
      :: map (fun fr => fst fr :: map (py_str ext) (stat_values (snd fr))) h.
Proof. destruct h as [|[l r] h]; [congruence|]. intros _. reflexivity. Qed.

Lemma after_exclusion_done a gn g t out g1 :
  after_exclusion ext a gn g = (t, Done (out, g1)) ->
  hits out <> [] /\ data_file out = data_file_lines ext (hits out).
Proof.
  unfold after_exclusion. intros H.
  bind_inv H K1 H. bind_inv H K2 H. bind_inv H K3 H. bind_inv H K4 H.
  bind_inv H K5 H. bind_inv H K6 H. apply ret_done_inv in H. destruct H as (-> & _ & _).
  simpl. split; auto. intros E. rewrite E in K6. discriminate K6.
Qed.

Lemma ologram_done a g t out g1 :
  ologram ext a g = (t, Done (out, g1)) ->
  hits out <> [] /\ data_file out = data_file_lines ext (hits out).
Proof.
  unfold ologram. intros H. bind_inv H K1 H. bind_inv H K2 H.
  eapply after_exclusion_done. exact H.
Qed.


End Table.


(** ** The p-value sentinels *)

Section Sentinels.
Import Plot.
Variable format_2g : spec_float -> string.
Variable log10 : spec_float -> spec_float.

Lemma feq_zero_not_minus_one (x : spec_float) : feq x zero = true -> feq x minus_one = false.
Proof. destruct x as [s|s| |s m e]; try destruct s; simpl; try discriminate; reflexivity. Qed.

Lemma format_pvalue_zero (x : spec_float) :
  feq x zero = true -> format_pvalue format_2g x = "p<1e-320".
Proof. unfold format_pvalue. intros ->. reflexivity. Qed.

Lemma format_pvalue_minus_one (x : spec_float) :
  feq x minus_one = true -> format_pvalue format_2g x = "p=NA".
Proof.
  unfold format_pvalue. intros H. rewrite H.
  destruct (feq x zero) eqn:E; [|reflexivity].
  apply feq_zero_not_minus_one in E. congruence.
Qed.

Lemma floor_zero_pvalue (r : stat_row) :
  feq (pvalue r) minus_one = false ->
  feq (pvalue (floor_zero r)) minus_one = false /\ feq (pvalue (floor_zero r)) zero = false.
Proof.
  unfold floor_zero. destruct (feq (pvalue r) zero) eqn:E; simpl; auto.
Qed.

Lemma volcano_rows_pvalue (statistic : string) (mat : list stat_row) (v : volcano_row) :
  In v (volcano_rows log10 statistic mat) ->
  feq (v_pvalue v) minus_one = false /\ feq (v_pvalue v) zero = false.
Proof.
  unfold volcano_rows, drop_uncomputed. rewrite map_map. intros H.
  apply in_map_iff in H. destruct H as (r & <- & Hr). apply filter_In in Hr.
  destruct Hr as [_ Hr]. apply negb_true_iff in Hr. simpl. apply floor_zero_pvalue. exact Hr.
Qed.

Lemma volcano_rows_zero (statistic : string) (mat : list stat_row) (r : stat_row) :
  In r mat -> feq (pvalue r) zero = true ->
  In (mk_volcano_row (feature_type r) (log2_fold_change r) floor_1e_320
        (SFopp (log10 floor_1e_320)) statistic)
     (volcano_rows log10 statistic mat).
Proof.
  intros Hin Hz. unfold volcano_rows. rewrite map_map. apply in_map_iff. exists r. split.
  - unfold floor_zero. rewrite Hz. reflexivity.
  - apply filter_In. split; auto. rewrite (feq_zero_not_minus_one _ Hz). reflexivity.
Qed.

Lemma volcano_rows_features (statistic : string) (mat : list stat_row) :
  map Feature (volcano_rows log10 statistic mat)
  = map feature_type (filter (fun r => negb (feq (pvalue r) minus_one)) mat).
Proof.
  unfold volcano_rows, drop_uncomputed. rewrite !map_map. apply map_ext.
  intros r. simpl. unfold floor_zero. destruct (feq (pvalue r) zero); reflexivity.
Qed.


End Sentinels.


(** ** Combinations of the multiple overlaps *)

Section Combinations.
Context {GTF RNG : Type} (ext : Collaborators GTF RNG).
Local Open Scope run_scope.

Lemma combi_uniq_In (k : CombinationKey) (l : list CombinationKey) :
  In k (combi_uniq l) -> In k l.
Proof.
  induction l as [|x l IH]; simpl; auto.
  intros [E|H]; auto. apply filter_In in H. tauto.
Qed.

Lemma observed_retained_query (data : list (list (CombinationKey * Z))) (k : CombinationKey) :
  In k (observed_combinations (map retained data)) -> includes_query k = true.
Proof.
  unfold observed_combinations. intros H. apply combi_uniq_In in H.
  apply in_map_iff in H. destruct H as ([k' n] & <- & H).
  apply in_concat in H. destruct H as (loci & Hl & Hk).
  apply in_map_iff in Hl. destruct Hl as (loci0 & <- & _).
  unfold retained in Hk. apply filter_In in Hk. tauto.
Qed.

Lemma reported_include_query target max custom (observed : list CombinationKey) :
  (forall k, In k observed -> includes_query k = true) ->
  forall k, In k (reported_combinations ext target max custom observed) ->
            includes_query k = true.
Proof.
  intros Hobs k. unfold reported_combinations. destruct custom as [rows|].
  - intros H. apply in_map_iff in H. destruct H as (row & <- & _). reflexivity.
  - assert (Hcap : forall k, In k (if target =? -1 then observed
                                   else filter (fun k => combi_size k <=? target) observed) ->
                             includes_query k = true).
    { intros k0 H0. destruct (target =? -1); auto. apply filter_In in H0. apply Hobs. tauto. }
    destruct (max =? -1); auto. intros H. apply filter_In in H. apply Hcap. tauto.
Qed.

Lemma engine_keys_include_query g (call : Call.t) k r :
  In (k, r) (fst (compute_overlap_stats_multi ext g call)) -> includes_query k = true.
Proof.
  unfold compute_overlap_stats_multi. destruct (Call.bedsB call) as [|bs fts target max custom].
  - intros [].
  - destruct (multi_intersections ext g call) as [data g']. simpl. intros H.
    apply in_map_iff in H. destruct H as (k' & E & H). inversion E; subst.
    eapply reported_include_query; [|exact H]. apply observed_retained_query.
Qed.

Lemma keys_set_In {V} (l k : string) (v : V) (d : Py.dict V) :
  In l (Py.keys (Py.set k v d)) -> l = k \/ In l (Py.keys d).
Proof.
  induction d as [|[k' v'] d IH]; simpl.
  - intros [E|[]]. auto.
  - destruct (String.eqb_spec k k') as [->|N]; simpl; intros [E|H]; auto.
    destruct (IH H); auto.
Qed.

Lemma keys_del_In {V} (l k : string) (d : Py.dict V) :
  In l (Py.keys (Py.del k d)) -> In l (Py.keys d).
Proof.
  unfold Py.keys, Py.del. intros H. apply in_map_iff in H. destruct H as (kv & E & H).
  apply filter_In in H. apply in_map_iff. exists kv. tauto.
Qed.

Lemma unwrap_keys (fts : list string) results (h : hits_t) (l : string) :
  In l (Py.keys (unwrap_multiple_beds fts results h)) ->
  In l (Py.keys h) \/ exists k r, In (k, r) results /\ l = combi_human_readable fts k.
Proof.
  unfold unwrap_multiple_beds.
  assert (G : forall h0,
            In l (Py.keys (fold_left
                    (fun hits kr => Py.set (combi_human_readable fts (fst kr)) (snd kr) hits)
                    results h0)) ->
            In l (Py.keys h0) \/ exists k r, In (k, r) results /\ l = combi_human_readable fts k).
  { induction results as [|[k r] results IH]; simpl; auto.
    intros h0 H. destruct (IH _ H) as [H1|(k1 & r1 & H1 & E)].
    - apply keys_set_In in H1. destruct H1 as [->|H1]; auto.
      right. exists k, r. auto.
    - right. exists k1, r1. auto. }
  intros H. destruct (G _ H) as [H1|H1]; auto. left. eapply keys_del_In. exact H1.
Qed.

Lemma human_readable_query (fts : list string) (k : CombinationKey) :
  includes_query k = true -> exists rest, combi_human_readable fts k = "[Query" ++ rest.
Proof.
  destruct k as [|[|] k]; try discriminate. intros _.
  unfold combi_human_readable, Py.join. simpl selected_labels.
  destruct (selected_labels fts k) as [|x xs].
  - exists "]". reflexivity.
  - eexists. simpl. reflexivity.
Qed.

Lemma overlap_partial_multi_done (a : Args.t GTF) gn bs fts g t x g1 :
  overlap_partial_multi ext a gn bs fts g = (t, Done (x, g1)) ->
  exists g0 call, x = fst (compute_overlap_stats_multi ext g0 call).
Proof.
  unfold overlap_partial_multi. intros H. bind_inv H K1 K2. cbv beta in K2.
  injection K2 as _ E. eexists _, _. rewrite E. reflexivity.
Qed.


End Combinations.


Lemma more_bed_labels_checked_witness :
  completed (snd (ologram (Reference.collaborators 1) Runs.bad_labels 0%nat)) = false
  /\ check_more_bed_labels (Some [Reference.set_A; Reference.set_B]) (Some "A,B") 0%nat
     = ([], Done (Some ["A"; "B"], 0%nat))
  /\ check_more_bed_labels (Some [Reference.set_A; Reference.set_B]) None 0%nat
     = ([Ev_message WARNING msg_labels_default;
         Ev_message DEBUG "--more-bed-label will be set to: A_bed,B"],
        Done (Some ["A_bed"; "B"], 0%nat)).
Proof.
  split; [|split].
  - destruct (more_bed_labels_checked (Reference.collaborators 1) Runs.bad_labels 0%nat
                [Reference.set_A; Reference.set_B] eq_refl) as [H _].
    destruct (H "A,B-2" eq_refl) as [H1 _]. apply H1.
    intros [HF _]. inversion HF as [|? ? _ HF']. inversion HF' as [|? ? E _]. discriminate E.
  - destruct (more_bed_labels_checked (Reference.collaborators 1)
                (set_labels Reference.base_args (Some "A,B")) 0%nat
                [Reference.set_A; Reference.set_B] eq_refl) as [H _].
    destruct (H "A,B" eq_refl) as [_ H2]. apply H2.
    split; [repeat constructor|]. split; [reflexivity|].
    repeat constructor; simpl; intuition discriminate.
  - destruct (more_bed_labels_checked (Reference.collaborators 1) Reference.base_args 0%nat
                [Reference.set_A; Reference.set_B] eq_refl) as [_ H].
    exact (proj1 (H eq_refl)).
Defined.

(** ** The reference test *)

(** The command line of the test [ologram_1] sets the extensions to 2 and
    the number of threads to 8; the numbers of minibatches and of shuffles
    in a minibatch are the parser's defaults, 10 and 20, and the seed is
    42. *)
Lemma bats_ologram_1_options :
  Parser.parse_numeric Parser.bats_ologram_1 = Parser.mk_numeric 2 2 (-1) (-1) 8 42 10 20.
Proof. reflexivity. Qed.

(** ** Examples of labels *)

Example cleaned_name_converted : cleaned_name "/data/B_converted.bed" = "B".
Proof. reflexivity. Qed.

Example cleaned_name_tmp : cleaned_name "peaks_pygtftk_ab12.bed" = "peaks".
Proof. reflexivity. Qed.

Example cleaned_name_runs : cleaned_name "dir/my-.peaks_1.bed" = "my_peaks_1_bed".
Proof. reflexivity. Qed.

Example search_label_newline : Re.search_label (String "A" (String Py.newline "")) = true.
Proof. reflexivity. Qed.

(** * Further properties of the command *)

(** ** ERROR messages and the end of the run *)

Section Discipline.
Context {RNG : Type}.
Local Open Scope run_scope.

Lemma messages_error_last (t : list event) (msg : string) :
  messages ERROR (t ++ [Ev_message ERROR msg]) = (messages ERROR t ++ [msg])%list.
Proof. rewrite messages_app. reflexivity. Qed.

Lemma disciplined_ret {A} (a : A) : disciplined (@ret RNG A a).
Proof. intros g. reflexivity. Qed.

Lemma disciplined_crash {A} : disciplined (@crash RNG A).
Proof. intros g. reflexivity. Qed.

Lemma disciplined_emit (c : Call.t) : disciplined (@emit RNG (Ev_overlap c)).
Proof. intros g. reflexivity. Qed.

Lemma disciplined_message (msg : string) (ty : level) : disciplined (@message RNG msg ty).
Proof.
  intros g. destruct ty; try reflexivity.
  unfold ends_well. simpl. exists [], msg. auto.
Qed.

Lemma disciplined_pure {A} (f : RNG -> A * RNG) :
  disciplined (fun g => ([], Done (f g)) : list event * outcome (A * RNG)).
Proof. intros g. reflexivity. Qed.

Lemma disciplined_bind {A B} (m : M RNG A) (f : A -> M RNG B) :
  disciplined m -> (forall a, disciplined (f a)) -> disciplined (bind m f).
Proof.
  intros Hm Hf g. specialize (Hm g). rewrite bind_run. unfold ends_well in *.
  destruct (m g) as [t1 [[a g1]| |]]; simpl in *; auto.
  specialize (Hf a g1). destruct (f a g1) as [t2 [x| |]]; simpl in *.
  - rewrite messages_app, Hm, Hf. reflexivity.
  - destruct Hf as (t & msg & Et & Ht). simpl in Et. subst t2.
    exists (t1 ++ t)%list, msg. split.
    + rewrite app_assoc. reflexivity.
    + rewrite messages_app, Hm, Ht. reflexivity.
  - rewrite messages_app, Hm, Hf. reflexivity.
Qed.

Lemma disciplined_when (c : bool) (m : M RNG unit) : disciplined m -> disciplined (when c m).
Proof. destruct c; simpl; auto using disciplined_ret. Qed.

Lemma disciplined_for {A} (l : list A) (body : A -> M RNG unit) :
  (forall x, disciplined (body x)) -> disciplined (for_ l body).
Proof. intros H. induction l; simpl; auto using disciplined_ret, disciplined_bind. Qed.

Lemma disciplined_fold {A S} (l : list A) (body : S -> A -> M RNG S) (s : S) :
  (forall s x, disciplined (body s x)) -> disciplined (fold_ l body s).
Proof.
  intros H. revert s. induction l; intros s; simpl; auto using disciplined_ret, disciplined_bind.
Qed.

End Discipline.

Ltac disciplined_tac :=
  repeat first
    [ apply disciplined_ret | apply disciplined_crash | apply disciplined_message
    | apply disciplined_emit | apply disciplined_pure
    | apply disciplined_when | apply disciplined_for; intro
    | apply disciplined_fold; intros
    | apply disciplined_bind; [|intro]
    | match goal with
      | |- disciplined (if ?c then _ else _) => destruct c
      | |- disciplined (match ?o with Some _ => _ | None => _ end) => destruct o
      | |- disciplined (let '(_, _) := ?p in _) => destruct p
      end ].

Section DisciplineOfOlogram.
Context {GTF RNG : Type} (ext : Collaborators GTF RNG).
Implicit Types (a : Args.t GTF) (g : RNG) (gn : genome).

Lemma disciplined_before_exclusion a : disciplined (before_exclusion ext a).
Proof.
  unfold before_exclusion, initial_checkups, multiple_overlap_checks, no_gtf_checks,
    no_basic_feature_checks, load_chrom_len, check_peak_chroms.
  disciplined_tac.
Qed.

Lemma disciplined_region_exclusion a cl pk : disciplined (region_exclusion ext a cl pk).
Proof.
  unfold region_exclusion, inclusion_to_exclusion, apply_exclusion. disciplined_tac.
Qed.

Lemma disciplined_after_exclusion a gn : disciplined (after_exclusion ext a gn).
Proof.
  unfold after_exclusion, read_gtf, check_more_bed_labels, check_label, gtf_features,
    basic_features, more_keys_features, user_annotations, one_annotation,
    check_more_bed_chroms, multiple_overlaps, add_hit, overlap_partial, overlap_partial_multi.
  disciplined_tac.
Qed.


End DisciplineOfOlogram.


(** ** Checks on the arguments *)

Section ArgumentChecks.
Context {GTF RNG : Type} (ext : Collaborators GTF RNG).
Local Open Scope run_scope.
Implicit Types (a : Args.t GTF) (g : RNG) (gn : genome).

Lemma initial_checkups_completes a g :
  snd (initial_checkups ext a g) = Done (tt, np_random_seed ext (Args.seed a)).
Proof.
  unfold initial_checkups. rewrite !bind_run. simpl.
  destruct (Args.use_markov a), (Args.nb_threads a <? cpu_count ext); reflexivity.
Qed.


Lemma multiple_overlap_checks_done a g t x :
  multiple_overlap_checks a g = (t, Done x) ->
  (Args.more_bed_multiple_overlap a = true -> Args.more_bed a <> None)
  /\ (Args.multiple_overlap_custom_combis a <> None -> Args.more_bed_multiple_overlap a = true).
Proof.
  unfold multiple_overlap_checks.
  destruct (Args.more_bed_multiple_overlap a), (Args.more_bed a),
    (Args.multiple_overlap_custom_combis a),
    (Args.multiple_overlap_target_combi_size a =? -1),
    (Args.multiple_overlap_max_number_of_combinations a =? -1);
    simpl; intros H; try discriminate H; split; congruence.
Qed.

Lemma no_gtf_checks_done a g t x :
  no_gtf_checks a g = (t, Done x) ->
  Args.no_gtf a = true ->
  Args.more_keys a = None /\ Args.no_basic_feature a = false /\ Args.more_bed a <> None.
Proof.
  unfold no_gtf_checks. intros H Hn. rewrite Hn in H. revert H.
  destruct (Args.more_keys a), (Args.no_basic_feature a), (Args.more_bed a);
    simpl; intros H; try discriminate H; repeat split; congruence.
Qed.

Lemma no_basic_feature_checks_done a g t x :
  no_basic_feature_checks a g = (t, Done x) ->
  (Args.no_basic_feature a = false ->
   Args.inputfile a <> None /\ Args.chrom_info a <> None)
  /\ (Args.no_basic_feature a = true ->
      (Args.more_keys a <> None -> Args.inputfile a <> None)
      /\ (Args.more_keys a = None -> Args.more_bed a <> None)).
Proof.
  unfold no_basic_feature_checks.
  destruct (Args.no_basic_feature a), (Args.more_keys a), (Args.inputfile a),
    (Args.chrom_info a), (Args.more_bed a);
    simpl; intros H; try discriminate H; repeat split; congruence.
Qed.

Lemma region_exclusion_done_masks a cl pk g t x :
  region_exclusion ext a cl pk g = (t, Done x) ->
  Args.bed_incl a = None \/ Args.bed_excl a = None.
Proof.
  unfold region_exclusion, inclusion_to_exclusion. rewrite bind_run.
  destruct (Args.bed_incl a); auto. destruct (Args.bed_excl a); auto.
  simpl. discriminate.
Qed.

(** A run that completes was given compatible arguments: reference sets
    for the multiple overlaps, multiple overlaps for the custom
    combinations, neither [--more-keys] nor [--no-basic-feature] but some
    [--more-bed] with [--no-gtf], a GTF and a chromInfo file for the basic
    features (even with [--no-gtf]), a GTF for [--more-keys] or else some
    [--more-bed] with [--no-basic-feature], and at most one of the two
    masks. *)
Theorem completed_run_arguments a g t x :
  ologram ext a g = (t, Done x) ->
  (Args.more_bed_multiple_overlap a = true -> Args.more_bed a <> None)
  /\ (Args.multiple_overlap_custom_combis a <> None -> Args.more_bed_multiple_overlap a = true)
  /\ (Args.no_gtf a = true ->
      Args.more_keys a = None /\ Args.no_basic_feature a = false /\ Args.more_bed a <> None)
  /\ (Args.no_basic_feature a = false ->
      Args.inputfile a <> None /\ Args.chrom_info a <> None)
  /\ (Args.no_basic_feature a = true ->
      (Args.more_keys a <> None -> Args.inputfile a <> None)
      /\ (Args.more_keys a = None -> Args.more_bed a <> None))
  /\ (Args.bed_incl a = None \/ Args.bed_excl a = None).
Proof.
  unfold ologram. intros H. bind_inv H K0 H. bind_inv H KR H.
  apply region_exclusion_done_masks in KR.
  unfold before_exclusion in K0.
  bind_inv K0 K1 K0. bind_inv K0 K2 K0. bind_inv K0 K3 K0. bind_inv K0 K4 K0.
  apply multiple_overlap_checks_done in K2. destruct K2 as [A1 A2].
  pose proof (no_gtf_checks_done _ _ _ _ K3) as A3.
  apply no_basic_feature_checks_done in K4. destruct K4 as [A4 A5].
  repeat split; auto; try (apply A3; assumption); try (apply A4; assumption);
    try (apply A5; assumption).
Qed.

End ArgumentChecks.

Lemma completed_run_arguments_witness :
  Args.more_keys Reference.base_args = None
  /\ Args.no_basic_feature Reference.base_args = false
  /\ Args.more_bed Reference.base_args <> None.
Proof.
  eapply (completed_run_arguments (Reference.collaborators 1) Reference.base_args 0%nat).
  - vm_compute. reflexivity.
  - reflexivity.
Defined.


(** ** Chromosomes that the chromInfo file does not define *)

Section UndefinedChromosomes.
Context {GTF RNG : Type} (ext : Collaborators GTF RNG).
Local Open Scope run_scope.
Implicit Types (a : Args.t GTF) (g : RNG) (gn : genome).

Lemma for_not_completed {A} (l : list A) (body : A -> M RNG unit) (x : A) :
  In x l -> (forall g, completed (snd (body x g)) = false) ->
  forall g, completed (snd (for_ l body g)) = false.
Proof.
  intros Hin Hx. induction l as [|y l IH]; [destruct Hin|].
  intros g. simpl. destruct Hin as [->|Hin].
  - apply bind_stops. apply Hx.
  - apply bind_not_completed. intros. apply IH. exact Hin.
Qed.

Lemma fold_not_completed {A S} (l : list A) (body : S -> A -> M RNG S) (x : A) :
  In x l -> (forall s g, completed (snd (body s x g)) = false) ->
  forall s g, completed (snd (fold_ l body s g)) = false.
Proof.
  intros Hin Hx. induction l as [|y l IH]; [destruct Hin|].
  intros s g. simpl. destruct Hin as [->|Hin].
  - apply bind_stops. apply Hx.
  - apply bind_not_completed. intros. apply IH. exact Hin.
Qed.

Lemma for_silent {A} (l : list A) (body : A -> M RNG unit) :
  (forall x g, In x l -> body x g = ([], Done (tt, g))) ->
  forall g, for_ l body g = ([], Done (tt, g)).
Proof.
  induction l as [|y l IH]; intros H g; [reflexivity|].
  simpl. rewrite bind_run, (H y g) by (left; reflexivity). simpl.
  rewrite IH; [reflexivity|]. intros. apply H. right. assumption.
Qed.

Lemma bed_chroms_In (b : bed) (i : region) : In i b -> In (chrom i) (bed_chroms b).
Proof. intros H. unfold bed_chroms. apply uniq_In. apply in_map. exact H. Qed.

Lemma bed_chroms_inv (b : bed) (c : string) :
  In c (bed_chroms b) -> exists i, In i b /\ chrom i = c.
Proof.
  unfold bed_chroms. intros H. apply (proj1 (uniq_In _ _)) in H.
  apply in_map_iff in H. destruct H as (i & E & H). eauto.
Qed.

(** The loop that looks for an undefined chromosome among those of a BED. *)
Lemma chrom_loop_fails (b : bed) (cl : chrom_dict) (msg : string -> string) (i : region) :
  In i b -> Py.has_key (chrom i) cl = false ->
  forall g,
    completed (snd (for_ (bed_chroms b)
                      (fun c => when (negb (Py.has_key c cl)) (message (msg c) ERROR)) g))
    = false.
Proof.
  intros Hin Hk. apply (for_not_completed _ _ (chrom i)).
  - apply bed_chroms_In. exact Hin.
  - intros g. rewrite Hk. reflexivity.
Qed.

Lemma chrom_loop_passes (b : bed) (cl : chrom_dict) (msg : string -> string) :
  (forall i, In i b -> Py.has_key (chrom i) cl = true) ->
  forall g,
    for_ (bed_chroms b) (fun c => when (negb (Py.has_key c cl)) (message (msg c) ERROR)) g
    = ([], Done (tt, g)).
Proof.
  intros H. apply for_silent. intros c g Hc.
  apply bed_chroms_inv in Hc. destruct Hc as (i & Hi & <-). rewrite (H i Hi). reflexivity.
Qed.

Lemma on_defined_chroms_empty (cl : chrom_dict) (b : bed) :
  (forall i, In i b -> Py.has_key (chrom i) cl = false) -> on_defined_chroms cl b = [].
Proof.
  intros H. unfold on_defined_chroms. induction b as [|i b IH]; [reflexivity|].
  simpl. rewrite (H i) by (left; reflexivity). apply IH. intros. apply H. right. assumption.
Qed.

Lemma on_defined_chroms_nonempty (cl : chrom_dict) (b : bed) (i : region) :
  In i b -> Py.has_key (chrom i) cl = true -> on_defined_chroms cl b <> [].
Proof.
  intros Hin Hk E. assert (H : In i (on_defined_chroms cl b)).
  { apply filter_In. auto. }
  rewrite E in H. destruct H.
Qed.

Lemma ologram_stops_before_exclusion a g :
  completed (snd (before_exclusion ext a g)) = false ->
  completed (snd (ologram ext a g)) = false /\ calls (fst (ologram ext a g)) = [].
Proof.
  intros H. unfold ologram. rewrite bind_run.
  pose proof (quiet_before_exclusion ext a g) as Q.
  destruct (before_exclusion ext a g) as [t0 [[cp g1]| |]]; simpl in *;
    try discriminate; auto.
Qed.

Lemma before_exclusion_stops_on_peaks a g cl :
  chrom_info_as_dict ext (Args.chrom_info a) = Some cl ->
  (forall g', completed (snd (check_peak_chroms a cl g')) = false) ->
  completed (snd (before_exclusion ext a g)) = false.
Proof.
  intros Hcl H. unfold before_exclusion.
  apply bind_not_completed. intros _ g1 t1 _.
  apply bind_not_completed. intros _ g2 t2 _.
  apply bind_not_completed. intros _ g3 t3 _.
  apply bind_not_completed. intros _ g4 t4 _.
  apply bind_not_completed. intros cl' g5 t5 K.
  apply load_chrom_len_done in K. assert (cl' = cl) as -> by congruence.
  apply bind_stops. apply H.
Qed.

(** Peaks on a chromosome that the chromInfo file does not define.
    Without [--force-chrom-peak] one such peak is fatal and the statistics
    engine is never called, and when every peak is on a defined chromosome
    the check says nothing and keeps all the peaks.  With the option the
    peaks on undefined chromosomes are dropped without a word; the run is
    fatal only when no peak remains. *)
Theorem undefined_peak_chromosomes a g (cl : chrom_dict) :
  chrom_info_as_dict ext (Args.chrom_info a) = Some cl ->
  let peaks := bf_regions (Args.peak_file a) in
  (Args.force_chrom_peak a = false ->
   ((exists i, In i peaks /\ Py.has_key (chrom i) cl = false) ->
    completed (snd (ologram ext a g)) = false /\ calls (fst (ologram ext a g)) = [])
   /\ ((forall i, In i peaks -> Py.has_key (chrom i) cl = true) ->
       check_peak_chroms a cl g = ([], Done (peaks, g))))
  /\ (Args.force_chrom_peak a = true ->
      ((forall i, In i peaks -> Py.has_key (chrom i) cl = false) ->
       completed (snd (ologram ext a g)) = false /\ calls (fst (ologram ext a g)) = [])
      /\ ((exists i, In i peaks /\ Py.has_key (chrom i) cl = true) ->
          check_peak_chroms a cl g = ([], Done (on_defined_chroms cl peaks, g))
          /\ Forall (fun i => Py.has_key (chrom i) cl = true) (on_defined_chroms cl peaks))).
Proof.
  intros Hcl peaks. subst peaks. split; intros Hf; split.
  - intros (i & Hin & Hk). apply ologram_stops_before_exclusion.
    apply (before_exclusion_stops_on_peaks a g cl Hcl). intros g'.
    unfold check_peak_chroms. rewrite Hf. simpl. apply bind_stops.
    apply (chrom_loop_fails _ _ _ i Hin Hk).
  - intros Hall. unfold check_peak_chroms. rewrite Hf. simpl.
    rewrite bind_run, chrom_loop_passes by exact Hall. reflexivity.
  - intros Hall. apply ologram_stops_before_exclusion.
    apply (before_exclusion_stops_on_peaks a g cl Hcl). intros g'.
    unfold check_peak_chroms. rewrite Hf. simpl.
    rewrite (on_defined_chroms_empty _ _ Hall). reflexivity.
  - intros (i & Hin & Hk). split.
    + unfold check_peak_chroms. rewrite Hf. simpl.
      pose proof (on_defined_chroms_nonempty cl _ i Hin Hk) as Hne.
      destruct (on_defined_chroms cl (bf_regions (Args.peak_file a))); [congruence|reflexivity].
    + apply Forall_forall. intros r Hr. apply filter_In in Hr. tauto.
Qed.

End UndefinedChromosomes.

Lemma undefined_peak_chromosomes_witness :
  completed (snd (ologram (Reference.collaborators 1) (Cases.stray_peak false) 0%nat)) = false
  /\ check_peak_chroms (RNG:=nat) (Cases.stray_peak true) [("chr1", 100)] 0%nat
     = ([], Done ([Reference.chr1 10 20], 0%nat)).
Proof.
  split.
  - apply (proj1 (undefined_peak_chromosomes (Reference.collaborators 1)
                    (Cases.stray_peak false) 0%nat [("chr1", 100)] eq_refl)); [reflexivity|].
    exists (mk_region "chrUn" 5 9). split; [right; left|]; reflexivity.
  - apply (proj2 (undefined_peak_chromosomes (Reference.collaborators 1)
                    (Cases.stray_peak true) 0%nat [("chr1", 100)] eq_refl)); [reflexivity|].
    exists (Reference.chr1 10 20). split; [left|]; reflexivity.
Defined.

(** ** The user-defined regions *)

Section DictFacts.
Context {V : Type}.
Implicit Types (d : Py.dict V) (k : string).

Lemma keys_set d k (v : V) :
  Py.keys (Py.set k v d) = if Py.mem k (Py.keys d) then Py.keys d else (Py.keys d ++ [k])%list.
Proof.
  induction d as [|[k' v'] d IH]; simpl; [reflexivity|].
  unfold Py.mem in *. simpl. destruct (String.eqb k k') eqn:E; simpl; [reflexivity|].
  rewrite IH. destruct (existsb (String.eqb k) (Py.keys d)); reflexivity.
Qed.

Lemma get_set_same d k (v : V) : Py.get k (Py.set k v d) = Some v.
Proof.
  induction d as [|[k' v'] d IH]; simpl.
  - rewrite String.eqb_refl. reflexivity.
  - destruct (String.eqb k k') eqn:E; simpl; rewrite E; auto.
Qed.

Lemma get_set_other d k k' (v : V) : k' <> k -> Py.get k' (Py.set k v d) = Py.get k' d.
Proof.
  intros N. induction d as [|[k0 v0] d IH]; simpl.
  - destruct (String.eqb_spec k' k); [contradiction|reflexivity].
  - destruct (String.eqb_spec k k0) as [->|N0]; simpl.
    + destruct (String.eqb_spec k' k0); [contradiction|reflexivity].
    + destruct (String.eqb k' k0); auto.
Qed.

End DictFacts.

Lemma mem_app (k : string) (l1 l2 : list string) :
  Py.mem k (l1 ++ l2) = (Py.mem k l1 || Py.mem k l2)%bool.
Proof. unfold Py.mem. apply existsb_app. Qed.

Lemma filter_filter {A} (p q : A -> bool) (l : list A) :
  filter p (filter q l) = filter (fun x => (q x && p x)%bool) l.
Proof.
  induction l as [|x l IH]; simpl; [reflexivity|].
  destruct (q x); simpl; [destruct (p x)|]; rewrite IH; reflexivity.
Qed.

(** Assigning to the keys [ls] in turn, from a dictionary with the keys
    [ks], appends the new keys once each, in order of first appearance. *)
Lemma keys_after_uniq (ls ks : list string) :
  keys_after ks ls = (ks ++ filter (fun l => negb (Py.mem l ks)) (Py.uniq ls))%list.
Proof.
  unfold keys_after. revert ks. induction ls as [|x ls IH]; intros ks; simpl.
  - rewrite app_nil_r. reflexivity.
  - rewrite IH. destruct (Py.mem x ks) eqn:E; simpl.
    + f_equal. rewrite filter_filter. apply filter_ext_in. intros y _.
      destruct (String.eqb_spec x y) as [->|N]; simpl; [rewrite E; reflexivity|reflexivity].
    + rewrite <- app_assoc. simpl. f_equal. f_equal.
      rewrite filter_filter. apply filter_ext. intros y.
      rewrite mem_app. unfold Py.mem at 2. simpl. rewrite orb_false_r.
      rewrite (String.eqb_sym y x). destruct (String.eqb x y); simpl.
      * rewrite orb_true_r. reflexivity.
      * rewrite orb_false_r. reflexivity.
Qed.

Lemma keys_after_nil (ls : list string) : keys_after [] ls = Py.uniq ls.
Proof.
  rewrite keys_after_uniq. simpl. induction (Py.uniq ls) as [|x l IH]; simpl; congruence.
Qed.

Section UserRegions.
Context {GTF RNG : Type} (ext : Collaborators GTF RNG).
Local Open Scope run_scope.
Implicit Types (a : Args.t GTF) (g : RNG) (gn : genome).

Lemma chrom_loop_done (b : bed) (cl : chrom_dict) (msg : string -> string) g t x g1 :
  for_ (bed_chroms b) (fun c => when (negb (Py.has_key c cl)) (message (msg c) ERROR)) g
  = (t, Done (x, g1)) ->
  t = [] /\ g1 = g /\ forall i, In i b -> Py.has_key (chrom i) cl = true.
Proof.
  intros H.
  destruct (forallb (fun i => Py.has_key (chrom i) cl) b) eqn:E.
  - rewrite forallb_forall in E. rewrite (chrom_loop_passes b cl msg E g) in H.
    inversion H; subst. auto.
  - assert (exists i, In i b /\ Py.has_key (chrom i) cl = false) as (i & Hi & Hk).
    { clear H. induction b as [|i b IH]; [discriminate|]. simpl in E.
      destruct (Py.has_key (chrom i) cl) eqn:K.
      - destruct (IH E) as (j & Hj & Hk). exists j. split; [right|]; assumption.
      - exists i. split; [left; reflexivity|assumption]. }
    pose proof (chrom_loop_fails b cl msg i Hi Hk g) as F. rewrite H in F. discriminate F.
Qed.

Lemma check_more_bed_chroms_done a gn (b : bed) (lab : string) g t b' g1 :
  check_more_bed_chroms a gn b lab g = (t, Done (b', g1)) ->
  t = [] /\ g1 = g
  /\ b' = (if Args.force_chrom_more_bed a then on_defined_chroms (g_chrom_len gn) b else b)
  /\ (Args.force_chrom_more_bed a = false ->
      forall i, In i b -> Py.has_key (chrom i) (g_chrom_len gn) = true)
  /\ (Args.force_chrom_more_bed a = true -> b' <> []).
Proof.
  unfold check_more_bed_chroms. destruct (Args.force_chrom_more_bed a); simpl; intros H.
  - bind_inv H K1 K2. apply ret_done_inv in K2. destruct K2 as (-> & -> & ->).
    destruct (on_defined_chroms (g_chrom_len gn) b) eqn:E; simpl in K1; [discriminate|].
    apply ret_done_inv in K1. destruct K1 as (_ & -> & ->).
    repeat split; auto; congruence.
  - bind_inv H K1 K2. apply ret_done_inv in K2. destruct K2 as (-> & -> & ->).
    apply chrom_loop_done in K1. destruct K1 as (-> & -> & Hall).
    repeat split; auto. congruence.
Qed.

Lemma add_hit_run a gn (h : hits_t) (b : bed) (ft : string) g :
  add_hit ext a gn h b ft g
  = ([Ev_overlap (overlap_partial_call a gn (SingleB b ft))],
     Done (Py.set ft (fst (stats_single ext g (overlap_partial_call a gn (SingleB b ft)))) h,
           snd (stats_single ext g (overlap_partial_call a gn (SingleB b ft))))).
Proof.
  unfold add_hit, overlap_partial. rewrite !bind_run. simpl.
  destruct (stats_single ext g _). reflexivity.
Qed.

Lemma message_done (msg : string) (ty : level) g t (x : unit) g1 :
  message msg ty g = (t, Done (x, g1)) -> calls t = [] /\ g1 = g.
Proof. destruct ty; simpl; intros H; inversion H; auto. Qed.

Lemma one_annotation_done a gn (st : annotations) (fl : bed_file * string) g t st' g1 :
  one_annotation ext a gn st fl g = (t, Done (st', g1)) ->
  all_more_beds st' = (all_more_beds st ++ [checked_more_bed a gn (fst fl)])%list
  /\ all_bed_labels st' = (all_bed_labels st ++ [snd fl])%list
  /\ (Args.force_chrom_more_bed a = false ->
      forall i, In i (bf_regions (fst fl)) -> Py.has_key (chrom i) (g_chrom_len gn) = true)
  /\ (Args.force_chrom_more_bed a = true -> checked_more_bed a gn (fst fl) <> [])
  /\ if Args.more_bed_multiple_overlap a
     then calls t = [] /\ an_hits st' = an_hits st
     else calls t = [annotation_call a gn fl]
          /\ Py.keys (an_hits st') = keys_after (Py.keys (an_hits st)) [snd fl].
Proof.
  destruct fl as [f l]. unfold one_annotation. intros H.
  apply bind_done_inv in H. destruct H as (ta & xa & ga & tb & K1 & H & ->).
  apply message_done in K1. destruct K1 as [Qa ->].
  apply bind_done_inv in H. destruct H as (tc & b' & gc & td & K2 & H & ->).
  apply check_more_bed_chroms_done in K2. destruct K2 as (-> & -> & -> & Hdef & Hne).
  rewrite calls_app, Qa. simpl. unfold checked_more_bed, annotation_call. simpl.
  destruct (Args.more_bed_multiple_overlap a); simpl in H.
  - apply ret_done_inv in H. destruct H as (-> & _ & ->). simpl. auto 6.
  - apply bind_done_inv in H. destruct H as (te & xe & ge & tf & K3 & H & ->).
    apply message_done in K3. destruct K3 as [Qe ->].
    apply bind_done_inv in H. destruct H as (th & h' & gh & ti & K4 & H & ->).
    apply ret_done_inv in H. destruct H as (-> & _ & ->).
    rewrite add_hit_run in K4. inversion K4; subst. simpl.
    rewrite calls_app, Qe. simpl. rewrite keys_set. auto 6.
Qed.

Lemma annotations_fold_done a gn (pairs : list (bed_file * string)) (st : annotations)
    g t st' g1 :
  fold_ pairs (one_annotation ext a gn) st g = (t, Done (st', g1)) ->
  all_more_beds st'
  = (all_more_beds st ++ map (fun fl => checked_more_bed a gn (fst fl)) pairs)%list
  /\ all_bed_labels st' = (all_bed_labels st ++ map snd pairs)%list
  /\ (Args.force_chrom_more_bed a = false ->
      forall fl i, In fl pairs -> In i (bf_regions (fst fl)) ->
                   Py.has_key (chrom i) (g_chrom_len gn) = true)
  /\ (Args.force_chrom_more_bed a = true ->
      forall fl, In fl pairs -> checked_more_bed a gn (fst fl) <> [])
  /\ if Args.more_bed_multiple_overlap a
     then calls t = [] /\ an_hits st' = an_hits st
     else calls t = map (annotation_call a gn) pairs
          /\ Py.keys (an_hits st') = keys_after (Py.keys (an_hits st)) (map snd pairs).
Proof.
  revert st g t. induction pairs as [|fl pairs IH]; intros st g t H; simpl in H.
  - apply ret_done_inv in H. destruct H as (-> & _ & ->). simpl.
    rewrite !app_nil_r. repeat split; try (intros; contradiction).
    destruct (Args.more_bed_multiple_overlap a); auto.
  - apply bind_done_inv in H. destruct H as (ta & sa & ga & tb & K1 & H & ->).
    apply one_annotation_done in K1. destruct K1 as (B1 & L1 & D1 & N1 & C1).
    apply IH in H. destruct H as (B2 & L2 & D2 & N2 & C2).
    rewrite B2, B1, L2, L1, <- !app_assoc. simpl. repeat split.
    + intros Hf fl' i [<-|Hin] Hi; [apply (D1 Hf i Hi)|apply (D2 Hf fl' i Hin Hi)].
    + intros Hf fl' [<-|Hin]; [apply (N1 Hf)|apply (N2 Hf fl' Hin)].
    + rewrite calls_app. destruct (Args.more_bed_multiple_overlap a).
      * destruct C1 as [-> E1], C2 as [-> E2]. split; [reflexivity|congruence].
      * destruct C1 as [-> E1], C2 as [-> E2]. split; [reflexivity|].
        rewrite E2, E1. reflexivity.
Qed.

End UserRegions.

Section NoGtfRuns.
Context {GTF RNG : Type} (ext : Collaborators GTF RNG).
Local Open Scope run_scope.
Implicit Types (a : Args.t GTF) (g : RNG) (gn : genome).

Lemma check_more_bed_labels_done (beds : list bed_file) (ls : option string) g t x g1 :
  check_more_bed_labels (Some beds) ls g = (t, Done (x, g1)) ->
  x = Some (resolved_labels beds ls)
  /\ List.length (resolved_labels beds ls) = List.length beds
  /\ calls t = [].
Proof.
  intros H. assert (Q : calls t = []).
  { change t with (fst (t, Done (x, g1))). rewrite <- H. apply quiet_check_more_bed_labels. }
  destruct ls as [s|].
  - destruct (labels_accepted beds s) eqn:E.
    + rewrite (check_more_bed_labels_accepted beds s g E) in H. inversion H; subst.
      apply labels_accepted_spec in E. simpl. tauto.
    + destruct (check_more_bed_labels_rejected beds s g E) as (t' & msg & E').
      rewrite E' in H. discriminate H.
  - rewrite check_more_bed_labels_default in H. inversion H; subst. simpl.
    rewrite length_map. auto.
Qed.

Lemma read_gtf_no_gtf a (cl : chrom_dict) g :
  Args.no_gtf a = true -> read_gtf ext a cl g = ([], Done (None, g)).
Proof. intros H. unfold read_gtf. rewrite H. reflexivity. Qed.

Lemma gtf_features_no_gtf a gn (gtf : option GTF) (h : hits_t) g :
  Args.no_gtf a = true -> gtf_features ext a gn gtf h g = ([], Done (h, g)).
Proof. intros H. unfold gtf_features. rewrite H. reflexivity. Qed.

Lemma combine_fst {A B} (l1 : list A) (l2 : list B) :
  List.length l1 = List.length l2 -> map fst (combine l1 l2) = l1.
Proof.
  revert l2. induction l1 as [|x l1 IH]; intros [|y l2] H; simpl in *; try discriminate; auto.
  f_equal. apply IH. lia.
Qed.

Lemma combine_snd {A B} (l1 : list A) (l2 : list B) :
  List.length l1 = List.length l2 -> map snd (combine l1 l2) = l2.
Proof.
  revert l2. induction l1 as [|x l1 IH]; intros [|y l2] H; simpl in *; try discriminate; auto.
  f_equal. apply IH. lia.
Qed.

Lemma user_annotations_done a gn (beds : list bed_file) (labels : list string)
    (h : hits_t) g t st g1 :
  Args.more_bed a = Some beds ->
  List.length labels = List.length beds ->
  user_annotations ext a gn (Some labels) h g = (t, Done (st, g1)) ->
  all_more_beds st = map (checked_more_bed a gn) beds
  /\ all_bed_labels st = labels
  /\ (Args.force_chrom_more_bed a = false ->
      forall f i, In f beds -> In i (bf_regions f) ->
                  Py.has_key (chrom i) (g_chrom_len gn) = true)
  /\ (Args.force_chrom_more_bed a = true ->
      forall f, In f beds -> checked_more_bed a gn f <> [])
  /\ if Args.more_bed_multiple_overlap a
     then calls t = [] /\ an_hits st = h
     else calls t = map (annotation_call a gn) (combine beds labels)
          /\ Py.keys (an_hits st) = keys_after (Py.keys h) labels.
Proof.
  intros Hb Hlen H. unfold user_annotations in H. rewrite Hb in H.
  apply bind_done_inv in H. destruct H as (ta & xa & ga & tb & K1 & H & ->).
  apply message_done in K1. destruct K1 as [Qa ->].
  apply annotations_fold_done in H. destruct H as (B & L & D & N & C). simpl in *.
  rewrite calls_app, Qa. simpl.
  assert (Ef : map fst (combine beds labels) = beds) by (apply combine_fst; lia).
  assert (Es : map snd (combine beds labels) = labels) by (apply combine_snd; lia).
  split.
  { rewrite B. rewrite <- (map_map fst (checked_more_bed a gn)), Ef. reflexivity. }
  split; [rewrite L, Es; reflexivity|].
  split.
  { intros Hf f i Hin Hi. rewrite <- Ef in Hin. apply in_map_iff in Hin.
    destruct Hin as (fl & <- & Hfl). apply (D Hf fl i Hfl Hi). }
  split.
  { intros Hf f Hin. rewrite <- Ef in Hin. apply in_map_iff in Hin.
    destruct Hin as (fl & <- & Hfl). apply (N Hf fl Hfl). }
  destruct (Args.more_bed_multiple_overlap a); [exact C|].
  rewrite Es in C. exact C.
Qed.

(** Runs without a GTF ([--no-gtf]).  When such a run completes, the
    labels are as many as the [--more-bed] files.  If the overlaps are
    not multiple, the statistics engine was called once for each file, in
    the order of the command line, on the file (restricted to the defined
    chromosomes under [--force-chrom-more-bed]) and its label, and the
    result holds one record for each distinct label, in order of first
    appearance.  If the overlaps are multiple, the engine was called once,
    on all the files and labels and with the three multiple-overlap
    options. *)
Theorem user_regions_calls a g t (out : output) g1 (beds : list bed_file) (cl : chrom_dict) :
  ologram ext a g = (t, Done (out, g1)) ->
  chrom_info_as_dict ext (Args.chrom_info a) = Some cl ->
  Args.no_gtf a = true ->
  Args.more_bed a = Some beds ->
  let gn := genome_after ext a cl (merged_peaks ext a cl) in
  let labels := resolved_labels beds (Args.more_bed_labels a) in
  List.length labels = List.length beds
  /\ if Args.more_bed_multiple_overlap a
     then calls t = [multiple_call a gn beds labels]
     else calls t = map (annotation_call a gn) (combine beds labels)
          /\ Py.keys (hits out) = Py.uniq labels.
Proof.
  intros H Hcl Hz Hb gn labels. subst gn labels. unfold ologram in H.
  apply bind_done_inv in H. destruct H as (t0 & cp & g0 & t0' & K0 & H & ->).
  assert (Q0 : calls t0 = []).
  { change t0 with (fst (t0, Done (cp, g0))). rewrite <- K0. apply quiet_before_exclusion. }
  destruct cp as [cl' pk]. apply before_exclusion_done in K0. destruct K0 as [E0 ->].
  assert (cl' = cl) as -> by congruence. simpl in H.
  apply bind_done_inv in H. destruct H as (t1 & gn & g1' & t1' & KR & H & ->).
  assert (Q1 : calls t1 = []).
  { change t1 with (fst (t1, Done (gn, g1'))). rewrite <- KR. apply quiet_region_exclusion. }
  apply region_exclusion_done in KR. subst gn.
  unfold after_exclusion in H. rewrite Hb in H.
  apply bind_done_inv in H. destruct H as (t2 & gtf & g2 & t2' & K2 & H & ->).
  rewrite read_gtf_no_gtf in K2 by exact Hz. inversion K2; subst.
  apply bind_done_inv in H. destruct H as (t3 & ls & g3 & t3' & K3 & H & ->).
  apply check_more_bed_labels_done in K3. destruct K3 as (-> & Hlen & Q3).
  apply bind_done_inv in H. destruct H as (t4 & h4 & g4 & t4' & K4 & H & ->).
  rewrite gtf_features_no_gtf in K4 by exact Hz. inversion K4; subst.
  apply bind_done_inv in H. destruct H as (t5 & st & g5 & t5' & K5 & H & ->).
  apply (user_annotations_done a _ beds _ _ _ _ _ _ Hb Hlen) in K5.
  destruct K5 as (B & L & _ & _ & C).
  apply bind_done_inv in H. destruct H as (t6 & h6 & g6 & t6' & K6 & H & ->).
  apply bind_done_inv in H. destruct H as (t7 & x7 & g7 & t7' & K7 & H & ->).
  apply ret_done_inv in H. destruct H as (-> & _ & ->).
  assert (Q7 : calls t7 = []).
  { change t7 with (fst (t7, Done (x7, g7))). rewrite <- K7.
    apply quiet_when, quiet_message. }
  split; [exact Hlen|].
  rewrite !calls_app, Q0, Q1, Q3, Q7. simpl. rewrite !app_nil_r.
  unfold multiple_overlaps in K6. destruct (Args.more_bed_multiple_overlap a).
  - destruct C as [-> _]. simpl.
    apply bind_done_inv in K6. destruct K6 as (ta & ra & ga & tb & KA & KB & ->).
    apply ret_done_inv in KB. destruct KB as (_ & _ & ->). rewrite app_nil_r.
    unfold overlap_partial_multi in KA.
    apply bind_done_inv in KA. destruct KA as (tc & xc & gc & td & KC & KD & ->).
    inversion KC; subst. inversion KD; subst. simpl.
    unfold multiple_call. rewrite B, L. reflexivity.
  - destruct C as [-> Ek]. apply ret_done_inv in K6. destruct K6 as (-> & _ & ->).
    rewrite app_nil_r. split; [reflexivity|]. simpl. rewrite Ek. apply keys_after_nil.
Qed.

End NoGtfRuns.

Lemma user_regions_calls_witness :
  exists t out g1,
    ologram (Reference.collaborators 1) Cases.same_names 0%nat = (t, Done (out, g1))
    /\ List.length (calls t) = 2%nat
    /\ Py.keys (hits out) = ["A_bed"].
Proof.
  destruct (ologram (Reference.collaborators 1) Cases.same_names 0%nat)
    as [t [[out g1]| |]] eqn:E;
    [|exfalso; vm_compute in E; discriminate E|exfalso; vm_compute in E; discriminate E].
  exists t, out, g1. split; [reflexivity|].
  destruct (user_regions_calls (Reference.collaborators 1) Cases.same_names 0%nat t out g1
              [mk_bed_file "/x/A.bed" [Reference.chr1 15 25];
               mk_bed_file "/y/A.bed" [Reference.chr1 55 70]]
              [("chr1", 100)] E eq_refl eq_refl eq_refl) as (_ & Hc & Hk).
  split; [rewrite Hc; reflexivity|exact Hk].
Defined.

Section StrayRegions.
Context {GTF RNG : Type} (ext : Collaborators GTF RNG).
Local Open Scope run_scope.
Implicit Types (a : Args.t GTF) (g : RNG) (gn : genome).

(** What a completed run went through after the region exclusion. *)
Lemma ologram_done_steps a g t (out : output) g1 (cl : chrom_dict) :
  ologram ext a g = (t, Done (out, g1)) ->
  chrom_info_as_dict ext (Args.chrom_info a) = Some cl ->
  let gn := genome_after ext a cl (merged_peaks ext a cl) in
  exists ga ta gtf gb tb ls gc gd td h ge te st gf,
    read_gtf ext a (g_chrom_len gn) ga = (ta, Done (gtf, gb))
    /\ check_more_bed_labels (Args.more_bed a) (Args.more_bed_labels a) gb
       = (tb, Done (ls, gc))
    /\ gtf_features ext a gn gtf [] gd = (td, Done (h, ge))
    /\ user_annotations ext a gn ls h ge = (te, Done (st, gf)).
Proof.
  intros H Hcl gn. subst gn. unfold ologram in H.
  apply bind_done_inv in H. destruct H as (t0 & cp & g0 & t0' & K0 & H & ->).
  destruct cp as [cl' pk]. apply before_exclusion_done in K0. destruct K0 as [E0 ->].
  assert (cl' = cl) as -> by congruence. simpl in H.
  apply bind_done_inv in H. destruct H as (t1 & gn & g1' & t1' & KR & H & ->).
  apply region_exclusion_done in KR. subst gn. unfold after_exclusion in H.
  apply bind_done_inv in H. destruct H as (t2 & gtf & g2 & t2' & K2 & H & ->).
  apply bind_done_inv in H. destruct H as (t3 & ls & g3 & t3' & K3 & H & ->).
  apply bind_done_inv in H. destruct H as (t4 & h4 & g4 & t4' & K4 & H & ->).
  apply bind_done_inv in H. destruct H as (t5 & st & g5 & t5' & K5 & H & ->).
  do 13 eexists. eauto.
Qed.

Lemma has_key_keys {V} (k : string) (d1 d2 : Py.dict V) :
  Py.keys d1 = Py.keys d2 -> Py.has_key k d1 = Py.has_key k d2.
Proof. unfold Py.has_key. intros ->. reflexivity. Qed.

Lemma genome_after_keys a (cl : chrom_dict) (pk : bed) :
  (forall mask d, Py.keys (exclude_chromsizes ext mask d) = Py.keys d) ->
  Py.keys (g_chrom_len (genome_after ext a cl pk)) = Py.keys cl.
Proof.
  intros Hk. unfold genome_after. destruct (effective_exclusion ext a cl); simpl; auto.
Qed.

(** Regions of the [--more-bed] files on a chromosome that the chromInfo
    file does not define.  Without [--force-chrom-more-bed] a run
    completes only if every region of every file is on a defined
    chromosome; with the option it completes only if every file has a
    region on a defined chromosome.  (The exclusion keeps the keys of the
    chromosome sizes, as the source relies on.) *)
Theorem undefined_more_bed_chromosomes a g t (out : output) g1
    (beds : list bed_file) (cl : chrom_dict) :
  (forall mask d, Py.keys (exclude_chromsizes ext mask d) = Py.keys d) ->
  ologram ext a g = (t, Done (out, g1)) ->
  chrom_info_as_dict ext (Args.chrom_info a) = Some cl ->
  Args.more_bed a = Some beds ->
  (Args.force_chrom_more_bed a = false ->
   forall f i, In f beds -> In i (bf_regions f) -> Py.has_key (chrom i) cl = true)
  /\ (Args.force_chrom_more_bed a = true ->
      forall f, In f beds -> exists i, In i (bf_regions f) /\ Py.has_key (chrom i) cl = true).
Proof.
  intros Hk H Hcl Hb.
  destruct (ologram_done_steps a g t out g1 cl H Hcl)
    as (ga & ta & gtf & gb & tb & ls & gc & gd & td & h & ge & te & st & gf & _ & KL & _ & KU).
  rewrite Hb in KL. apply check_more_bed_labels_done in KL. destruct KL as (-> & Hlen & _).
  apply (user_annotations_done ext a _ beds _ _ _ _ _ _ Hb Hlen) in KU.
  destruct KU as (_ & _ & D & N & _).
  pose proof (genome_after_keys a cl (merged_peaks ext a cl) Hk) as Ek.
  split.
  - intros Hf f i Hin Hi. rewrite <- (has_key_keys _ _ _ Ek). apply (D Hf f i Hin Hi).
  - intros Hf f Hin. specialize (N Hf f Hin). unfold checked_more_bed in N. rewrite Hf in N.
    destruct (on_defined_chroms _ (bf_regions f)) as [|i r] eqn:E; [congruence|].
    assert (Hi : In i (on_defined_chroms
                         (g_chrom_len (genome_after ext a cl (merged_peaks ext a cl)))
                         (bf_regions f))) by (rewrite E; left; reflexivity).
    apply filter_In in Hi. exists i. rewrite <- (has_key_keys _ _ _ Ek). exact Hi.
Qed.

Lemma when_true (m : M RNG unit) : when true m = m.
Proof. reflexivity. Qed.

Lemma name_loop_done (l : list string) (cl : chrom_dict) (msg : string -> string)
    g t (x : unit) g1 :
  for_ l (fun c => when (negb (Py.has_key c cl)) (message (msg c) ERROR)) g
  = (t, Done (x, g1)) ->
  forall c, In c l -> Py.has_key c cl = true.
Proof.
  intros H c Hc. destruct (Py.has_key c cl) eqn:E; [reflexivity|].
  assert (F : completed (snd (for_ l
                (fun c => when (negb (Py.has_key c cl)) (message (msg c) ERROR)) g)) = false).
  { apply (for_not_completed l _ c Hc). intros g'. rewrite E. reflexivity. }
  rewrite H in F. discriminate F.
Qed.

Lemma read_gtf_done a (cl : chrom_dict) g t (gtf : option GTF) g1 :
  read_gtf ext a cl g = (t, Done (gtf, g1)) ->
  Args.no_gtf a = false ->
  (Args.no_basic_feature a = false \/ truthy (Args.more_keys a) = true) ->
  exists file,
    Args.inputfile a = Some file
    /\ gtf = Some (gtf_select_by_key ext file "seqid" (Py.join "," (Py.keys cl)))
    /\ (Args.force_chrom_gtf a = false ->
        forall c, In c (gtf_get_chroms ext file) -> Py.has_key c cl = true)
    /\ gtf_len ext (gtf_select_by_key ext file "seqid" (Py.join "," (Py.keys cl))) <> 0%nat.
Proof.
  intros H Hz Hr. unfold read_gtf in H. rewrite Hz in H.
  assert (C : (negb false && (negb (Args.no_basic_feature a) || truthy (Args.more_keys a)))%bool
              = true).
  { destruct Hr as [->| ->]; simpl; auto. apply orb_true_r. }
  rewrite C in H. destruct (Args.inputfile a) as [file|]; [|discriminate H].
  exists file. split; [reflexivity|].
  apply bind_done_inv in H. destruct H as (t1 & x1 & g1' & t1' & K1 & H & ->).
  apply bind_done_inv in H. destruct H as (t2 & x2 & g2 & t2' & K2 & H & ->).
  apply ret_done_inv in H. destruct H as (-> & _ & _).
  split; [reflexivity|]. split.
  - intros Hf c Hc. rewrite Hf in K1. change (negb false) with true in K1.
    rewrite when_true in K1. eapply name_loop_done in K1; eauto.
  - intros E. rewrite E in K2. discriminate K2.
Qed.

(** Chromosomes of the GTF that the chromInfo file does not define.  When
    the GTF is read (no [--no-gtf], and basic features or [--more-keys]
    asked for) and the run completes, then without [--force-chrom-gtf]
    every chromosome of the GTF is defined, and in any case some line of
    the GTF is on a defined chromosome (the selection on the keys of the
    chromosome sizes is not empty). *)
Theorem undefined_gtf_chromosomes a g t (out : output) g1 (cl : chrom_dict) :
  (forall mask d, Py.keys (exclude_chromsizes ext mask d) = Py.keys d) ->
  ologram ext a g = (t, Done (out, g1)) ->
  chrom_info_as_dict ext (Args.chrom_info a) = Some cl ->
  Args.no_gtf a = false ->
  (Args.no_basic_feature a = false \/ truthy (Args.more_keys a) = true) ->
  exists file,
    Args.inputfile a = Some file
    /\ (Args.force_chrom_gtf a = false ->
        forall c, In c (gtf_get_chroms ext file) -> Py.has_key c cl = true)
    /\ gtf_len ext (gtf_select_by_key ext file "seqid" (Py.join "," (Py.keys cl))) <> 0%nat.
Proof.
  intros Hk H Hcl Hz Hr.
  destruct (ologram_done_steps a g t out g1 cl H Hcl)
    as (ga & ta & gtf & gb & tb & ls & gc & gd & td & h & ge & te & st & gf & KG & _).
  apply read_gtf_done in KG; auto. destruct KG as (file & Hi & _ & D & N).
  pose proof (genome_after_keys a cl (merged_peaks ext a cl) Hk) as Ek.
  exists file. split; [exact Hi|]. split.
  - intros Hf c Hc. rewrite <- (has_key_keys _ _ _ Ek). apply (D Hf c Hc).
  - rewrite <- Ek. exact N.
Qed.

End StrayRegions.

Lemma undefined_more_bed_chromosomes_witness :
  (exists i, In i (bf_regions Reference.set_A) /\ Py.has_key (chrom i) [("chr1", 100)] = true)
  /\ (exists i, In i (bf_regions Cases.set_stray) /\ Py.has_key (chrom i) [("chr1", 100)] = true).
Proof.
  destruct (ologram (Reference.collaborators 1) (Cases.stray_more_bed true) 0%nat)
    as [t [[out g1]| |]] eqn:E;
    [|exfalso; vm_compute in E; discriminate E|exfalso; vm_compute in E; discriminate E].
  split;
    apply (proj2 (undefined_more_bed_chromosomes (Reference.collaborators 1)
                    (Cases.stray_more_bed true) 0%nat t out g1
                    [Reference.set_A; Cases.set_stray] [("chr1", 100)]
                    reference_exclude_chromsizes_keys E eq_refl eq_refl) eq_refl);
    simpl; auto.
Defined.

Lemma undefined_gtf_chromosomes_witness :
  exists file,
    Args.inputfile ReferenceGtf.gtf_args = Some file
    /\ (Args.force_chrom_gtf ReferenceGtf.gtf_args = false ->
        forall c, In c (gtf_get_chroms (ReferenceGtf.collaborators 1) file) ->
                  Py.has_key c [("chr1", 100)] = true)
    /\ gtf_len (ReferenceGtf.collaborators 1)
         (gtf_select_by_key (ReferenceGtf.collaborators 1) file "seqid"
            (Py.join "," (Py.keys [("chr1", 100)]))) <> 0%nat.
Proof.
  destruct (ologram (ReferenceGtf.collaborators 1) ReferenceGtf.gtf_args 0%nat)
    as [t [[out g1]| |]] eqn:E;
    [|exfalso; vm_compute in E; discriminate E|exfalso; vm_compute in E; discriminate E].
  apply (undefined_gtf_chromosomes (ReferenceGtf.collaborators 1) ReferenceGtf.gtf_args
           0%nat t out g1 [("chr1", 100)] reference_exclude_chromsizes_keys E eq_refl eq_refl).
  left. reflexivity.
Defined.

(** ** What every call of the engine receives *)

(** The arguments fixed by [functools.partial]: every call of the
    statistics engine receives the minibatch size and number and the Markov
    flag of the command line, the same exclusion mask -- none without a
    mask, else the mask (given, or complement of the inclusion file) sorted
    and merged -- and the same chromosome sizes, shortened once by the
    sorted and merged mask when there is one. *)
Theorem engine_calls_share_parameters {GTF RNG} (ext : Collaborators GTF RNG)
    (a : Args.t GTF) (g : RNG) (cl : chrom_dict) :
  chrom_info_as_dict ext (Args.chrom_info a) = Some cl ->
  Forall (fun c =>
            Call.minibatch_size c = Args.minibatch_size a
            /\ Call.minibatch_nb c = Args.minibatch_nb a
            /\ Call.use_markov_shuffling c = Args.use_markov a
            /\ Call.bed_excl c = option_map (sort_merge ext) (effective_exclusion ext a cl)
            /\ Call.chrom_len c
               = match effective_exclusion ext a cl with
                 | Some bed_excl => exclude_chromsizes ext (sort_merge ext bed_excl) cl
                 | None => cl
                 end)
         (calls (fst (ologram ext a g))).
Proof.
  intros Hcl. eapply Forall_impl; [|apply (ologram_calls ext a g cl Hcl)].
  intros c [b ->]. unfold overlap_partial_call, genome_after. simpl.
  destruct (effective_exclusion ext a cl); simpl; auto.
Qed.

Lemma engine_calls_share_parameters_witness :
  Forall (fun c =>
            Call.minibatch_size c = 20 /\ Call.minibatch_nb c = 10
            /\ Call.use_markov_shuffling c = false
            /\ Call.bed_excl c = Some [Reference.chr1 0 30]
            /\ Call.chrom_len c = [("chr1", 70)])
         (calls (fst (ologram (Reference.collaborators 1) Runs.with_exclusion 0%nat))).
Proof.
  exact (engine_calls_share_parameters (Reference.collaborators 1) Runs.with_exclusion 0%nat
           [("chr1", 100)] eq_refl).
Defined.

(** ** Colours of the p-value labels *)

Section BarColours.
Import Bars.

Lemma flt_nan (y : spec_float) : flt S754_nan y = false.
Proof. reflexivity. Qed.

Lemma signif_color_at_nan (fc_i : option spec_float) :
  signif_color_at S754_nan fc_i = Some "#b3b3b3".
Proof. reflexivity. Qed.

Lemma signif_color_from_nans (n i : nat) (fc : list spec_float) :
  signif_color_from i (repeat S754_nan n) fc = Some (repeat "#b3b3b3" n).
Proof.
  revert i. induction n as [|n IH]; intros i; simpl; [reflexivity|].
  rewrite IH. reflexivity.
Qed.

Lemma signif_color_at_some (p fc : spec_float) : exists c, signif_color_at p (Some fc) = Some c.
Proof.
  unfold signif_color_at.
  destruct (flt p f_0_05), (flt p f_1e_10); eexists; reflexivity.
Qed.

Lemma signif_color_from_app (ps qs : list spec_float) (fc : list spec_float) (i : nat)
    (cs ds : list string) :
  signif_color_from i ps fc = Some cs ->
  signif_color_from (i + List.length ps) qs fc = Some ds ->
  signif_color_from i (ps ++ qs) fc = Some (cs ++ ds)%list.
Proof.
  revert i cs. induction ps as [|p ps IH]; intros i cs H1 H2; simpl in *.
  - inversion H1; subst. rewrite Nat.add_0_r in H2. exact H2.
  - destruct (signif_color_at p (nth_error fc i)) as [c|]; [|discriminate].
    destruct (signif_color_from (S i) ps fc) as [cs'|] eqn:E; [|discriminate].
    inversion H1; subst.
    rewrite (IH (S i) cs' E); [reflexivity|].
    replace (S i + List.length ps)%nat with (i + S (List.length ps))%nat by lia. exact H2.
Qed.

Lemma signif_color_from_rows (rows : list bar_row) (fc : list spec_float) (i : nat) :
  (forall k, (k < List.length rows)%nat -> nth_error fc (i + k) <> None) ->
  exists cs,
    signif_color_from i (map b_pvalue rows) fc = Some cs
    /\ List.length cs = List.length rows.
Proof.
  revert i. induction rows as [|r rows IH]; intros i H; simpl.
  - exists []. auto.
  - pose proof (H 0%nat ltac:(simpl; lia)) as H0. rewrite Nat.add_0_r in H0.
    destruct (nth_error fc i) as [f|]; [|congruence].
    destruct (signif_color_at_some (b_pvalue r) f) as (c & ->).
    destruct (IH (S i)) as (cs & -> & Hl).
    { intros k Hk. replace (S i + k)%nat with (i + S k)%nat by lia.
      apply H. simpl. lia. }
    exists (c :: cs). simpl. auto.
Qed.

(** The loop that colours the labels never looks for a fold change that
    does not exist: for a frame of [n] lines it gives [2n] colours, and the
    last [n], those of the true values, are the neutral grey. *)
Theorem signif_color_total (dm : list bar_row) :
  exists cs,
    signif_color dm = Some (cs ++ repeat "#b3b3b3" (List.length dm))%list
    /\ List.length cs = List.length dm.
Proof.
  destruct (signif_color_from_rows dm (map fold_change dm) 0) as (cs & H & Hl).
  { intros k Hk. simpl. intros E. apply nth_error_None in E. rewrite length_map in E. lia. }
  exists cs. split; [|exact Hl]. unfold signif_color, text.
  apply signif_color_from_app; [exact H|]. apply signif_color_from_nans.
Qed.

Lemma feq_minus_one_negative (p : spec_float) :
  Plot.feq p Plot.minus_one = true -> forall m e, flt p (S754_finite false m e) = true.
Proof.
  destruct p as [s|s| |s m0 e0]; simpl; try discriminate.
  - destruct s; discriminate.
  - destruct s; [reflexivity|discriminate].
Qed.

(** A p-value of -1, which stands for "not computed", is below both
    thresholds: the label [p=NA] is drawn in the colours of the most
    significant results, dark orange when the fold change is below 1 and
    dark green when it is above 1, and in grey only when the fold change
    is neither. *)
Theorem uncomputed_pvalue_coloured_significant (p fc : spec_float) :
  Plot.feq p Plot.minus_one = true ->
  signif_color_at p (Some fc)
  = Some (if flt one fc then "#3c9040" else if flt fc one then "#cc6600" else "#b3b3b3").
Proof.
  intros H. unfold signif_color_at, f_0_05, f_1e_10.
  rewrite !(feq_minus_one_negative p H).
  destruct (flt one fc), (flt fc one); reflexivity.
Qed.

End BarColours.

Lemma uncomputed_pvalue_coloured_significant_witness :
  Bars.signif_color_at Plot.minus_one (Some (S754_zero false)) = Some "#cc6600".
Proof.
  exact (uncomputed_pvalue_coloured_significant Plot.minus_one (S754_zero false) eq_refl).
Defined.

(** ** The heatmap of the combinations *)

Lemma join_split (sep : ascii) (s : string) :
  Py.join (String sep EmptyString) (Py.split sep s) = s.
Proof.
  unfold Py.join. induction s as [|c r IH]; [reflexivity|].
  simpl. destruct (Ascii.eqb_spec c sep) as [->|N].
  - destruct (Py.split sep r) as [|w ws] eqn:E.
    + simpl in IH. subst r. discriminate E.
    + change (String.concat (String sep "") ("" :: w :: ws))
        with (String sep (String.concat (String sep "") (w :: ws))).
      rewrite IH. reflexivity.
  - destruct (Py.split sep r) as [|w ws] eqn:E.
    + simpl in IH. subst r. discriminate E.
    + destruct ws as [|y l].
      * simpl in *. subst. reflexivity.
      * change (String.concat (String sep "") (String c w :: y :: l))
          with (String c (String.concat (String sep "") (w :: y :: l))).
        rewrite IH. reflexivity.
Qed.

Lemma insert_sorted_In (x y : string) (l : list string) :
  In x (Py.insert_sorted y l) <-> x = y \/ In x l.
Proof.
  induction l as [|z l IH]; simpl.
  - split; intros [H|H]; auto.
  - destruct (String.leb y z); simpl; [split; intros [H|H]; auto|].
    rewrite IH. split; intros H; tauto.
Qed.

Lemma insert_sorted_NoDup (y : string) (l : list string) :
  NoDup l -> ~ In y l -> NoDup (Py.insert_sorted y l).
Proof.
  induction l as [|z l IH]; simpl; intros D N.
  - constructor; auto.
  - destruct (String.leb y z).
    + constructor; auto.
    + inversion D; subst. constructor.
      * rewrite insert_sorted_In. intros [->|H]; [apply N; auto|contradiction].
      * apply IH; auto.
Qed.

Lemma sorted_In (x : string) (l : list string) : In x (Py.sorted l) <-> In x l.
Proof.
  unfold Py.sorted. induction l as [|y l IH]; simpl; [tauto|].
  rewrite insert_sorted_In, IH. split; intros [H|H]; auto.
Qed.

Lemma sorted_NoDup (l : list string) : NoDup l -> NoDup (Py.sorted l).
Proof.
  unfold Py.sorted. induction 1 as [|y l N D IH]; simpl; [constructor|].
  apply insert_sorted_NoDup; [exact IH|].
  intros H. apply N. apply (proj1 (sorted_In y l)). exact H.
Qed.

Lemma uniq_app (k l : list string) :
  Py.uniq (k ++ l) = (Py.uniq k ++ filter (fun y => negb (Py.mem y k)) (Py.uniq l))%list.
Proof.
  induction k as [|x k IH]; simpl.
  - induction (Py.uniq l) as [|y u IHu]; simpl; congruence.
  - f_equal. rewrite IH, filter_app, filter_filter. f_equal.
    apply filter_ext. intros y. unfold Py.mem. simpl.
    rewrite (String.eqb_sym y x). destruct (String.eqb x y), (existsb (String.eqb y) k); reflexivity.
Qed.

Lemma uniq_NoDup_id (k : list string) : NoDup k -> Py.uniq k = k.
Proof.
  induction 1 as [|x k N D IH]; simpl; [reflexivity|].
  rewrite IH. f_equal. apply forallb_filter_id. apply forallb_forall.
  intros y Hy. destruct (String.eqb_spec x y) as [->|]; [contradiction|reflexivity].
Qed.

Lemma filter_none {A} (p : A -> bool) (l : list A) :
  (forall x, In x l -> p x = false) -> filter p l = [].
Proof.
  induction l as [|x l IH]; simpl; intros H; [reflexivity|].
  rewrite (H x (or_introl eq_refl)). apply IH. intros y Hy. apply H. auto.
Qed.

Lemma uniq_same_keys (k : list string) (ds : list (list string)) :
  NoDup k -> (forall d, In d ds -> d = k) -> ds <> [] -> Py.uniq (concat ds) = k.
Proof.
  intros D H N. destruct ds as [|d ds]; [congruence|].
  simpl. rewrite (H d (or_introl eq_refl)), uniq_app, (uniq_NoDup_id k D).
  rewrite filter_none; [apply app_nil_r|].
  intros y Hy. apply (proj1 (uniq_In _ _)) in Hy. apply in_concat in Hy.
  destruct Hy as (d' & Hd' & Hy). rewrite (H d' (or_intror Hd')) in Hy.
  apply (proj2 (mem_In _ _)) in Hy. rewrite Hy. reflexivity.
Qed.

Section TileFacts.
Import Tiles.

Variable combi : list string.

Local Abbreviation step := (fun (d : Py.dict cell) e => Py.set e (CBool (Py.mem e combi)) d).

Lemma presence_keys (es : list string) (d : Py.dict cell) :
  NoDup es -> (forall e, In e es -> ~ In e (Py.keys d)) ->
  Py.keys (fold_left step es d) = (Py.keys d ++ es)%list.
Proof.
  revert d. induction es as [|e es IH]; intros d D H; simpl.
  - rewrite app_nil_r. reflexivity.
  - inversion D as [|? ? N D']; subst.
    assert (K : Py.keys (Py.set e (CBool (Py.mem e combi)) d) = (Py.keys d ++ [e])%list).
    { rewrite keys_set. destruct (Py.mem e (Py.keys d)) eqn:E; [|reflexivity].
      apply mem_In in E. exfalso. apply (H e); simpl; auto. }
    rewrite IH; [rewrite K, <- app_assoc; reflexivity|exact D'|].
    intros e' He'. rewrite K, in_app_iff. simpl. intros [I|[->|[]]].
    + apply (H e'); simpl; auto.
    + contradiction.
Qed.

Lemma presence_get_old (es : list string) (d : Py.dict cell) (k : string) :
  ~ In k es -> Py.get k (fold_left step es d) = Py.get k d.
Proof.
  revert d. induction es as [|e es IH]; intros d N; simpl; [reflexivity|].
  rewrite IH; [|intros I; apply N; simpl; auto].
  apply get_set_other. intros ->. apply N. simpl. auto.
Qed.

Lemma presence_get_new (es : list string) (d : Py.dict cell) (e : string) :
  NoDup es -> In e es ->
  Py.get e (fold_left step es d) = Some (CBool (Py.mem e combi)).
Proof.
  revert d. induction es as [|a es IH]; intros d D I; simpl; [destruct I|].
  inversion D as [|? ? N D']; subst. destruct (String.eqb_spec a e) as [->|Ne].
  - rewrite presence_get_old by exact N. apply get_set_same.
  - destruct I as [->|I]; [congruence|]. apply IH; assumption.
Qed.

End TileFacts.

Lemma flat_map_ext_In {A B} (f g : A -> list B) (l : list A) :
  (forall a, In a l -> f a = g a) -> flat_map f l = flat_map g l.
Proof.
  induction l as [|x l IH]; simpl; intros H; [reflexivity|].
  rewrite (H x (or_introl eq_refl)), IH; [reflexivity|]. intros a Ha. apply H. auto.
Qed.

Lemma map_flat_map {A B C} (h : B -> C) (f : A -> list B) (l : list A) :
  map h (flat_map f l) = flat_map (fun x => map h (f x)) l.
Proof.
  induction l as [|x l IH]; simpl; [reflexivity|]. rewrite map_app, IH. reflexivity.
Qed.

Section Heatmap.
Import Tiles.

Lemma get_unique_elements_NoDup (combin : list (list string)) :
  NoDup (get_unique_elements combin).
Proof. apply sorted_NoDup, uniq_NoDup. Qed.

Lemma get_unique_elements_In (combin : list (list string)) (e : string) :
  In e (get_unique_elements combin) <-> exists combi, In combi combin /\ In e combi.
Proof.
  unfold get_unique_elements. rewrite sorted_In, uniq_In, in_concat. reflexivity.
Qed.

Lemma dict_current_keys (es combi : list string) :
  NoDup es -> ~ In "combi" es ->
  Py.keys (dict_current es combi) = "combi" :: es.
Proof.
  intros D N. unfold dict_current. rewrite presence_keys; [reflexivity|exact D|].
  intros e He [<-|[]]. contradiction.
Qed.

Lemma filter_all {A} (p : A -> bool) (l : list A) :
  (forall x, In x l -> p x = true) -> filter p l = l.
Proof.
  intros H. apply forallb_filter_id, forallb_forall, H.
Qed.

(** When no set is called [combi], the heatmap has one tile for each set
    that takes part in some combination and each combination, set by set
    in sorted order and, within a set, in the order of the combinations; a
    tile is labelled by the combination with its brackets and spaces
    removed, and has the colour of its set when the set takes part in the
    combination and the colour [Null] otherwise. *)
Theorem heatmap_tiles (list_of_combis : list string) :
  list_of_combis <> [] ->
  Py.mem "combi" (get_unique_elements (map combi_clean list_of_combis)) = false ->
  plot_multi_features list_of_combis
  = Some (flat_map (fun e => map (tile_of e) list_of_combis)
                   (get_unique_elements (map combi_clean list_of_combis))).
Proof.
  intros Hne Hc. unfold plot_multi_features.
  set (combin := map combi_clean list_of_combis) in *.
  set (es := get_unique_elements combin) in *.
  assert (D : NoDup es) by apply get_unique_elements_NoDup.
  assert (N : ~ In "combi" es).
  { intros I. apply (proj2 (mem_In _ _)) in I. congruence. }
  assert (C : columns (map (dict_current es) combin) = "combi" :: es).
  { unfold columns. apply uniq_same_keys.
    - constructor; assumption.
    - intros d Hd. apply in_map_iff in Hd. destruct Hd as (r & <- & Hr).
      apply in_map_iff in Hr. destruct Hr as (c & <- & _).
      apply dict_current_keys; assumption.
    - unfold combin. destruct list_of_combis; [congruence|discriminate]. }
  unfold melt. rewrite C.
  change (Py.mem "combi" ("combi" :: es)) with true. cbv iota.
  change (filter (fun c => negb (String.eqb c "combi")) ("combi" :: es))
    with (filter (fun c => negb (String.eqb c "combi")) es).
  rewrite filter_all.
  2:{ intros x Hx. destruct (String.eqb_spec x "combi") as [->|]; [contradiction|reflexivity]. }
  f_equal. rewrite map_flat_map.
  apply flat_map_ext_In. intros e He.
  unfold combin. rewrite !map_map. apply map_ext. intros label.
  unfold at_, dict_current.
  rewrite presence_get_old by exact N.
  rewrite presence_get_new by assumption.
  simpl Py.get. unfold tile_of, current_color. f_equal.
  - unfold combi_clean. change "+"%string with (String "+"%char EmptyString).
    rewrite join_split. reflexivity.
  - destruct (Py.mem e (combi_clean label)); reflexivity.
Qed.

End Heatmap.

Lemma heatmap_tiles_witness :
  Tiles.plot_multi_features ["[A + B + ... ]"; "[A + ... ]"]
  = Some [Tiles.mk_tile (Tiles.CStr "A+B+...") "..." (Tiles.CBool true) "...";
          Tiles.mk_tile (Tiles.CStr "A+...") "..." (Tiles.CBool true) "...";
          Tiles.mk_tile (Tiles.CStr "A+B+...") "A" (Tiles.CBool true) "A";
          Tiles.mk_tile (Tiles.CStr "A+...") "A" (Tiles.CBool true) "A";
          Tiles.mk_tile (Tiles.CStr "A+B+...") "B" (Tiles.CBool true) "B";
          Tiles.mk_tile (Tiles.CStr "A+...") "B" (Tiles.CBool false) "Null"].
Proof.
  exact (heatmap_tiles ["[A + B + ... ]"; "[A + ... ]"]
           ltac:(discriminate) eq_refl).
Defined.

(** ** The features taken from the GTF *)

Section GtfFeatures.
Context {GTF RNG : Type} (ext : Collaborators GTF RNG).
Local Open Scope run_scope.

Lemma tested_app t1 t2 : tested (t1 ++ t2) = (tested t1 ++ tested t2)%list.
Proof. unfold tested. rewrite calls_app, flat_map_app. reflexivity. Qed.

Lemma keys_after_app (ks l1 l2 : list string) :
  keys_after ks (l1 ++ l2) = keys_after (keys_after ks l1) l2.
Proof. unfold keys_after. apply fold_left_app. Qed.

Lemma tests_ret (h : hits_t) : tests (RNG:=RNG) (ret h) h [].
Proof. intros g. exists [], h, g. repeat split. Qed.

Lemma tests_bind (m : M RNG hits_t) (f : hits_t -> M RNG hits_t) (h : hits_t)
    (L1 L2 : list string) :
  tests m h L1 ->
  (forall h', Py.keys h' = keys_after (Py.keys h) L1 -> tests (f h') h' L2) ->
  tests (bind m f) h (L1 ++ L2).
Proof.
  intros H1 H2 g. destruct (H1 g) as (t1 & h1 & g1 & E1 & T1 & K1 & M1).
  destruct (H2 h1 K1 g1) as (t2 & h2 & g2 & E2 & T2 & K2 & M2).
  exists (t1 ++ t2)%list, h2, g2. rewrite bind_run, E1, E2. simpl.
  repeat split.
  - rewrite tested_app. congruence.
  - rewrite keys_after_app, <- K1. exact K2.
  - rewrite messages_app, M1, M2. reflexivity.
Qed.

Lemma tests_message (msg : string) (m : M RNG hits_t) (h : hits_t) (L : list string) :
  tests m h L -> tests (message msg INFO ;; m) h L.
Proof.
  intros H g. destruct (H g) as (t & h' & g' & E & T & K & Me).
  exists (Ev_message INFO msg :: t), h', g'. rewrite bind_run. simpl. rewrite E. simpl.
  repeat split; assumption.
Qed.

Lemma tests_then_message (msg : string) (m : M RNG hits_t) (h : hits_t) (L : list string) :
  tests m h L -> tests (hits <- m ;; message msg INFO ;; ret hits) h L.
Proof.
  intros H g. destruct (H g) as (t & h' & g' & E & T & K & Me).
  exists (t ++ [Ev_message INFO msg])%list, h', g'. rewrite bind_run, E. simpl.
  repeat split.
  - rewrite tested_app, T. apply app_nil_r.
  - exact K.
  - rewrite messages_app, Me. reflexivity.
Qed.

Lemma tests_add_hit a gn (h : hits_t) (b : bed) (ft : string) :
  tests (add_hit ext a gn h b ft) h [ft].
Proof.
  intros g. rewrite add_hit_run. do 3 eexists. split; [reflexivity|].
  repeat split. rewrite keys_set. reflexivity.
Qed.

Lemma tests_fold {A} (l : list A) (body : hits_t -> A -> M RNG hits_t) (F : A -> list string)
    (h : hits_t) :
  (forall h x, tests (body h x) h (F x)) -> tests (fold_ l body h) h (flat_map F l).
Proof.
  intros H. revert h. induction l as [|x l IH]; intros h; simpl.
  - apply tests_ret.
  - apply tests_bind; [apply H|]. intros h' _. apply IH.
Qed.

Lemma tests_eq (m : M RNG hits_t) (h : hits_t) (L L' : list string) :
  L = L' -> tests m h L -> tests m h L'.
Proof. intros ->. auto. Qed.

Lemma flat_map_singleton {A} (l : list A) : flat_map (fun x => [x]) l = l.
Proof. induction l as [|x l IH]; simpl; congruence. Qed.

Lemma flat_map_filter_map {A B} (p : A -> bool) (f : A -> B) (l : list A) :
  flat_map (fun x => if p x then [f x] else []) l = map f (filter p l).
Proof.
  induction l as [|x l IH]; simpl; [reflexivity|].
  destruct (p x); simpl; congruence.
Qed.

Lemma basic_features_tests a gn (gtf : GTF) (h : hits_t) ci :
  Args.chrom_info a = Some ci ->
  tests (basic_features ext a gn gtf h) h
    (gtf_get_feature_list ext gtf
     ++ (if has_lines ext gtf "feature" "gene" && has_lines ext gtf "feature" "transcript"
         then derived_features else []))%list.
Proof.
  intros Hc. unfold basic_features. apply tests_bind.
  - eapply tests_eq; [apply flat_map_singleton|].
    apply (tests_fold _ _ (fun x => [x])). intros h0 x.
    apply tests_message, tests_add_hit.
  - intros h1 _. unfold has_lines.
    destruct (negb (Nat.eqb (gtf_len ext (gtf_select_by_key ext gtf "feature" "gene")) 0)
              && negb (Nat.eqb (gtf_len ext (gtf_select_by_key ext gtf "feature" "transcript")) 0))%bool;
      [|apply tests_ret].
    apply tests_message.
    apply (tests_bind _ _ _ ["Intergenic"] ["Introns"; "Promoters"; "Terminator"]);
      [apply tests_add_hit|]. intros h2 _.
    apply tests_message.
    apply (tests_bind _ _ _ ["Introns"] ["Promoters"; "Terminator"]);
      [apply tests_add_hit|]. intros h3 _.
    rewrite Hc. apply tests_message.
    apply (tests_bind _ _ _ ["Promoters"] ["Terminator"]);
      [apply tests_add_hit|]. intros h4 _.
    apply tests_message, tests_add_hit.
Qed.

Lemma more_keys_features_tests a gn (gtf : GTF) (more_keys : string) (h : hits_t) :
  tests (more_keys_features ext a gn gtf more_keys h) h
    (flat_map (fun user_key =>
                 map (fun val => Py.join ":" [user_key; val])
                     (filter (has_lines ext gtf user_key)
                             (Py.sorted (Py.uniq (gtf_extract_data ext gtf user_key)))))
              (Py.split "," more_keys)).
Proof.
  unfold more_keys_features. apply tests_fold. intros h0 user_key.
  eapply tests_eq; [apply flat_map_filter_map|].
  apply (tests_fold _ _ (fun val => if has_lines ext gtf user_key val
                                    then [Py.join ":" [user_key; val]] else [])).
  intros h1 val. unfold has_lines.
  destruct (negb (Nat.eqb (gtf_len ext (gtf_select_by_key ext gtf user_key val)) 0));
    [|apply tests_ret].
  apply tests_then_message. apply tests_add_hit.
Qed.


End GtfFeatures.


(** ** The GTF interface *)

Section FeatureList.
Import GtfInterface.

Lemma feature_loop_nr_spec (tab : list (list string)) (alist seen : list string)
    (adict : Py.dict Z) (l : list string) :
  Py.keys adict = seen ->
  feature_loop tab alist = Returned l ->
  exists r, l = (alist ++ r)%list
            /\ feature_loop_nr tab seen adict = Returned (keys_after seen r).
Proof.
  revert alist seen adict. induction tab as [|i tab IH]; intros alist seen adict K H; simpl in *.
  - inversion H; subst. exists []. rewrite app_nil_r. auto.
  - destruct (index i 0) as [i0|]; [|discriminate].
    unfold Py.has_key. rewrite K.
    destruct (Py.mem i0 seen) eqn:E; simpl.
    + destruct (IH _ seen adict K H) as (r & -> & R).
      exists (i0 :: r). rewrite <- app_assoc. split; [reflexivity|].
      rewrite R. unfold keys_after. simpl. rewrite E. reflexivity.
    + assert (K' : Py.keys (Py.set i0 1%Z adict) = (seen ++ [i0])%list).
      { rewrite keys_set, K, E. reflexivity. }
      destruct (IH _ _ _ K' H) as (r & -> & R).
      exists (i0 :: r). rewrite <- app_assoc. split; [reflexivity|].
      rewrite R. unfold keys_after. simpl. rewrite E. reflexivity.
Qed.

(** When [get_feature_list] returns the list [l] of the features of all
    lines, [get_feature_list(nr=True)] returns [l] without its repetitions,
    in order of first appearance: each feature once, and no other. *)
Theorem get_feature_list_nr (tab : list (list string)) (l : list string) :
  get_feature_list tab false = Returned l ->
  get_feature_list tab true = Returned (Py.uniq l)
  /\ NoDup (Py.uniq l)
  /\ (forall f, In f (Py.uniq l) <-> In f l).
Proof.
  intros H. unfold get_feature_list in *.
  destruct (feature_loop_nr_spec tab [] [] [] l eq_refl H) as (r & -> & R).
  simpl. rewrite R, keys_after_nil. split; [reflexivity|]. split.
  - apply uniq_NoDup.
  - intros f. apply uniq_In.
Qed.

End FeatureList.

Lemma get_feature_list_nr_witness :
  GtfInterface.get_feature_list [["gene"]; ["exon"]; ["gene"]; ["exon"]] true
  = GtfInterface.Returned ["gene"; "exon"]
  /\ NoDup ["gene"; "exon"]
  /\ (forall f, In f ["gene"; "exon"] <-> In f ["gene"; "exon"; "gene"; "exon"]).
Proof.
  exact (get_feature_list_nr [["gene"]; ["exon"]; ["gene"]; ["exon"]]
           ["gene"; "exon"; "gene"; "exon"] eq_refl).
Defined.

Section SelectByKeyFacts.
Import GtfInterface.
Variable chomp : string -> string.
Variable strip : string -> string.

Lemma index_None {A} (l : list A) (k : Z) :
  index l k = None <-> (Z.of_nat (List.length l) <= k \/ k < - Z.of_nat (List.length l))%Z.
Proof.
  unfold index. destruct (Z.leb_spec 0 k) as [P|P].
  - rewrite nth_error_None. lia.
  - destruct (Z.leb_spec (- Z.of_nat (List.length l)) k) as [Q|Q].
    + rewrite nth_error_None. lia.
    + split; [intros _; lia|reflexivity].
Qed.

Lemma value_list_from_raises (lines : list string) (col : Z) (vl : list string) (e : exn) :
  value_list_from chomp strip lines col vl = Raised e ->
  e = IndexError /\ exists line, In line lines /\ unreadable chomp col line.
Proof.
  revert vl. induction lines as [|line lines IH]; intros vl H; simpl in H; [discriminate|].
  destruct (Z.leb_spec (col - 1)
              (Z.of_nat (List.length (Py.split tabulation (chomp line))))) as [P|P].
  - destruct (index (Py.split tabulation (chomp line)) (col - 1)) eqn:E.
    + destruct (IH _ H) as (-> & line' & I & U). split; [reflexivity|].
      exists line'. simpl. auto.
    + inversion H; subst. split; [reflexivity|]. exists line. split; [simpl; auto|].
      apply index_None in E. unfold unreadable. cbv zeta. lia.
  - destruct (IH _ H) as (-> & line' & I & U). split; [reflexivity|].
    exists line'. simpl. auto.
Qed.

Lemma value_list_from_unreadable (lines : list string) (col : Z) (vl : list string) (line : string) :
  In line lines -> unreadable chomp col line ->
  value_list_from chomp strip lines col vl = Raised IndexError.
Proof.
  revert vl. induction lines as [|l0 lines IH]; intros vl I U; [destruct I|]. simpl.
  destruct (Z.leb_spec (col - 1)
              (Z.of_nat (List.length (Py.split tabulation (chomp l0))))) as [P|P].
  - destruct (index (Py.split tabulation (chomp l0)) (col - 1)) eqn:E; [|reflexivity].
    destruct I as [->|I]; [|apply IH; assumption].
    exfalso. assert (N : index (Py.split tabulation (chomp line)) (col - 1) = None).
    { apply index_None. unfold unreadable in U. cbv zeta in U. lia. }
    congruence.
  - destruct I as [->|I]; [|apply IH; assumption].
    exfalso. unfold unreadable in U. cbv zeta in U. lia.
Qed.

(** The errors of [select_by_key].  The only [GTFtkError] it raises is
    "Need a key and value.", exactly when neither a value nor a file of
    values is given: giving both, a column beyond the fields of a line or
    an empty file is never reported.  It fails with an [IndexError]
    exactly when the values are read from the file and, for some line,
    [col] is one more than the number of fields or is below minus that
    number. *)
Theorem select_by_key_errors (key value : option string) (invert_match : bool)
    (file_with_values : option (list string)) (no_na : bool) (col : Z) :
  let r := snd (select_by_key chomp strip key value invert_match file_with_values no_na col) in
  (forall msg, r = Raised (GTFtkError msg) <->
               msg = "Need a key and value." /\ value = None /\ file_with_values = None)
  /\ (r = Raised IndexError <->
      value = None
      /\ exists lines, file_with_values = Some lines
                       /\ exists line, In line lines /\ unreadable chomp col line).
Proof.
  cbv zeta. unfold select_by_key.
  destruct value as [v|]; [destruct invert_match|]; simpl option_map; cbv iota beta.
  - split; [intros msg|]; (split; [discriminate|intros H; decompose [and] H; discriminate]).
  - split; [intros msg|]; (split; [discriminate|intros H; decompose [and] H; discriminate]).
  - replace (if invert_match then @None string else None) with (@None string)
      by (destruct invert_match; reflexivity).
    destruct file_with_values as [lines|].
    + destruct (value_list_from chomp strip lines col []) as [vl|e] eqn:E; simpl.
      * split; [intros msg|]; (split; [discriminate|]).
        -- intros (_ & _ & H). discriminate.
        -- intros (_ & lines' & H & line & I & U). inversion H; subst lines'.
           rewrite (value_list_from_unreadable lines col [] line I U) in E. discriminate.
      * destruct (value_list_from_raises lines col [] e E) as (-> & line & I & U).
        split; [intros msg|]; split.
        -- discriminate.
        -- intros (_ & _ & H). discriminate.
        -- intros _. split; [reflexivity|]. exists lines. split; [reflexivity|].
           exists line. auto.
        -- reflexivity.
    + simpl. split; [intros msg|]; split.
      * intros H. inversion H. auto.
      * intros (-> & _). reflexivity.
      * discriminate.
      * intros (_ & lines & H & _). discriminate.
Qed.

End SelectByKeyFacts.
